(** * Financial-Dashboard-V3: the front end's glue logic, embedded and verified

    The development follows the repository's layers: JavaScript strings and
    numbers as the code uses them, the API client's ticker clean-up, the
    Yahoo-quote client, the dashboard hook, the presentational panels, the
    screener's condition list and the AI chat widget. *)

From Stdlib Require Import Bool List ZArith Lia Ascii String DecimalString.
From Stdlib Require Import Floats.
Import ListNotations.

Open Scope string_scope.

(* ================================================================== *)
(** ** JavaScript strings *)

(** Strings are sequences of code units.  The embedding is exact on ASCII
    text, which is what every ticker, enum label and template of the
    repository is; [toUpperCase] carries a code unit above 127 along
    unchanged.  The ticker clean-up is modelled a second time on Unicode
    text, with the full upper-case mapping ([JsText], [ApiText]); the two
    models are one function on ASCII strings ([cleanTicker_ofString]). *)
Module JsString.

Definition squote : ascii := "'"%char.
Definition dquote : ascii := "034"%char.

(** The character class of the ticker regular expression: the single and
    the double quote. *)
Definition isQuote (c : ascii) : bool :=
  Ascii.eqb c squote || Ascii.eqb c dquote.

(** [String.prototype.toUpperCase] on one code unit: a-z go to A-Z, every
    other ASCII code unit is left as it is. *)
Definition upperChar (c : ascii) : ascii :=
  let n := nat_of_ascii c in
  if (97 <=? n)%nat && (n <=? 122)%nat then ascii_of_nat (n - 32) else c.

Fixpoint toUpperCase (s : string) : string :=
  match s with
  | EmptyString => EmptyString
  | String c r => String (upperChar c) (toUpperCase r)
  end.

(** [Array.prototype.join] on an array of strings. *)
Fixpoint join (sep : string) (l : list string) : string :=
  match l with
  | [] => EmptyString
  | [x] => x
  | x :: r => x ++ sep ++ join sep r
  end.

End JsString.

(* ================================================================== *)
(** ** JavaScript numbers *)

(** Numbers are IEEE 754 binary64 values, the kernel's [float]; [/] and [>=]
    are the primitive division and comparison.  [Prim2SF] gives the exact
    value of a finite number as [m * 2^e]. *)
Module JsNumber.

(** Decimal digits of a non-negative integer, [0] for zero. *)
Definition decimal (n : Z) : string :=
  NilZero.string_of_uint (N.to_uint (Z.to_N n)).

Fixpoint zeros (k : nat) : string :=
  match k with
  | O => EmptyString
  | S k' => String "0"%char (zeros k')
  end.

(** The integer [n] for which [n / 10^f - m * 2^e] is as close to zero as
    possible, the larger one when there are two. *)
Definition nearestScaled (f : nat) (m : positive) (e : Z) : Z :=
  let num := (Z.pos m * 10 ^ Z.of_nat f)%Z in
  if (0 <=? e)%Z then (num * 2 ^ e)%Z
  else ((2 * num + 2 ^ (- e)) / (2 * 2 ^ (- e)))%Z.

(** The last steps of [Number.prototype.toFixed]: the digits of [n], padded
    with zeros to more than [f] digits, with the point before the last [f]. *)
Definition fixedNotation (f : nat) (n : Z) : string :=
  let m := decimal n in
  let k := String.length m in
  let m' := if (k <=? f)%nat then zeros (f + 1 - k) ++ m else m in
  let k' := String.length m' in
  match f with
  | O => m'
  | _ => substring 0 (k' - f) m' ++ "." ++ substring (k' - f) f m'
  end.

Definition signOf (s : bool) : string := if s then "-" else "".

Section ToString.
(** [Number::toString] where its result needs the shortest round-trip
    digits of a double (non-integers, and magnitudes from 2^53 on): a
    built-in of the language, taken as it is. *)
Variable shortest : float -> string.

(** [Number::toString] in radix 10.  An integer below 2^53 prints as its
    decimal digits. *)
Definition numberToString (x : float) : string :=
  match Prim2SF x with
  | S754_nan => "NaN"
  | S754_infinity s => signOf s ++ "Infinity"
  | S754_zero _ => "0"
  | S754_finite s m e =>
      if (0 <=? e)%Z && (Z.pos m * 2 ^ e <? 2 ^ 53)%Z
      then signOf s ++ decimal (Z.pos m * 2 ^ e)
      else if (e <? 0)%Z && (Z.pos m mod 2 ^ (- e) =? 0)%Z
      then signOf s ++ decimal (Z.pos m / 2 ^ (- e))
      else shortest x
  end.

(** [Number.prototype.toFixed(f)]: a value that is not finite prints as
    [toString] does; a negative one prints its sign and then its
    magnitude; a magnitude from 1e21 on prints as [toString] does. *)
Definition toFixed (f : nat) (x : float) : string :=
  match Prim2SF x with
  | S754_nan | S754_infinity _ => numberToString x
  | S754_zero _ => fixedNotation f 0
  | S754_finite s m e =>
      signOf s ++
      (if (1e21 <=? abs x)%float then numberToString (abs x)
       else fixedNotation f (nearestScaled f m e))
  end.
End ToString.

End JsNumber.

(* ================================================================== *)
(** ** Magnitude formatters *)

(** [formatNumber] of the FastInfo card (src/unnamed/part_003); the quote card
    and the screener carry the same ladder. *)
Module FastInfoCard.
Import JsNumber.
Section Format.
Variable shortest : float -> string.

(** [value?: number]: [None] is [undefined] or [null]. *)
Definition formatNumber (value : option float) : string :=
  match value with
  | None => "N/A"
  | Some value =>
      if (1e12 <=? value)%float then "$" ++ toFixed shortest 2 (value / 1e12) ++ "T"
      else if (1e9 <=? value)%float then "$" ++ toFixed shortest 2 (value / 1e9) ++ "B"
      else if (1e6 <=? value)%float then "$" ++ toFixed shortest 2 (value / 1e6) ++ "M"
      else if (1e3 <=? value)%float then "$" ++ toFixed shortest 2 (value / 1e3) ++ "K"
      else "$" ++ toFixed shortest 2 value
  end.

(** The suffix ladder in the words of section 4.4 of the specification, to
    compare [formatNumber] with: the scaled value to two decimals and the
    suffix, the plain value to two decimals below 1e3, and nothing else. *)
Definition suffixLadder (v : float) : string :=
  if (1e12 <=? v)%float then toFixed shortest 2 (v / 1e12) ++ "T"
  else if (1e9 <=? v)%float then toFixed shortest 2 (v / 1e9) ++ "B"
  else if (1e6 <=? v)%float then toFixed shortest 2 (v / 1e6) ++ "M"
  else if (1e3 <=? v)%float then toFixed shortest 2 (v / 1e3) ++ "K"
  else toFixed shortest 2 v.
End Format.
End FastInfoCard.

(** The formatting utilities (src/unnamed/part_007, second file). *)
Module Formatters.
Import JsNumber.
Section Format.
Variable shortest : float -> string.

Definition formatNumber (num : float) : string :=
  if (1000000 <=? num)%float then toFixed shortest 1 (num / 1000000) ++ "M"
  else if (1000 <=? num)%float then toFixed shortest 1 (num / 1000) ++ "K"
  else numberToString shortest num.
End Format.
End Formatters.

(* ================================================================== *)
(** ** The API client: [cleanTicker]  (Frontend/src/api/index.ts) *)

Module Api.
Import JsString.

(** The greedy run [Q+] over the quote class Q: what is left of [s] after
    its maximal prefix of quote characters. *)
Fixpoint skipQuotes (s : string) : string :=
  match s with
  | EmptyString => EmptyString
  | String c r => if isQuote c then skipQuotes r else s
  end.

(** Whether every code unit up to the end of input is a quote. *)
Fixpoint allQuotes (s : string) : bool :=
  match s with
  | EmptyString => true
  | String c r => isQuote c && allQuotes r
  end.

(** One match attempt of the pattern [/^Q+|Q+$/] (Q the quote class) at
    the current position; [s] is the input from that position on and
    [index0] says whether the position is the start of the input (the only
    place where [^] holds, there being no [m] flag).  A successful match
    returns the input after the match.
    The first alternative takes the whole run of quotes; the second one
    needs the run to reach the end of input. *)
Definition matchAt (index0 : bool) (s : string) : option string :=
  match s with
  | EmptyString => None
  | String c _ =>
      if isQuote c then
        if index0 then Some (skipQuotes s)
        else if allQuotes s then Some EmptyString
        else None
      else None
  end.

(** [String.prototype.replace] with a global regular expression and the
    replacement ['']: matches are dropped, unmatched code units are copied,
    and the scan resumes where the last match ended.  Every round consumes a
    code unit, so [fuel] above the length of the input is never used up. *)
Fixpoint replaceLoop (fuel : nat) (index0 : bool) (s : string) : string :=
  match fuel with
  | O => s
  | S fuel' =>
      match matchAt index0 s with
      | Some rest => replaceLoop fuel' false rest
      | None =>
          match s with
          | EmptyString => EmptyString
          | String c r => String c (replaceLoop fuel' false r)
          end
      end
  end.

Definition replaceQuotes (s : string) : string :=
  replaceLoop (S (String.length s)) true s.

(** [ticker.replace(/^Q+|Q+$/g, '').toUpperCase()], Q the quote class. *)
Definition cleanTicker (ticker : string) : string :=
  toUpperCase (replaceQuotes ticker).

(** Closed form of the scan after position 0: copy until the rest of the
    input is a non-empty run of quotes. *)
Fixpoint stripTrailing (s : string) : string :=
  match s with
  | EmptyString => EmptyString
  | String c r => if allQuotes s then EmptyString else String c (stripTrailing r)
  end.

End Api.

(* ================================================================== *)
(** ** The data model  (src/unnamed/part_000) *)

Module StockData.
Record t := {
  ticker : string;
  price : float;
  price_change_1d : float;
  price_change_5d : float;
  rsi : float;
  rsi_status : string;
  macd : float;
  macd_signal : float;
  ema20 : float;
  bollinger_high : float;
  bollinger_low : float;
  atr : float;
  trend : string;
  volume : float;
  last_updated : string
}.
End StockData.

Module NewsItem.
Record t := {
  title : string;
  url : string;
  source : string;
  published_at : string;
  content : string;
  sentiment : string;
  confidence : float
}.
End NewsItem.

Module Signal.
Record t := {
  ticker : string;
  signal : string;
  signals : list string;
  reasoning : list string;
  generated_at : string
}.
End Signal.

Module DashboardData.
Record t := {
  stocks : list StockData.t;
  news : list NewsItem.t;
  signals : list Signal.t;
  timestamp : string
}.
End DashboardData.

(* ================================================================== *)
(** ** Asynchronous calls *)

(** What an awaited call settles to: a value, or a thrown one.  A thrown
    value is an [Error] with its message, or anything else. *)
Inductive Thrown :=
| ErrorObject (message : string)
| OtherValue.

Inductive Settled (A : Type) :=
| Fulfilled (a : A)
| Rejected (e : Thrown).
Arguments Fulfilled {A} a.
Arguments Rejected {A} e.

(* ================================================================== *)
(** ** The Yahoo-quote client  (src/unnamed/part_007, first file) *)

Module YahooClient.
Import JsString.

Definition NIFTY_50_TICKERS : list string := [
  "RELIANCE"; "TCS"; "HDFCBANK"; "INFY"; "ICICIBANK"; "KOTAKBANK"; "LT";
  "AXISBANK"; "SBIN"; "HDFC"; "ITC"; "BAJFINANCE"; "BHARTIARTL"; "HCLTECH";
  "ASIANPAINT"; "MARUTI"; "WIPRO"; "ULTRACEMCO"; "TITAN"; "SUNPHARMA";
  "POWERGRID"; "JSWSTEEL"; "ONGC"; "DIVISLAB"; "NESTLEIND"; "TECHM"; "GRASIM";
  "DRREDDY"; "HEROMOTOCO"; "HINDUNILVR"; "ADANIGREEN"; "BAJAJ-AUTO"; "IOC";
  "COALINDIA"; "ADANIPORTS"; "EICHERMOT"; "SBILIFE"; "CIPLA"; "BRITANNIA";
  "TATASTEEL"; "TATAMOTORS"; "SHREECEM"; "INDUSINDBK"; "TATACONSUM"; "HINDALCO";
  "DLF"; "UPL"; "BPCL"; "M&M"; "ICICIPRULI"
].

(** The file's own [cleanTicker] has the text of the API client's. *)
Definition cleanTicker : string -> string := Api.cleanTicker.

(** [Array.prototype.includes] on strings. *)
Definition includes (l : list string) (x : string) : bool :=
  existsb (String.eqb x) l.

Definition mapTickerToYahooSymbol (ticker : string) : string :=
  let symbol := cleanTicker ticker in
  if includes NIFTY_50_TICKERS symbol then symbol ++ ".NS" else symbol.

(** The fields read from the first element of [quoteResponse.result];
    [None] is a missing ([undefined] or [null]) field. *)
Record Quote := {
  regularMarketPrice : option float;
  regularMarketChangePercent : option float;
  regularMarketVolume : option float;
  regularMarketTime : option float
}.

(** The nullish default [x ?? 0]. *)
Definition orZero (x : option float) : float :=
  match x with Some v => v | None => 0%float end.

Section Client.
(** The service: what the [k]-th GET of a call, for the query
    [symbols=symbol], settles to; a fulfilled request carries the quote at
    [data?.quoteResponse?.result?.[0]], if there is one. *)
Variable axios_get : nat -> string -> Settled (option Quote).
(** [new Date(ms).toISOString()], which throws on an invalid time value. *)
Variable toISOString : float -> Settled string.
(** [new Date().toISOString()] when the bundle is built. *)
Variable now : string.

(** The network as the client sees it: the symbols of the GETs issued so
    far, oldest first.  A computation reads the log and returns it with what
    it added. *)
Definition Requests := list string.

(** [await axios.get(YAHOO_BASE_URL, { params: { symbols: symbol } })]: the
    request is issued, and settles to what the service answers. *)
Definition get (symbol : string) (log : Requests) : Settled (option Quote) * Requests :=
  (axios_get (List.length log) symbol, (log ++ [symbol])%list).

(** [getStockData]: the symbol, the one request, and the stock built from
    the quote; every failure is rethrown. *)
Definition getStockData (ticker : string) (log : Requests)
  : Settled StockData.t * Requests :=
  let symbol := mapTickerToYahooSymbol ticker in
  let (response, log') := get symbol log in
  (match response with
   | Rejected e => Rejected e
   | Fulfilled None => Rejected (ErrorObject ("No data for symbol: " ++ symbol))
   | Fulfilled (Some quote) =>
       match toISOString (orZero (regularMarketTime quote) * 1000)%float with
       | Rejected e => Rejected e
       | Fulfilled iso =>
           Fulfilled {|
             StockData.ticker := cleanTicker ticker;
             StockData.price := orZero (regularMarketPrice quote);
             StockData.price_change_1d := orZero (regularMarketChangePercent quote);
             StockData.price_change_5d := 0;
             StockData.rsi := 0;
             StockData.rsi_status := "NEUTRAL";
             StockData.macd := 0;
             StockData.macd_signal := 0;
             StockData.ema20 := 0;
             StockData.bollinger_high := 0;
             StockData.bollinger_low := 0;
             StockData.atr := 0;
             StockData.trend :=
               if (0 <? orZero (regularMarketChangePercent quote))%float
               then "BULLISH" else "BEARISH";
             StockData.volume := orZero (regularMarketVolume quote);
             StockData.last_updated := iso
           |}
       end
   end, log').

(** The state of the [for ... of] loop: the [stocks] array and the log of
    the requests issued so far. *)
Record Loop := { stocks : list StockData.t; requested : list string }.

(** One round: [await getStockData(ticker)], then [stocks.push] on success
    and nothing but a console line on failure. *)
Definition round (st : Loop) (ticker : string) : Loop :=
  let (result, log) := getStockData ticker (requested st) in
  match result with
  | Fulfilled stockData => {| stocks := (stocks st ++ [stockData])%list; requested := log |}
  | Rejected _ => {| stocks := stocks st; requested := log |}
  end.

(** [getDashboardData]: the bundle returned and the requests the call
    issued. *)
Definition getDashboardData (tickers : list string) : DashboardData.t * Requests :=
  let source := if (0 <? List.length tickers)%nat then tickers else NIFTY_50_TICKERS in
  let final := fold_left round source {| stocks := []; requested := [] |} in
  ({| DashboardData.stocks := stocks final;
      DashboardData.news := [];
      DashboardData.signals := [];
      DashboardData.timestamp := now |},
   requested final).

(** The stock a quote gives, by the fields of the service's answer. *)
Definition answered (name : string) (quote : Quote) (iso : string) : StockData.t :=
  {| StockData.ticker := name;
     StockData.price := orZero (regularMarketPrice quote);
     StockData.price_change_1d := orZero (regularMarketChangePercent quote);
     StockData.price_change_5d := 0;
     StockData.rsi := 0;
     StockData.rsi_status := "NEUTRAL";
     StockData.macd := 0;
     StockData.macd_signal := 0;
     StockData.ema20 := 0;
     StockData.bollinger_high := 0;
     StockData.bollinger_low := 0;
     StockData.atr := 0;
     StockData.trend :=
       if (0 <? orZero (regularMarketChangePercent quote))%float
       then "BULLISH" else "BEARISH";
     StockData.volume := orZero (regularMarketVolume quote);
     StockData.last_updated := iso |}.

(** What the service's answer to the [k]-th request, made for [symbol],
    leaves in [stocks] under [name]: one stock when the answer carries a
    quote with a valid time, nothing otherwise. *)
Definition kept (k : nat) (symbol name : string) : list StockData.t :=
  match axios_get k symbol with
  | Fulfilled (Some quote) =>
      match toISOString (orZero (regularMarketTime quote) * 1000)%float with
      | Fulfilled iso => [answered name quote iso]
      | Rejected _ => []
      end
  | Fulfilled None => []
  | Rejected _ => []
  end.
End Client.
End YahooClient.

(* ================================================================== *)
(** ** The dashboard hook  (Frontend/src/hooks/useDashboardData.ts) *)

(** The three [useState] cells the hook returns. *)
Module HookState.
Record t := {
  data : option DashboardData.t;
  loading : bool;
  error : option string
}.

Definition setData (d : option DashboardData.t) (s : t) : t :=
  {| data := d; loading := loading s; error := error s |}.
Definition setLoading (b : bool) (s : t) : t :=
  {| data := data s; loading := b; error := error s |}.
Definition setError (e : option string) (s : t) : t :=
  {| data := data s; loading := loading s; error := e |}.

(** [useState(null)], [useState(true)], [useState(null)]. *)
Definition initial : t := {| data := None; loading := true; error := None |}.
End HookState.

(** [err instanceof Error ? err.message : 'Failed to fetch data'] *)
Definition fetchErrorMessage (err : Thrown) : string :=
  match err with
  | ErrorObject message => message
  | OtherValue => "Failed to fetch data"
  end.

(** Replace the element at an index, as an assignment to a captured variable
    of the [c]-th closure does. *)
Fixpoint updateAt {A : Type} (c : nat) (f : A -> A) (l : list A) : list A :=
  match l, c with
  | [], _ => []
  | x :: r, O => f x :: r
  | x :: r, S c' => x :: updateAt c' f r
  end.

(** Remove the first occurrence of an index from the in-flight list. *)
Fixpoint removeOne (c : nat) (l : list nat) : list nat :=
  match l with
  | [] => []
  | x :: r => if Nat.eqb x c then r else x :: removeOne c r
  end.

Module DashboardHook.
Import HookState.

(** What one run of the effect captures: its [tickers], its [isMounted]
    variable, and whether its [setInterval] timer is armed. *)
Record Closure := {
  tickers : list string;
  isMounted : bool;
  interval : bool
}.

(** The hook of a mounted component: its state cells, the effect runs so
    far (oldest first), the awaited [getDashboardData] calls by the index of
    the run that issued them, and every call issued, with its argument. *)
Record Hook := {
  state : HookState.t;
  closures : list Closure;
  inflight : list nat;
  calls : list (list string)
}.

Definition initial : Hook :=
  {| state := HookState.initial; closures := []; inflight := []; calls := [] |}.

Definition closureAt (h : Hook) (c : nat) : option Closure := nth_error (closures h) c.

(** [fetchData] up to its [await]: [setLoading(true)], then the call. *)
Definition fetchData_call (c : nat) (cl : Closure) (h : Hook) : Hook :=
  {| state := setLoading true (state h);
     closures := closures h;
     inflight := inflight h ++ [c];
     calls := calls h ++ [tickers cl] |}.

(** [fetchData] from its [await] on, for the run whose [isMounted] is
    [mounted] when the call settles: the [try] part or the [catch] part,
    then [finally]. *)
Definition fetchData_settle (mounted : bool) (r : Settled DashboardData.t)
    (s : HookState.t) : HookState.t :=
  let s1 :=
    match r with
    | Fulfilled dashboardData =>
        if mounted then setError None (setData (Some dashboardData) s) else s
    | Rejected err =>
        if mounted then setError (Some (fetchErrorMessage err)) s else s
    end in
  if mounted then setLoading false s1 else s1.

(** The body of the effect, run as closure number [length (closures h)]. *)
Definition runEffect (ts : list string) (h : Hook) : Hook :=
  let c := List.length (closures h) in
  if (0 <? List.length ts)%nat then
    let cl := {| tickers := ts; isMounted := true; interval := true |} in
    fetchData_call c cl
      {| state := state h; closures := closures h ++ [cl];
         inflight := inflight h; calls := calls h |}
  else
    let cl := {| tickers := ts; isMounted := true; interval := false |} in
    {| state := setError None (setLoading false (setData None (state h)));
       closures := closures h ++ [cl];
       inflight := inflight h; calls := calls h |}.

(** The clean-up the effect returned: [isMounted = false; clearInterval]. *)
Definition unmountClosure (cl : Closure) : Closure :=
  {| tickers := tickers cl; isMounted := false; interval := false |}.

(** Clean-up of run [c]; a run over an empty list returned none. *)
Definition cleanup (c : nat) (h : Hook) : Hook :=
  {| state := state h;
     closures := updateAt c (fun cl => if (0 <? List.length (tickers cl))%nat
                                       then unmountClosure cl else cl) (closures h);
     inflight := inflight h; calls := calls h |}.

(** What can happen to a mounted hook: a render with new dependencies
    (the first one mounts), a timer firing, an awaited call settling. *)
Inductive Event :=
| Render (ts : list string)
| Tick (c : nat)
| Settle (c : nat) (r : Settled DashboardData.t).

Definition step (ev : Event) (h : Hook) : option Hook :=
  match ev with
  | Render ts =>
      (* the previous run is cleaned up before the effect runs again *)
      Some (runEffect ts (cleanup (List.length (closures h) - 1) h))
  | Tick c =>
      match closureAt h c with
      | Some cl => if interval cl then Some (fetchData_call c cl h) else None
      | None => None
      end
  | Settle c r =>
      match closureAt h c with
      | Some cl =>
          if existsb (Nat.eqb c) (inflight h) then
            Some {| state := fetchData_settle (isMounted cl) r (state h);
                    closures := closures h;
                    inflight := removeOne c (inflight h);
                    calls := calls h |}
          else None
      | None => None
      end
  end.

Fixpoint run (evs : list Event) (h : Hook) : option Hook :=
  match evs with
  | [] => Some h
  | ev :: rest =>
      match step ev h with
      | Some h' => run rest h'
      | None => None
      end
  end.

Definition isRender (ev : Event) : bool :=
  match ev with Render _ => true | _ => false end.

(** The states the hook can be in: those some sequence of events leads to
    from the first render on. *)
Definition reachable (h : Hook) : Prop := exists evs, run evs initial = Some h.

(** The state the effect sets for an empty list. *)
Definition idle : HookState.t :=
  {| data := None; loading := false; error := None |}.

(** A run from which nothing more can come: its timer is not armed, and no
    call of its is awaited while its [isMounted] is still true. *)
Definition quiet (h : Hook) (c : nat) (cl : Closure) : Prop :=
  interval cl = false /\ (isMounted cl = true -> ~ In c (inflight h)).

(** Every run but the current one is quiet, and so is a run over an empty
    list; awaited calls belong to runs that exist. *)
Definition Inv (h : Hook) : Prop :=
  (forall c, In c (inflight h) -> c < List.length (closures h)) /\
  (forall c cl, nth_error (closures h) c = Some cl ->
     S c < List.length (closures h) \/ tickers cl = [] -> quiet h c cl).

Definition allQuiet (h : Hook) : Prop :=
  forall c cl, nth_error (closures h) c = Some cl -> quiet h c cl.

End DashboardHook.

(* ================================================================== *)
(** ** The earlier copy of the hook  (src/unnamed/part_008) *)

(** The same three cells; the effect has no [isMounted] variable and no test
    of [tickers.length]. *)
Module PlainHook.
Import HookState.

Record Closure := {
  tickers : list string;
  interval : bool
}.

Record Hook := {
  state : HookState.t;
  closures : list Closure;
  inflight : list nat;
  calls : list (list string)
}.

Definition initial : Hook :=
  {| state := HookState.initial; closures := []; inflight := []; calls := [] |}.

Definition fetchData_call (c : nat) (cl : Closure) (h : Hook) : Hook :=
  {| state := setLoading true (state h);
     closures := closures h;
     inflight := inflight h ++ [c];
     calls := calls h ++ [tickers cl] |}.

Definition fetchData_settle (r : Settled DashboardData.t) (s : HookState.t) : HookState.t :=
  let s1 :=
    match r with
    | Fulfilled dashboardData => setError None (setData (Some dashboardData) s)
    | Rejected err => setError (Some (fetchErrorMessage err)) s
    end in
  setLoading false s1.

(** [fetchData(); const interval = setInterval(fetchData, 60000)] *)
Definition runEffect (ts : list string) (h : Hook) : Hook :=
  let c := List.length (closures h) in
  let cl := {| tickers := ts; interval := true |} in
  fetchData_call c cl
    {| state := state h; closures := closures h ++ [cl];
       inflight := inflight h; calls := calls h |}.

(** [() => clearInterval(interval)] *)
Definition cleanup (c : nat) (h : Hook) : Hook :=
  {| state := state h;
     closures := updateAt c (fun cl => {| tickers := tickers cl; interval := false |})
                   (closures h);
     inflight := inflight h; calls := calls h |}.

End PlainHook.

(* ================================================================== *)
(** ** Presentational components *)

(** The display styles of the enum mappers.  The four icon literals of the
    news card are emoji. *)
Inductive Icon := ChartUp | ChartDown | BarChart | Newspaper.

Record SentimentStyle := {
  bg : string;
  text : string;
  border : string;
  icon : Icon
}.

Module NewsCard.
Import JsString.

(** The [default:] arm of [getSentimentColor]. *)
Definition defaultStyle : SentimentStyle :=
  {| bg := "bg-gray-50"; text := "text-gray-700"; border := "border-gray-200";
     icon := Newspaper |}.

(** [switch (sentiment.toUpperCase())] *)
Definition getSentimentColor (sentiment : string) : SentimentStyle :=
  let key := toUpperCase sentiment in
  if String.eqb key "POSITIVE" then
    {| bg := "bg-green-50"; text := "text-green-700"; border := "border-green-200";
       icon := ChartUp |}
  else if String.eqb key "NEGATIVE" then
    {| bg := "bg-red-50"; text := "text-red-700"; border := "border-red-200";
       icon := ChartDown |}
  else if String.eqb key "NEUTRAL" then
    {| bg := "bg-gray-50"; text := "text-gray-700"; border := "border-gray-200";
       icon := BarChart |}
  else defaultStyle.
End NewsCard.

(** What the panels put on the page.  A card stands for the child component
    with its props; a signal entry carries the strings the panel computes. *)
Inductive Element :=
| StockCardEl (stock : StockData.t)
| NewsCardEl (item : NewsItem.t)
| SignalEntry (ticker badge label reasoning tags generated_at : string)
| Paragraph (className content : string).

Record Panel := {
  className : string;
  children : list Element
}.

Definition isStockCard (e : Element) : bool :=
  match e with StockCardEl _ => true | _ => false end.
Definition isNewsCard (e : Element) : bool :=
  match e with NewsCardEl _ => true | _ => false end.
Definition isSignalEntry (e : Element) : bool :=
  match e with SignalEntry _ _ _ _ _ _ => true | _ => false end.

Definition countIn (p : Element -> bool) (panel : Panel) : nat :=
  List.length (filter p (children panel)).

Module StockGrid.
(** [stocks.map(stock => <StockCard .../>)] *)
Definition render (stocks : list StockData.t) : Panel :=
  {| className := "grid grid-cols-1 md:grid-cols-2 gap-4";
     children := map StockCardEl stocks |}.
End StockGrid.

Module NewsPanel.
(** [news.slice(0, 5).map(...)], or the placeholder line. *)
Definition render (news : list NewsItem.t) : Panel :=
  {| className := "space-y-3 max-h-96 overflow-y-auto";
     children :=
       if (List.length news =? 0)%nat
       then [Paragraph "text-gray-500 text-sm" "No news available"]
       else map NewsCardEl (firstn 5 news) |}.
End NewsPanel.

Module SignalsPanel.
Import JsString.

Definition defaultColor : string := "text-gray-600 bg-gray-50".

(** [switch (type)], compared as written: lower case only. *)
Definition getSignalColor (type : string) : string :=
  if String.eqb type "buy" then "text-green-600 bg-green-50"
  else if String.eqb type "sell" then "text-red-600 bg-red-50"
  else if String.eqb type "hold" then "text-yellow-600 bg-yellow-50"
  else defaultColor.

(** One entry; the time shown is the locale's rendering of [generated_at]. *)
Definition entry (signal : Signal.t) : Element :=
  SignalEntry (Signal.ticker signal)
    ("px-2 py-1 rounded text-xs font-medium " ++ getSignalColor (Signal.signal signal))
    (toUpperCase (Signal.signal signal))
    (join ", " (Signal.reasoning signal))
    ("Signals: " ++ join ", " (Signal.signals signal))
    (Signal.generated_at signal).

Definition render (signals : list Signal.t) : Panel :=
  {| className := "space-y-3";
     children :=
       if (List.length signals =? 0)%nat
       then [Paragraph "text-gray-500 text-sm" "No signals available"]
       else map entry signals |}.
End SignalsPanel.

(** The dashboard view (src/unnamed/part_004, first file). *)
Module Dashboard.
Inductive View :=
| Spinner
| ErrorView (message : string)
| NoData
| Main (timestamp : string) (stockCount : nat)
       (grid signalsPanel newsPanel : Panel).

(** JavaScript truthiness of [string | null]. *)
Definition truthy (e : option string) : bool :=
  match e with
  | None => false
  | Some m => negb (String.eqb m "")
  end.

Definition render (h : HookState.t) : View :=
  if HookState.loading h then Spinner
  else if truthy (HookState.error h) then
    ErrorView (match HookState.error h with Some m => m | None => "" end)
  else match HookState.data h with
       | None => NoData
       | Some data =>
           Main (DashboardData.timestamp data)
                (List.length (DashboardData.stocks data))
                (StockGrid.render (DashboardData.stocks data))
                (SignalsPanel.render (DashboardData.signals data))
                (NewsPanel.render (DashboardData.news data))
       end.
End Dashboard.

(* ================================================================== *)
(** ** The screener's condition list  (src/unnamed/part_004, second file) *)

Module QueryBuilder.

(** Operand values: the code types them [any]; the range operator's
    inputs pass a two-element array. *)
Inductive JsValue :=
| VUndefined
| VNumber (n : float)
| VString (s : string)
| VPair (lo hi : JsValue).

Record Condition := {
  cond_operator : string;
  cond_operands : list JsValue
}.

(** [{ operator: 'AND', operands: [] }] and what it grows into. *)
Record Query := {
  operator : string;
  operands : list Condition
}.

Definition initialQuery : Query := {| operator := "AND"; operands := [] |}.

Definition newCondition : Condition :=
  {| cond_operator := "GT"; cond_operands := [VString "marketCap"; VNumber 0] |}.

(** [Array.prototype.map] and [filter] with the index argument. *)
Fixpoint mapi {A B : Type} (f : A -> nat -> B) (i : nat) (l : list A) : list B :=
  match l with
  | [] => []
  | x :: r => f x i :: mapi f (S i) r
  end.

Fixpoint filteri {A : Type} (p : A -> nat -> bool) (i : nat) (l : list A) : list A :=
  match l with
  | [] => []
  | x :: r => if p x i then x :: filteri p (S i) r else filteri p (S i) r
  end.

(** The updaters handed to [setQuery]. *)
Definition addCondition (prev : Query) : Query :=
  {| operator := operator prev;
     operands := operands prev ++ [newCondition] |}.

Definition updateCondition (index : nat) (field value : JsValue) (prev : Query) : Query :=
  {| operator := operator prev;
     operands := mapi (fun operand i =>
                         if Nat.eqb i index
                         then {| cond_operator := cond_operator operand;
                                 cond_operands := [field; value] |}
                         else operand) 0 (operands prev) |}.

Definition removeCondition (index : nat) (prev : Query) : Query :=
  {| operator := operator prev;
     operands := filteri (fun _ i => negb (Nat.eqb i index)) 0 (operands prev) |}.

End QueryBuilder.

(* ================================================================== *)
(** ** The AI chat widget  (Frontend/src/components/AIChat.tsx) *)

Module AIChat.
Import JsString.

Inductive Sender := user | ai | system.

Record Message := {
  id : string;
  sender : Sender;
  content : string;
  timestamp : string
}.

(** One reading of the clock: [Date.now().toString()] and the locale's
    hour-and-minute label. *)
Record Clock := { nowId : string; nowLabel : string }.

(** The component's state cells, and the requests sent to [/ask] so far:
    the question (before URL encoding) and the ticker of each. *)
Record Chat := {
  messages : list Message;
  currentTicker : string;
  inputMessage : string;
  isLoading : bool;
  isMinimized : bool;
  asked : list (string * string)
}.

Definition greeting : string :=
  "Hi! I'm your AI stock assistant. Ask me about any stock analysis, buy/sell decisions, or market insights. Select a stock above and ask away!".

Definition initial (now : Clock) : Chat :=
  {| messages := [ {| id := "1"; sender := ai; content := greeting;
                      timestamp := nowLabel now |} ];
     currentTicker := "RELIANCE.NS";
     inputMessage := "";
     isLoading := false;
     isMinimized := false;
     asked := [] |}.

Definition tickerOptions : list (string * string) :=
  [ ("RELIANCE.NS", "Reliance"); ("TCS.NS", "TCS"); ("HDFCBANK.NS", "HDFC Bank");
    ("INFY.NS", "Infosys"); ("SBIN.NS", "SBI") ].

(** The [question] field of each quick question. *)
Definition quickQuestions : list string :=
  [ "Should I buy {ticker} right now?";
    "What are the risks of {ticker}?";
    "Price target for {ticker}?";
    "Volume analysis for {ticker}?" ].

(** White space of [String.prototype.trim] in the modelled range. *)
Definition isSpace (c : ascii) : bool :=
  let n := nat_of_ascii c in
  (n =? 32)%nat || ((9 <=? n)%nat && (n <=? 13)%nat) || (n =? 160)%nat.

Fixpoint trimStart (s : string) : string :=
  match s with
  | EmptyString => EmptyString
  | String c r => if isSpace c then trimStart r else s
  end.

Fixpoint allSpaces (s : string) : bool :=
  match s with
  | EmptyString => true
  | String c r => isSpace c && allSpaces r
  end.

Fixpoint trimEnd (s : string) : string :=
  match s with
  | EmptyString => EmptyString
  | String c r => if allSpaces s then EmptyString else String c (trimEnd r)
  end.

Definition trim (s : string) : string := trimEnd (trimStart s).

Fixpoint dropChars (n : nat) (s : string) : string :=
  match n, s with
  | O, _ => s
  | S n', String _ r => dropChars n' r
  | S _, EmptyString => EmptyString
  end.

(** [s.replace(pattern, replacement)] with a string pattern: the first
    occurrence only.  The replacement is inserted as it is, which is what
    [replace] does when it holds no dollar sign, as every ticker of
    [tickerOptions] does. *)
Fixpoint replaceFirst (pattern replacement s : string) : string :=
  if prefix pattern s then replacement ++ dropChars (String.length pattern) s
  else match s with
       | EmptyString => EmptyString
       | String c r => String c (replaceFirst pattern replacement r)
       end.

Definition addMessage (now : Clock) (who : Sender) (body : string) (st : Chat) : Chat :=
  {| messages := messages st ++ [ {| id := nowId now; sender := who; content := body;
                                     timestamp := nowLabel now |} ];
     currentTicker := currentTicker st;
     inputMessage := inputMessage st;
     isLoading := isLoading st;
     isMinimized := isMinimized st;
     asked := asked st |}.

Definition setInputMessage (v : string) (st : Chat) : Chat :=
  {| messages := messages st; currentTicker := currentTicker st; inputMessage := v;
     isLoading := isLoading st; isMinimized := isMinimized st; asked := asked st |}.

Definition setIsLoading (b : bool) (st : Chat) : Chat :=
  {| messages := messages st; currentTicker := currentTicker st;
     inputMessage := inputMessage st;
     isLoading := b; isMinimized := isMinimized st; asked := asked st |}.

Definition setCurrentTicker (t : string) (st : Chat) : Chat :=
  {| messages := messages st; currentTicker := t; inputMessage := inputMessage st;
     isLoading := isLoading st; isMinimized := isMinimized st; asked := asked st |}.

(** [askQuestion] up to its first [await]: [setIsLoading(true)], then the
    [fetch] of [/ask?q=...&ticker=...]. *)
Definition askQuestion_call (question : string) (st : Chat) : Chat :=
  let st1 := setIsLoading true st in
  {| messages := messages st1; currentTicker := currentTicker st1;
     inputMessage := inputMessage st1;
     isLoading := isLoading st1; isMinimized := isMinimized st1;
     asked := asked st1 ++ [(question, currentTicker st1)] |}.

(** The decoded reply: whether [data.error] is truthy, the answer if there
    is one, and the market-data card [addContextInfo] builds when the
    context carries a current price. *)
Record Reply := {
  hasError : bool;
  answer : option string;
  contextCard : option string
}.

Definition connectionApology : string :=
  "Sorry, I'm having trouble connecting. Please check your internet connection and try again.".

(** [data.answer || 'Please try again.'] *)
Definition answerOrRetry (a : option string) : string :=
  match a with
  | Some t => if String.eqb t "" then "Please try again." else t
  | None => "Please try again."
  end.

(** [askQuestion] from the [await] on. *)
Definition askQuestion_settle (now : Clock) (r : Settled Reply) (st : Chat) : Chat :=
  let st1 :=
    match r with
    | Fulfilled data =>
        if hasError data then
          addMessage now ai ("Sorry, I encountered an error: " ++ answerOrRetry (answer data)) st
        else
          let st' := addMessage now ai (match answer data with Some t => t | None => "" end) st in
          match contextCard data with
          | Some card => addMessage now ai card st'
          | None => st'
          end
    | Rejected _ => addMessage now ai connectionApology st
    end in
  setIsLoading false st1.

(** [sendMessage] up to the [await] inside [askQuestion]. *)
Definition sendMessage (now : Clock) (st : Chat) : Chat :=
  let message := trim (inputMessage st) in
  if String.eqb message "" || isLoading st then st
  else askQuestion_call message (setInputMessage "" (addMessage now user message st)).

(** [handleQuickQuestion] up to the same [await]. *)
Definition handleQuickQuestion (question : string) (st : Chat) : Chat :=
  let formattedQuestion := replaceFirst "{ticker}" (currentTicker st) question in
  askQuestion_call formattedQuestion st.

Definition labelOf (t : string) : string :=
  match find (fun opt => String.eqb (fst opt) t) tickerOptions with
  | Some opt => if String.eqb (snd opt) "" then t else snd opt
  | None => t
  end.

Definition handleTickerChange (now : Clock) (newTicker : string) (st : Chat) : Chat :=
  addMessage now system ("Switched to analyzing " ++ labelOf newTicker)
    (setCurrentTicker newTicker st).

End AIChat.

(* ================================================================== *)
(** ** Sample data *)

(** A bundle of the shape of the end-to-end scenario: 2 stocks, 3 news items
    and 1 signal. *)
Module Samples.

Definition stock (ticker : string) (price change : float) : StockData.t :=
  {| StockData.ticker := ticker; StockData.price := price;
     StockData.price_change_1d := change; StockData.price_change_5d := 0;
     StockData.rsi := 50; StockData.rsi_status := "NEUTRAL";
     StockData.macd := 0; StockData.macd_signal := 0; StockData.ema20 := price;
     StockData.bollinger_high := price; StockData.bollinger_low := price;
     StockData.atr := 1;
     StockData.trend := "BULLISH"; StockData.volume := 1500000;
     StockData.last_updated := "2024-01-01T00:00:00.000Z" |}.

Definition item (title sentiment : string) : NewsItem.t :=
  {| NewsItem.title := title; NewsItem.url := "https://example.com/a";
     NewsItem.source := "Wire"; NewsItem.published_at := "2024-01-01T00:00:00.000Z";
     NewsItem.content := "Body"; NewsItem.sentiment := sentiment;
     NewsItem.confidence := 0.5 |}.

Definition hold : Signal.t :=
  {| Signal.ticker := "TCS.NS"; Signal.signal := "hold";
     Signal.signals := ["RSI neutral"]; Signal.reasoning := ["No clear trend"];
     Signal.generated_at := "2024-01-01T00:00:00.000Z" |}.

Definition bundle : DashboardData.t :=
  {| DashboardData.stocks := [stock "RELIANCE.NS" 2500 1.5; stock "TCS.NS" 3500 (-0.5)];
     DashboardData.news := [item "One" "positive"; item "Two" "negative";
                            item "Three" "neutral"];
     DashboardData.signals := [hold];
     DashboardData.timestamp := "2024-01-01T00:00:00.000Z" |}.

(** A hook that has loaded [bundle] once and is refreshing it: the call of
    the timer is awaited. *)
Definition refreshing : DashboardHook.Hook :=
  {| DashboardHook.state :=
       {| HookState.data := Some bundle; HookState.loading := true;
          HookState.error := None |};
     DashboardHook.closures :=
       [ {| DashboardHook.tickers := ["RELIANCE.NS"; "TCS.NS"];
            DashboardHook.isMounted := true; DashboardHook.interval := true |} ];
     DashboardHook.inflight := [0];
     DashboardHook.calls := [["RELIANCE.NS"; "TCS.NS"]; ["RELIANCE.NS"; "TCS.NS"]] |}.

Definition networkError : Thrown := ErrorObject "Network Error".

End Samples.

(* ================================================================== *)
(** ** The ticker selector  (src/unnamed/part_005, first file) *)

Module TickerSelector.
Import JsString.

Definition popularTickers : list string :=
  [ "AAPL"; "MSFT"; "GOOGL"; "AMZN"; "TSLA"; "META"; "NVDA"; "NFLX"; "BABA"; "JPM" ].

(** [selectedTickers.includes(ticker)] *)
Definition includes (l : list string) (x : string) : bool :=
  existsb (String.eqb x) l.

(** The list [handleTickerChange] hands to [onTickersChange]. *)
Definition handleTickerChange (selectedTickers : list string) (ticker : string)
  : list string :=
  if includes selectedTickers ticker
  then filter (fun t => negb (String.eqb t ticker)) selectedTickers
  else (selectedTickers ++ [ticker])%list.

(** [handleCustomTicker] for a key press with the text of the input box:
    the list handed to [onTickersChange] (the box is then cleared), or
    [None] when the handler does nothing. *)
Definition handleCustomTicker (selectedTickers : list string) (key value : string)
  : option (list string) :=
  if String.eqb key "Enter" then
    let newTicker := toUpperCase (AIChat.trim value) in
    if negb (String.eqb newTicker "") && negb (includes selectedTickers newTicker)
    then Some (selectedTickers ++ [newTicker])%list
    else None
  else None.

End TickerSelector.

(* ================================================================== *)
(** ** The bulk downloader  (Frontend/src/components/EnhancedDownloader.tsx) *)

Module EnhancedDownloader.
Import JsString.

Definition comma : ascii := ","%char.

(** [s.split(',')]: the pieces between the commas, empty ones included; the
    empty string gives one empty piece. *)
Fixpoint split (s : string) : list string :=
  match s with
  | EmptyString => [EmptyString]
  | String c r =>
      if Ascii.eqb c comma then EmptyString :: split r
      else match split r with
           | piece :: pieces => String c piece :: pieces
           | [] => [String c EmptyString]
           end
  end.

(** [tickers.split(',').map(t => t.trim()).filter(t => t)] *)
Definition tickerList (tickers : string) : list string :=
  filter (fun t => negb (String.eqb t "")) (map AIChat.trim (split tickers)).

(** The decoded download result is opaque to the component. *)
Record DownloadResult := { payload : string }.

(** The form's state cells, and the query parameters of each request sent
    to [/enhanced-download], as name-value pairs before URL encoding. *)
Record Form := {
  tickers : string;
  startDate : string;
  endDate : string;
  period : string;
  interval : string;
  includeIndicators : bool;
  includeSentiment : bool;
  loading : bool;
  error : option string;
  result : option DownloadResult;
  requests : list (list (string * string))
}.

Definition initial : Form :=
  {| tickers := "RELIANCE.NS,TCS.NS,HDFCBANK.NS"; startDate := ""; endDate := "";
     period := "1mo"; interval := "1d";
     includeIndicators := true; includeSentiment := false;
     loading := false; error := None; result := None; requests := [] |}.

Definition withStatus (l : bool) (e : option string) (r : option DownloadResult)
    (q : list (list (string * string))) (f : Form) : Form :=
  {| tickers := tickers f; startDate := startDate f; endDate := endDate f;
     period := period f; interval := interval f;
     includeIndicators := includeIndicators f; includeSentiment := includeSentiment f;
     loading := l; error := e; result := r; requests := q |}.

(** [Boolean.prototype.toString] *)
Definition boolToString (b : bool) : string := if b then "true" else "false".

(** The [URLSearchParams] of the request: the seven fixed entries, then
    [start] and [end] when the dates are not empty. *)
Definition params (f : Form) (names : list string) : list (string * string) :=
  ([ ("tickers", join "," names);
     ("period", period f);
     ("interval", interval f);
     ("include_indicators", boolToString (includeIndicators f));
     ("include_sentiment", boolToString (includeSentiment f));
     ("threads", "true");
     ("timeout", "30") ]
   ++ (if String.eqb (startDate f) "" then [] else [("start", startDate f)])
   ++ (if String.eqb (endDate f) "" then [] else [("end", endDate f)]))%list.

Definition noTickerMessage : string := "Please enter at least one ticker symbol".

(** [handleDownload] up to its [await]: with an empty ticker list the
    [throw] is caught at once, so the handler finishes without a request. *)
Definition handleDownload_call (f : Form) : Form :=
  let names := tickerList (tickers f) in
  if (List.length names =? 0)%nat
  then withStatus false (Some noTickerMessage) (result f) (requests f) f
  else withStatus true None (result f) (requests f ++ [params f names])%list f.

(** What the [fetch] settles to: the response's [ok] flag and status, and
    what [response.json()] settles to. *)
Record Response := {
  ok : bool;
  status : nat;
  json : Settled DownloadResult
}.

(** [err instanceof Error ? err.message : 'An error occurred'] *)
Definition errorMessage (err : Thrown) : string :=
  match err with
  | ErrorObject message => message
  | OtherValue => "An error occurred"
  end.

(** [handleDownload] from the [await] on. *)
Definition handleDownload_settle (r : Settled Response) (f : Form) : Form :=
  let failed (err : Thrown) :=
    withStatus false (Some (errorMessage err)) (result f) (requests f) f in
  match r with
  | Rejected err => failed err
  | Fulfilled response =>
      if ok response then
        match json response with
        | Fulfilled data => withStatus false (error f) (Some data) (requests f) f
        | Rejected err => failed err
        end
      else failed (ErrorObject ("HTTP error! status: "
                                ++ JsNumber.decimal (Z.of_nat (status response))))
  end.

(** A string that does not begin with white space. *)
Definition noLeadingSpace (s : string) : bool :=
  match s with
  | EmptyString => true
  | String c _ => negb (AIChat.isSpace c)
  end.

(** A string without a comma. *)
Fixpoint commaFree (s : string) : bool :=
  match s with
  | EmptyString => true
  | String c r => negb (Ascii.eqb c comma) && commaFree r
  end.

(** A string of commas and white space only. *)
Fixpoint blank (s : string) : bool :=
  match s with
  | EmptyString => true
  | String c r => (Ascii.eqb c comma || AIChat.isSpace c) && blank r
  end.

(** What a well-formed entry of the ticker list is: not empty, trimmed, and
    without a comma. *)
Definition entry (t : string) : Prop :=
  t <> "" /\ AIChat.trim t = t /\ commaFree t = true.

End EnhancedDownloader.

(* ================================================================== *)
(** ** Price-change colour and arrow of the FastInfo card  (src/unnamed/part_003) *)

Module FastInfoPrice.

(** JavaScript falsiness of [number | undefined]: a missing value, a zero of
    either sign, and NaN. *)
Definition falsy (x : option float) : bool :=
  match x with
  | None => true
  | Some v =>
      match Prim2SF v with
      | S754_zero _ | S754_nan => true
      | _ => false
      end
  end.

(** [current > previous] on optional numbers; a comparison with [undefined]
    is false. *)
Definition gt (a b : option float) : bool :=
  match a, b with
  | Some x, Some y => (y <? x)%float
  | _, _ => false
  end.

(** The arrows of [getPriceChangeIcon]: north-east, south-east and
    rightwards. *)
Inductive Arrow := ArrowUp | ArrowDown | ArrowFlat.

Definition getPriceChangeColor (current previous : option float) : string :=
  if falsy current || falsy previous then "text-gray-600"
  else if gt current previous then "text-green-600"
  else if gt previous current then "text-red-600"
  else "text-gray-600".

Definition getPriceChangeIcon (current previous : option float) : Arrow :=
  if falsy current || falsy previous then ArrowFlat
  else if gt current previous then ArrowUp
  else if gt previous current then ArrowDown
  else ArrowFlat.

End FastInfoPrice.

(* ================================================================== *)
(** ** The news card's content preview  (Frontend/src/components/NewsCard.tsx) *)

Module NewsPreview.

(** The text of the preview paragraph, or [None] when [news.content] is
    empty and the paragraph is left out. *)
Definition preview (content : string) : option string :=
  if String.eqb content "" then None
  else Some (if (150 <? String.length content)%nat
             then substring 0 150 content ++ "..."
             else content).

End NewsPreview.

(* ================================================================== *)
(** ** The sector and industry search  (src/unnamed/part_005, second file) *)

Module DomainPanel.

(** The fields of [DomainData] the search reads. *)
Record DomainData := {
  key : string;
  name : string;
  symbol : string;
  last_updated : string
}.

(** [String.prototype.toLowerCase] on one code unit.  The code units 0 to
    255 are closed under it: A-Z go to a-z, and the capital letters of the
    Latin-1 range, 192 to 222 without the multiplication sign 215, go to the
    small ones 32 above them; no other code unit of the range changes. *)
Definition lowerChar (c : ascii) : ascii :=
  let n := nat_of_ascii c in
  if (65 <=? n)%nat && (n <=? 90)%nat then ascii_of_nat (n + 32)
  else if (192 <=? n)%nat && (n <=? 222)%nat && negb (n =? 215)%nat
       then ascii_of_nat (n + 32)
  else c.

Fixpoint toLowerCase (s : string) : string :=
  match s with
  | EmptyString => EmptyString
  | String c r => String (lowerChar c) (toLowerCase r)
  end.

(** [s.includes(q)]: [q] occurs in [s]. *)
Fixpoint includes (s q : string) : bool :=
  prefix q s ||
  match s with
  | EmptyString => false
  | String _ r => includes r q
  end.

Definition matches (searchQuery : string) (domain : DomainData) : bool :=
  includes (toLowerCase (name domain)) (toLowerCase searchQuery)
  || includes (toLowerCase (key domain)) (toLowerCase searchQuery)
  || includes (toLowerCase (symbol domain)) (toLowerCase searchQuery).

(** The value the second effect gives [filteredDomains]. *)
Definition filteredDomains (searchQuery : string) (domains : list DomainData)
  : list DomainData :=
  if String.eqb (AIChat.trim searchQuery) "" then domains
  else filter (matches searchQuery) domains.

End DomainPanel.

(* ================================================================== *)
(** ** The labels of a stock card  (Frontend/src/components/StockCard.tsx) *)

Module StockCard.
Import JsNumber.
Section Labels.
Variable shortest : float -> string.

(** [stock.price_change_1d >= 0] *)
Definition isPositive (stock : StockData.t) : bool :=
  (0 <=? StockData.price_change_1d stock)%float.

(** The badge and the 1D-change line: the sign, the change to two decimals
    and the percent sign. *)
Definition changeLabel (stock : StockData.t) : string :=
  (if isPositive stock then "+" else "")
  ++ toFixed shortest 2 (StockData.price_change_1d stock) ++ "%".

Definition changeClass (stock : StockData.t) : string :=
  if isPositive stock then "text-green-600" else "text-red-600".

Definition priceLabel (stock : StockData.t) : string :=
  "$" ++ toFixed shortest 2 (StockData.price stock).

Definition volumeLabel (stock : StockData.t) : string :=
  toFixed shortest 1 (StockData.volume stock / 1000000) ++ "M".

End Labels.
End StockCard.

(* ================================================================== *)
(** ** The confidence bar of the news card  (Frontend/src/components/NewsCard.tsx) *)

Module NewsCardBar.
Import JsString.

(** The gradient class of the bar, chosen by the nested conditional on
    [news.sentiment.toUpperCase()]. *)
Definition barClass (sentiment : string) : string :=
  if String.eqb (toUpperCase sentiment) "POSITIVE"
  then "bg-gradient-to-r from-green-400 to-green-500"
  else if String.eqb (toUpperCase sentiment) "NEGATIVE"
  then "bg-gradient-to-r from-red-400 to-red-500"
  else "bg-gradient-to-r from-gray-400 to-gray-500".

End NewsCardBar.

(* ================================================================== *)
(** ** Letter-case changes, code unit by code unit *)

Module Recase.

(** What [toUpperCase] and [toLowerCase] have in common. *)
Fixpoint recased (recase : ascii -> ascii) (s : string) : string :=
  match s with
  | EmptyString => EmptyString
  | String c r => String (recase c) (recased recase r)
  end.

End Recase.

(* ================================================================== *)
(** ** Edits of the screener's conditions *)

Module QueryEdits.
Import QueryBuilder.

(** The replacement [updateCondition] makes at one index: the operator is
    copied by the spread, the operands are the new pair. *)
Definition edited (field value : JsValue) (c : Condition) : Condition :=
  {| cond_operator := cond_operator c; cond_operands := [field; value] |}.

(** The three things the screener's controls can do to the query. *)
Inductive Edit :=
| Add
| Update (index : nat) (field value : JsValue)
| Remove (index : nat).

Definition apply (e : Edit) (q : Query) : Query :=
  match e with
  | Add => addCondition q
  | Update index field value => updateCondition index field value q
  | Remove index => removeCondition index q
  end.

Definition applyAll (edits : list Edit) (q : Query) : Query :=
  fold_left (fun acc e => apply e acc) edits q.

End QueryEdits.

(* ================================================================== *)
(** ** A quote service that always answers *)

Module YahooSamples.
Import YahooClient.

Definition quote : Quote :=
  {| regularMarketPrice := Some 2500%float;
     regularMarketChangePercent := Some 1.5%float;
     regularMarketVolume := Some 1500000%float;
     regularMarketTime := Some 1700000000%float |}.

Definition axios_get (k : nat) (symbol : string) : Settled (option Quote) :=
  Fulfilled (Some quote).

Definition toISOString (ms : float) : Settled string :=
  Fulfilled "2023-11-14T22:13:20.000Z".

Definition now : string := "2024-01-01T00:00:00.000Z".

End YahooSamples.

(* ================================================================== *)
(** ** Sessions of the chat widget and of the dashboard hook *)

(** What a user and the network can do to the chat widget, in any order. *)
Module ChatSession.
Import AIChat.

Inductive Action :=
| TypeText (value : string)
| Send (now : Clock)
| Quick (question : string)
| SwitchTicker (now : Clock) (newTicker : string)
| Answer (now : Clock) (r : Settled Reply).

Definition act (a : Action) (st : Chat) : Chat :=
  match a with
  | TypeText value => setInputMessage value st
  | Send now => sendMessage now st
  | Quick question => handleQuickQuestion question st
  | SwitchTicker now newTicker => handleTickerChange now newTicker st
  | Answer now r => askQuestion_settle now r st
  end.

Definition session (actions : list Action) (st : Chat) : Chat :=
  fold_left (fun s a => act a s) actions st.

(** The messages a reply adds: all of them from the assistant. *)
Definition isAi (m : Message) : bool :=
  match sender m with ai => true | _ => false end.

End ChatSession.

Module HookSession.
Import DashboardHook.

(** The main view of the dashboard for a bundle. *)
Definition mainView (d : DashboardData.t) : Dashboard.View :=
  Dashboard.Main (DashboardData.timestamp d)
    (List.length (DashboardData.stocks d))
    (StockGrid.render (DashboardData.stocks d))
    (SignalsPanel.render (DashboardData.signals d))
    (NewsPanel.render (DashboardData.news d)).

(** What the dashboard shows for the data cell alone. *)
Definition dataView (data : option DashboardData.t) : Dashboard.View :=
  match data with
  | Some d => mainView d
  | None => Dashboard.NoData
  end.

(** The calls an event issues: one at a render with a non-empty list, one at
    a timer tick. *)
Definition issued (ev : Event) : nat :=
  match ev with
  | Render ts => if (0 <? List.length ts)%nat then 1 else 0
  | Tick _ => 1
  | Settle _ _ => 0
  end.

Definition issuedBy (evs : list Event) : nat :=
  fold_right (fun ev n => issued ev + n) 0 evs.

(** The calls a sequence of events settles. *)
Definition settledBy (evs : list Event) : nat :=
  List.length (filter (fun ev => match ev with Settle _ _ => true | _ => false end) evs).

(** The runs whose timer is armed. *)
Definition armed (h : Hook) : list Closure :=
  filter interval (closures h).

(** An event that can end the loading state: a call settling for a run that
    is still mounted, or a render with an empty ticker list. *)
Definition endsLoading (h : Hook) (ev : Event) : bool :=
  match ev with
  | Render ts => (List.length ts =? 0)%nat
  | Tick _ => false
  | Settle c _ =>
      match closureAt h c with
      | Some cl => isMounted cl
      | None => false
      end
  end.

(** A run of events none of which ends the loading state, with the state
    it leads to. *)
Fixpoint runLoading (evs : list Event) (h : Hook) : option Hook :=
  match evs with
  | [] => Some h
  | ev :: rest =>
      if endsLoading h ev then None
      else match step ev h with
           | Some h' => runLoading rest h'
           | None => None
           end
  end.

End HookSession.

(* ================================================================== *)
(** ** Strings as Unicode text *)

(** A string as the sequence of its code points, the way
    [String.prototype.toUpperCase] reads it: a surrogate pair is one code
    point, a surrogate outside a pair stands for itself.  Every string has
    one such text; a list in which a high surrogate is directly followed by
    a low one, or that holds a number above 1114111, is the text of no
    string, and is carried along like any other.  The ticker pattern has no
    [u] flag and works on code units, but it only ever matches the two quote
    characters, which are never part of a pair, so that it drops the same
    quotes from the code points as from the code units. *)
Module JsText.

Definition text := list N.

Definition squote : N := 39.
Definition dquote : N := 34.

Definition isQuote (c : N) : bool := N.eqb c squote || N.eqb c dquote.

(** The upper-case mapping of Unicode 14.0 for the code points it maps to a
    single other code point, as runs [(first, last, step, image of first)]:
    the code points [first], [first + step], ... up to [last] go to the
    image of [first], that image plus [step], and so on. *)
Definition upperRuns : list (N * N * N * N) := [
  (97, 122, 1, 65); (181, 181, 1, 924); (224, 246, 1, 192);
  (248, 254, 1, 216); (255, 255, 1, 376); (257, 303, 2, 256);
  (305, 305, 1, 73); (307, 311, 2, 306); (314, 328, 2, 313);
  (331, 375, 2, 330); (378, 382, 2, 377); (383, 383, 1, 83);
  (384, 384, 1, 579); (387, 389, 2, 386); (392, 392, 1, 391);
  (396, 396, 1, 395); (402, 402, 1, 401); (405, 405, 1, 502);
  (409, 409, 1, 408); (410, 410, 1, 573); (414, 414, 1, 544);
  (417, 421, 2, 416); (424, 424, 1, 423); (429, 429, 1, 428);
  (432, 432, 1, 431); (436, 438, 2, 435); (441, 441, 1, 440);
  (445, 445, 1, 444); (447, 447, 1, 503); (453, 453, 1, 452);
  (454, 454, 1, 452); (456, 456, 1, 455); (457, 457, 1, 455);
  (459, 459, 1, 458); (460, 460, 1, 458); (462, 476, 2, 461);
  (477, 477, 1, 398); (479, 495, 2, 478); (498, 498, 1, 497);
  (499, 499, 1, 497); (501, 501, 1, 500); (505, 543, 2, 504);
  (547, 563, 2, 546); (572, 572, 1, 571); (575, 576, 1, 11390);
  (578, 578, 1, 577); (583, 591, 2, 582); (592, 592, 1, 11375);
  (593, 593, 1, 11373); (594, 594, 1, 11376); (595, 595, 1, 385);
  (596, 596, 1, 390); (598, 599, 1, 393); (601, 601, 1, 399);
  (603, 603, 1, 400); (604, 604, 1, 42923); (608, 608, 1, 403);
  (609, 609, 1, 42924); (611, 611, 1, 404); (613, 613, 1, 42893);
  (614, 614, 1, 42922); (616, 616, 1, 407); (617, 617, 1, 406);
  (618, 618, 1, 42926); (619, 619, 1, 11362); (620, 620, 1, 42925);
  (623, 623, 1, 412); (625, 625, 1, 11374); (626, 626, 1, 413);
  (629, 629, 1, 415); (637, 637, 1, 11364); (640, 640, 1, 422);
  (642, 642, 1, 42949); (643, 643, 1, 425); (647, 647, 1, 42929);
  (648, 648, 1, 430); (649, 649, 1, 580); (650, 651, 1, 433);
  (652, 652, 1, 581); (658, 658, 1, 439); (669, 669, 1, 42930);
  (670, 670, 1, 42928); (837, 837, 1, 921); (881, 883, 2, 880);
  (887, 887, 1, 886); (891, 893, 1, 1021); (940, 940, 1, 902);
  (941, 943, 1, 904); (945, 961, 1, 913); (962, 962, 1, 931);
  (963, 971, 1, 931); (972, 972, 1, 908); (973, 974, 1, 910);
  (976, 976, 1, 914); (977, 977, 1, 920); (981, 981, 1, 934);
  (982, 982, 1, 928); (983, 983, 1, 975); (985, 1007, 2, 984);
  (1008, 1008, 1, 922); (1009, 1009, 1, 929); (1010, 1010, 1, 1017);
  (1011, 1011, 1, 895); (1013, 1013, 1, 917); (1016, 1016, 1, 1015);
  (1019, 1019, 1, 1018); (1072, 1103, 1, 1040); (1104, 1119, 1, 1024);
  (1121, 1153, 2, 1120); (1163, 1215, 2, 1162); (1218, 1230, 2, 1217);
  (1231, 1231, 1, 1216); (1233, 1327, 2, 1232); (1377, 1414, 1, 1329);
  (4304, 4346, 1, 7312); (4349, 4351, 1, 7357); (5112, 5117, 1, 5104);
  (7296, 7296, 1, 1042); (7297, 7297, 1, 1044); (7298, 7298, 1, 1054);
  (7299, 7300, 1, 1057); (7301, 7301, 1, 1058); (7302, 7302, 1, 1066);
  (7303, 7303, 1, 1122); (7304, 7304, 1, 42570); (7545, 7545, 1, 42877);
  (7549, 7549, 1, 11363); (7566, 7566, 1, 42950); (7681, 7829, 2, 7680);
  (7835, 7835, 1, 7776); (7841, 7935, 2, 7840); (7936, 7943, 1, 7944);
  (7952, 7957, 1, 7960); (7968, 7975, 1, 7976); (7984, 7991, 1, 7992);
  (8000, 8005, 1, 8008); (8017, 8023, 2, 8025); (8032, 8039, 1, 8040);
  (8048, 8049, 1, 8122); (8050, 8053, 1, 8136); (8054, 8055, 1, 8154);
  (8056, 8057, 1, 8184); (8058, 8059, 1, 8170); (8060, 8061, 1, 8186);
  (8112, 8113, 1, 8120); (8126, 8126, 1, 921); (8144, 8145, 1, 8152);
  (8160, 8161, 1, 8168); (8165, 8165, 1, 8172); (8526, 8526, 1, 8498);
  (8560, 8575, 1, 8544); (8580, 8580, 1, 8579); (9424, 9449, 1, 9398);
  (11312, 11359, 1, 11264); (11361, 11361, 1, 11360); (11365, 11365, 1, 570);
  (11366, 11366, 1, 574); (11368, 11372, 2, 11367); (11379, 11379, 1, 11378);
  (11382, 11382, 1, 11381); (11393, 11491, 2, 11392);
  (11500, 11502, 2, 11499); (11507, 11507, 1, 11506);
  (11520, 11557, 1, 4256); (11559, 11559, 1, 4295); (11565, 11565, 1, 4301);
  (42561, 42605, 2, 42560); (42625, 42651, 2, 42624);
  (42787, 42799, 2, 42786); (42803, 42863, 2, 42802);
  (42874, 42876, 2, 42873); (42879, 42887, 2, 42878);
  (42892, 42892, 1, 42891); (42897, 42899, 2, 42896);
  (42900, 42900, 1, 42948); (42903, 42921, 2, 42902);
  (42933, 42947, 2, 42932); (42952, 42954, 2, 42951);
  (42961, 42961, 1, 42960); (42967, 42969, 2, 42966);
  (42998, 42998, 1, 42997); (43859, 43859, 1, 42931);
  (43888, 43967, 1, 5024); (65345, 65370, 1, 65313);
  (66600, 66639, 1, 66560); (66776, 66811, 1, 66736);
  (66967, 66977, 1, 66928); (66979, 66993, 1, 66940);
  (66995, 67001, 1, 66956); (67003, 67004, 1, 66964);
  (68800, 68850, 1, 68736); (71872, 71903, 1, 71840);
  (93792, 93823, 1, 93760); (125218, 125251, 1, 125184)
]%N.

(** The code points whose upper case is more than one code point (the
    unconditional entries of SpecialCasing.txt). *)
Definition upperSpecial : list (N * list N) := [
  (223, [83; 83]); (329, [700; 78]); (496, [74; 780]);
  (912, [921; 776; 769]); (944, [933; 776; 769]); (1415, [1333; 1362]);
  (7830, [72; 817]); (7831, [84; 776]); (7832, [87; 778]); (7833, [89; 778]);
  (7834, [65; 702]); (8016, [933; 787]); (8018, [933; 787; 768]);
  (8020, [933; 787; 769]); (8022, [933; 787; 834]); (8064, [7944; 921]);
  (8065, [7945; 921]); (8066, [7946; 921]); (8067, [7947; 921]);
  (8068, [7948; 921]); (8069, [7949; 921]); (8070, [7950; 921]);
  (8071, [7951; 921]); (8072, [7944; 921]); (8073, [7945; 921]);
  (8074, [7946; 921]); (8075, [7947; 921]); (8076, [7948; 921]);
  (8077, [7949; 921]); (8078, [7950; 921]); (8079, [7951; 921]);
  (8080, [7976; 921]); (8081, [7977; 921]); (8082, [7978; 921]);
  (8083, [7979; 921]); (8084, [7980; 921]); (8085, [7981; 921]);
  (8086, [7982; 921]); (8087, [7983; 921]); (8088, [7976; 921]);
  (8089, [7977; 921]); (8090, [7978; 921]); (8091, [7979; 921]);
  (8092, [7980; 921]); (8093, [7981; 921]); (8094, [7982; 921]);
  (8095, [7983; 921]); (8096, [8040; 921]); (8097, [8041; 921]);
  (8098, [8042; 921]); (8099, [8043; 921]); (8100, [8044; 921]);
  (8101, [8045; 921]); (8102, [8046; 921]); (8103, [8047; 921]);
  (8104, [8040; 921]); (8105, [8041; 921]); (8106, [8042; 921]);
  (8107, [8043; 921]); (8108, [8044; 921]); (8109, [8045; 921]);
  (8110, [8046; 921]); (8111, [8047; 921]); (8114, [8122; 921]);
  (8115, [913; 921]); (8116, [902; 921]); (8118, [913; 834]);
  (8119, [913; 834; 921]); (8124, [913; 921]); (8130, [8138; 921]);
  (8131, [919; 921]); (8132, [905; 921]); (8134, [919; 834]);
  (8135, [919; 834; 921]); (8140, [919; 921]); (8146, [921; 776; 768]);
  (8147, [921; 776; 769]); (8150, [921; 834]); (8151, [921; 776; 834]);
  (8162, [933; 776; 768]); (8163, [933; 776; 769]); (8164, [929; 787]);
  (8166, [933; 834]); (8167, [933; 776; 834]); (8178, [8186; 921]);
  (8179, [937; 921]); (8180, [911; 921]); (8182, [937; 834]);
  (8183, [937; 834; 921]); (8188, [937; 921]); (64256, [70; 70]);
  (64257, [70; 73]); (64258, [70; 76]); (64259, [70; 70; 73]);
  (64260, [70; 70; 76]); (64261, [83; 84]); (64262, [83; 84]);
  (64275, [1348; 1350]); (64276, [1348; 1333]); (64277, [1348; 1339]);
  (64278, [1358; 1350]); (64279, [1348; 1341])
]%N.

Definition expand (run : N * N * N * N) : list (N * list N) :=
  let '(first, last, step, image) := run in
  map (fun i => (first + step * N.of_nat i, [image + step * N.of_nat i])%N)
      (seq 0 (S (N.to_nat ((last - first) / step)))).

(** Every code point that has an upper case other than itself, with it. *)
Definition upperTable : list (N * list N) :=
  (flat_map expand upperRuns ++ upperSpecial)%list.

Fixpoint lookup (c : N) (table : list (N * list N)) : option (list N) :=
  match table with
  | [] => None
  | (k, image) :: rest => if N.eqb c k then Some image else lookup c rest
  end.

(** The upper case of one code point. *)
Definition upperPoint (c : N) : list N :=
  match lookup c upperTable with
  | Some image => image
  | None => [c]
  end.

(** [String.prototype.toUpperCase]: code point by code point, whatever the
    context and the locale.  The facts proved below use three properties of
    the table only, which [upperTable_checked] checks entry by entry: an
    image is its own upper case, it is not empty, and neither it nor the
    code point it belongs to holds a quote. *)
Definition toUpperCase (s : text) : text := flat_map upperPoint s.

(** [===] on strings. *)
Fixpoint eqb (a b : text) : bool :=
  match a, b with
  | [], [] => true
  | x :: a', y :: b' => N.eqb x y && eqb a' b'
  | _, _ => false
  end.

(** The text of a string of the code-unit model, its code units read as
    the code points 0 to 255. *)
Fixpoint ofString (s : string) : text :=
  match s with
  | EmptyString => []
  | String c r => N_of_ascii c :: ofString r
  end.

(** Whether every code unit of a string is an ASCII one. *)
Fixpoint isAscii (s : string) : bool :=
  match s with
  | EmptyString => true
  | String c r => (N_of_ascii c <? 128)%N && isAscii r
  end.

Definition firstPoint (s : text) : option N :=
  match s with
  | [] => None
  | c :: _ => Some c
  end.

Fixpoint lastPoint (s : text) : option N :=
  match s with
  | [] => None
  | [c] => Some c
  | _ :: r => lastPoint r
  end.

(** Neither the single nor the double quote. *)
Definition notQuote (c : option N) : Prop :=
  match c with
  | Some x => isQuote x = false
  | None => True
  end.

End JsText.

(** The API client's [cleanTicker] on Unicode text: the definitions of
    [Api], code point for code unit. *)
Module ApiText.
Import JsText.

Fixpoint skipQuotes (s : text) : text :=
  match s with
  | [] => []
  | c :: r => if isQuote c then skipQuotes r else s
  end.

Fixpoint allQuotes (s : text) : bool :=
  match s with
  | [] => true
  | c :: r => isQuote c && allQuotes r
  end.

Definition matchAt (index0 : bool) (s : text) : option text :=
  match s with
  | [] => None
  | c :: _ =>
      if isQuote c then
        if index0 then Some (skipQuotes s)
        else if allQuotes s then Some []
        else None
      else None
  end.

Fixpoint replaceLoop (fuel : nat) (index0 : bool) (s : text) : text :=
  match fuel with
  | O => s
  | S fuel' =>
      match matchAt index0 s with
      | Some rest => replaceLoop fuel' false rest
      | None =>
          match s with
          | [] => []
          | c :: r => c :: replaceLoop fuel' false r
          end
      end
  end.

Definition replaceQuotes (s : text) : text :=
  replaceLoop (S (List.length s)) true s.

(** [ticker.replace(/^Q+|Q+$/g, '').toUpperCase()], Q the quote class. *)
Definition cleanTicker (ticker : text) : text :=
  toUpperCase (replaceQuotes ticker).

Fixpoint stripTrailing (s : text) : text :=
  match s with
  | [] => []
  | c :: r => if allQuotes s then [] else c :: stripTrailing r
  end.

Definition noLeadingQuote (s : text) : bool :=
  match s with
  | [] => true
  | c :: _ => negb (isQuote c)
  end.

End ApiText.

(** The Yahoo client's symbol mapping on Unicode text
    (src/unnamed/part_007, first file). *)
Module YahooSymbol.
Import JsText.

Definition NIFTY_50_TICKERS : list text := map ofString YahooClient.NIFTY_50_TICKERS.

Definition cleanTicker : text -> text := ApiText.cleanTicker.

(** [Array.prototype.includes] on strings. *)
Definition includes (l : list text) (x : text) : bool := existsb (eqb x) l.

Definition mapTickerToYahooSymbol (ticker : text) : text :=
  let symbol := cleanTicker ticker in
  if includes NIFTY_50_TICKERS symbol then (symbol ++ ofString ".NS")%list else symbol.

End YahooSymbol.

(* ================================================================== *)
(** * Theorems *)

Section CleanTickerFacts.
Import JsString Api.

Lemma upperChar_idem (c : ascii) : upperChar (upperChar c) = upperChar c.
Proof. destruct c as [[] [] [] [] [] [] [] []]; reflexivity. Qed.

Lemma toUpperCase_idem (s : string) : toUpperCase (toUpperCase s) = toUpperCase s.
Proof.
  induction s as [|c r IH]; simpl; [reflexivity|].
  now rewrite upperChar_idem, IH.
Qed.

(** After position 0 the scan is [stripTrailing], whatever fuel is left
    beyond the length of the input. *)
Lemma replaceLoop_body (fuel : nat) (s : string) :
  (String.length s < fuel)%nat -> replaceLoop fuel false s = stripTrailing s.
Proof.
  revert s; induction fuel as [|f IH]; intros s Hf; [lia|].
  destruct s as [|c r]; [reflexivity|].
  cbn [replaceLoop matchAt stripTrailing].
  cbn [allQuotes]. destruct (isQuote c) eqn:Hq; cbn [andb].
  - destruct (allQuotes r) eqn:Ha.
    + destruct f; reflexivity.
    + rewrite IH by (cbn in Hf; lia). reflexivity.
  - rewrite IH by (cbn in Hf; lia). reflexivity.
Qed.

Lemma skipQuotes_length (s : string) :
  (String.length (skipQuotes s) <= String.length s)%nat.
Proof.
  induction s as [|c r IH]; cbn; [lia|].
  destruct (isQuote c); cbn; lia.
Qed.

(** The fuel given by [replaceQuotes] is enough: the global replace drops
    the leading run of quotes and the run of quotes that ends the input. *)
Lemma replaceQuotes_closed (s : string) :
  replaceQuotes s = stripTrailing (skipQuotes s).
Proof.
  unfold replaceQuotes. destruct s as [|c r]; [reflexivity|].
  remember (String.length (String c r)) as n eqn:Hn.
  cbn [replaceLoop matchAt skipQuotes]. cbn in Hn.
  destruct (isQuote c) eqn:Hq.
  - apply replaceLoop_body. pose proof (skipQuotes_length r). lia.
  - rewrite replaceLoop_body by lia.
    cbn [stripTrailing allQuotes]. rewrite Hq. reflexivity.
Qed.

(** C1, at the input the specification names: the quotes around [aapl] are
    handled as far as the pattern reaches, the trailing blank is kept, and
    with it the quote in front of the blank; the result is not [AAPL]. *)
Theorem cleanTicker_keeps_whitespace :
  cleanTicker "'aapl' " = "AAPL' " /\ cleanTicker "'aapl' " <> "AAPL".
Proof. split; [reflexivity | discriminate]. Qed.

End CleanTickerFacts.

(* ------------------------------------------------------------------ *)
(** ** Ticker clean-up on Unicode text *)

Section UpperCaseFacts.
Import JsText.
Local Open Scope list_scope.

Lemma lookup_In (c : N) (table : list (N * list N)) (image : list N) :
  lookup c table = Some image -> In (c, image) table.
Proof.
  induction table as [|[k v] rest IH]; cbn [lookup]; [discriminate|].
  destruct (N.eqb_spec c k) as [->|_].
  - intros H. injection H as ->. now left.
  - intros H. right. now apply IH.
Qed.

Lemma text_eqb_eq (a b : text) : eqb a b = true <-> a = b.
Proof.
  revert b; induction a as [|x a IH]; intros [|y b]; cbn [eqb];
    try (split; [discriminate | discriminate]); [tauto|].
  rewrite andb_true_iff, N.eqb_eq, IH. split.
  - now intros [-> ->].
  - intros H. injection H as -> ->. now split.
Qed.

(** What the table was checked for, entry by entry: an image is its own
    upper case, it is not empty, and neither the code point nor its image
    holds a quote. *)
Lemma upperTable_checked :
  forallb (fun entry =>
             eqb (toUpperCase (snd entry)) (snd entry)
             && negb (isQuote (fst entry))
             && negb (Nat.eqb (List.length (snd entry)) 0)
             && forallb (fun d => negb (isQuote d)) (snd entry))
          upperTable = true.
Proof. vm_compute. reflexivity. Qed.

Lemma upperPoint_cases (c : N) :
  upperPoint c = [c] \/
  (toUpperCase (upperPoint c) = upperPoint c /\ isQuote c = false /\
   upperPoint c <> [] /\ forallb (fun d => negb (isQuote d)) (upperPoint c) = true).
Proof.
  unfold upperPoint. destruct (lookup c upperTable) as [image|] eqn:E; [right | now left].
  apply lookup_In in E.
  pose proof (proj1 (forallb_forall _ _) upperTable_checked _ E) as H.
  cbn [fst snd] in H. rewrite !andb_true_iff in H. destruct H as [[[H1 H2] H3] H4].
  apply text_eqb_eq in H1. apply negb_true_iff in H2. apply negb_true_iff, Nat.eqb_neq in H3.
  repeat split; try assumption. intros ->. now apply H3.
Qed.

Lemma upperPoint_quote (c : N) : isQuote c = true -> upperPoint c = [c].
Proof.
  intros Hq. destruct (upperPoint_cases c) as [E|[_ [Hn _]]]; [exact E | congruence].
Qed.

(** The upper case of a code point that is no quote: a non-empty text without quotes. *)
Lemma upperPoint_plain (c : N) :
  isQuote c = false ->
  exists d t, upperPoint c = d :: t /\ isQuote d = false
              /\ forallb (fun d => negb (isQuote d)) t = true.
Proof.
  intros Hq. destruct (upperPoint_cases c) as [E|[_ [_ [Hne Hall]]]].
  - exists c, []. rewrite E. now repeat split.
  - destruct (upperPoint c) as [|d t]; [contradiction|].
    exists d, t. cbn [forallb] in Hall. apply andb_true_iff in Hall.
    destruct Hall as [Hd Ht]. apply negb_true_iff in Hd. now repeat split.
Qed.

Lemma toUpperCase_app (a b : text) :
  toUpperCase (a ++ b) = (toUpperCase a ++ toUpperCase b)%list.
Proof. apply flat_map_app. Qed.

Lemma upperPoint_idem (c : N) : toUpperCase (upperPoint c) = upperPoint c.
Proof.
  destruct (upperPoint_cases c) as [E|[E _]]; [|exact E].
  rewrite E. unfold toUpperCase. cbn [flat_map]. rewrite E. reflexivity.
Qed.

Lemma toUpperCase_is_idempotent (s : text) : toUpperCase (toUpperCase s) = toUpperCase s.
Proof.
  induction s as [|c r IH]; [reflexivity|].
  change (toUpperCase (c :: r)) with (upperPoint c ++ toUpperCase r)%list.
  now rewrite toUpperCase_app, upperPoint_idem, IH.
Qed.

End UpperCaseFacts.

Section CleanTickerText.
Import JsText ApiText.
Local Open Scope list_scope.

Lemma replaceLoop_body_text (fuel : nat) (s : text) :
  List.length s < fuel -> replaceLoop fuel false s = stripTrailing s.
Proof.
  revert s; induction fuel as [|f IH]; intros s Hf; [lia|].
  destruct s as [|c r]; [reflexivity|].
  cbn [replaceLoop matchAt stripTrailing].
  cbn [allQuotes]. destruct (isQuote c) eqn:Hq; cbn [andb].
  - destruct (allQuotes r) eqn:Ha.
    + destruct f; reflexivity.
    + rewrite IH by (cbn in Hf; lia). reflexivity.
  - rewrite IH by (cbn in Hf; lia). reflexivity.
Qed.

Lemma skipQuotes_length_text (s : text) :
  List.length (skipQuotes s) <= List.length s.
Proof.
  induction s as [|c r IH]; cbn; [lia|].
  destruct (isQuote c); cbn; lia.
Qed.

(** The fuel given by [replaceQuotes] is enough, on text as on code units. *)
Lemma replaceQuotes_closed_text (s : text) :
  replaceQuotes s = stripTrailing (skipQuotes s).
Proof.
  unfold replaceQuotes. destruct s as [|c r]; [reflexivity|].
  remember (List.length (c :: r)) as n eqn:Hn.
  cbn [replaceLoop matchAt skipQuotes]. cbn in Hn.
  destruct (isQuote c) eqn:Hq.
  - apply replaceLoop_body_text. pose proof (skipQuotes_length_text r). lia.
  - rewrite replaceLoop_body_text by lia.
    cbn [stripTrailing allQuotes]. rewrite Hq. reflexivity.
Qed.

Lemma allQuotes_stripTrailing_text (s : text) :
  allQuotes (stripTrailing s) = allQuotes s.
Proof.
  induction s as [|c r IH]; [reflexivity|].
  cbn [stripTrailing]. destruct (allQuotes (c :: r)) eqn:Ha; [reflexivity|].
  cbn [allQuotes] in *. now rewrite IH.
Qed.

Lemma stripTrailing_idem_text (s : text) :
  stripTrailing (stripTrailing s) = stripTrailing s.
Proof.
  induction s as [|c r IH]; [reflexivity|].
  cbn [stripTrailing]. destruct (allQuotes (c :: r)) eqn:Ha; [reflexivity|].
  cbn [stripTrailing allQuotes]. rewrite allQuotes_stripTrailing_text.
  cbn [allQuotes] in Ha. rewrite Ha. now rewrite IH.
Qed.

Lemma skipQuotes_noLeadingQuote_text (s : text) :
  noLeadingQuote (skipQuotes s) = true.
Proof.
  induction s as [|c r IH]; [reflexivity|].
  cbn [skipQuotes]. destruct (isQuote c) eqn:Hq; [exact IH|].
  cbn. now rewrite Hq.
Qed.

Lemma skipQuotes_fixed_text (s : text) :
  noLeadingQuote s = true -> skipQuotes s = s.
Proof.
  destruct s as [|c r]; [reflexivity|]. cbn.
  destruct (isQuote c); [discriminate | reflexivity].
Qed.

Lemma stripTrailing_noLeadingQuote_text (s : text) :
  noLeadingQuote s = true -> noLeadingQuote (stripTrailing s) = true.
Proof.
  destruct s as [|c r]; [reflexivity|]. intros H.
  cbn [stripTrailing]. destruct (allQuotes (c :: r)); [reflexivity | exact H].
Qed.

Lemma replaceQuotes_idem_text (s : text) :
  replaceQuotes (replaceQuotes s) = replaceQuotes s.
Proof.
  rewrite !replaceQuotes_closed_text.
  rewrite (skipQuotes_fixed_text (stripTrailing (skipQuotes s))).
  - apply stripTrailing_idem_text.
  - apply stripTrailing_noLeadingQuote_text, skipQuotes_noLeadingQuote_text.
Qed.

(** A text without quotes in front of another one. *)
Lemma allQuotes_plain_app (d : N) (t rest : text) :
  isQuote d = false -> allQuotes ((d :: t) ++ rest) = false.
Proof. intros Hd. cbn. now rewrite Hd. Qed.

Lemma stripTrailing_plain_app (t rest : text) :
  forallb (fun d => negb (isQuote d)) t = true ->
  stripTrailing (t ++ rest) = (t ++ stripTrailing rest)%list.
Proof.
  induction t as [|d t IH]; [reflexivity|]. cbn [forallb]. intros H.
  apply andb_true_iff in H. destruct H as [Hd Ht]. apply negb_true_iff in Hd.
  change ((d :: t) ++ rest)%list with (d :: (t ++ rest))%list.
  cbn [stripTrailing allQuotes]. rewrite Hd. cbn [andb]. now rewrite IH.
Qed.

Lemma allQuotes_upper_text (s : text) : allQuotes (toUpperCase s) = allQuotes s.
Proof.
  induction s as [|c r IH]; [reflexivity|].
  change (toUpperCase (c :: r)) with (upperPoint c ++ toUpperCase r)%list.
  cbn [allQuotes]. destruct (isQuote c) eqn:Hq.
  - rewrite (upperPoint_quote c Hq). cbn. now rewrite Hq, IH.
  - destruct (upperPoint_plain c Hq) as [d [t [E [Hd _]]]]. rewrite E.
    now rewrite allQuotes_plain_app.
Qed.

Lemma skipQuotes_upper_text (s : text) :
  skipQuotes (toUpperCase s) = toUpperCase (skipQuotes s).
Proof.
  induction s as [|c r IH]; [reflexivity|].
  change (toUpperCase (c :: r)) with (upperPoint c ++ toUpperCase r)%list.
  cbn [skipQuotes]. destruct (isQuote c) eqn:Hq.
  - rewrite (upperPoint_quote c Hq). cbn. now rewrite Hq.
  - destruct (upperPoint_plain c Hq) as [d [t [E [Hd _]]]].
    change (toUpperCase (c :: r)) with (upperPoint c ++ toUpperCase r)%list.
    rewrite E. cbn. now rewrite Hd.
Qed.

Lemma stripTrailing_upper_text (s : text) :
  stripTrailing (toUpperCase s) = toUpperCase (stripTrailing s).
Proof.
  induction s as [|c r IH]; [reflexivity|].
  cbn [stripTrailing].
  change (toUpperCase (c :: r)) with (upperPoint c ++ toUpperCase r)%list.
  destruct (isQuote c) eqn:Hq.
  - rewrite (upperPoint_quote c Hq). cbn [app stripTrailing allQuotes].
    rewrite Hq, allQuotes_upper_text. cbn [andb].
    destruct (allQuotes r); [reflexivity|].
    change (toUpperCase (c :: stripTrailing r))
      with (upperPoint c ++ toUpperCase (stripTrailing r))%list.
    rewrite (upperPoint_quote c Hq). cbn [app]. now rewrite IH.
  - cbn [allQuotes]. rewrite Hq. cbn [andb].
    change (toUpperCase (c :: stripTrailing r))
      with (upperPoint c ++ toUpperCase (stripTrailing r))%list.
    destruct (upperPoint_plain c Hq) as [d [t [E [Hd Ht]]]]. rewrite E.
    rewrite stripTrailing_plain_app by (cbn [forallb]; now rewrite Hd, Ht).
    now rewrite IH.
Qed.

Lemma replaceQuotes_upper_text (s : text) :
  replaceQuotes (toUpperCase s) = toUpperCase (replaceQuotes s).
Proof.
  rewrite !replaceQuotes_closed_text, skipQuotes_upper_text.
  apply stripTrailing_upper_text.
Qed.

(** The upper case of text outside ASCII: the small e with acute accent
    (233) goes to the capital one (201), the sharp s (223) to two capital
    letters S, the small y with diaeresis (255) to the capital one (376), and
    the Kelvin sign (8490) is upper case already. *)
Example toUpperCase_beyond_ascii :
  toUpperCase [233; 223; 255; 8490; 97]%N = [201; 83; 83; 376; 8490; 65]%N /\
  cleanTicker [34; 39; 233; 223; 39]%N = [201; 83; 83]%N.
Proof. vm_compute. split; reflexivity. Qed.

(** C7: ticker normalization is idempotent,
    [cleanTicker (cleanTicker x) = cleanTicker x] for every string [x], read
    as Unicode text: whatever code points [x] holds, letters of any script
    and surrogates, and wherever its quotes are. *)
Theorem cleanTicker_idempotent (x : JsText.text) :
  cleanTicker (cleanTicker x) = cleanTicker x.
Proof.
  unfold cleanTicker.
  now rewrite replaceQuotes_upper_text, replaceQuotes_idem_text, toUpperCase_is_idempotent.
Qed.

End CleanTickerText.

Section TickerTextShape.
Import JsText ApiText.
Local Open Scope list_scope.

Lemma toUpperCase_nil (s : text) : toUpperCase s = [] -> s = [].
Proof.
  destruct s as [|c r]; [reflexivity|].
  change (toUpperCase (c :: r)) with (upperPoint c ++ toUpperCase r).
  intros H. apply app_eq_nil in H. destruct H as [H _].
  destruct (upperPoint_cases c) as [E|[_ [_ [Hne _]]]]; [rewrite E in H; discriminate H | contradiction].
Qed.

Lemma lastPoint_app (a b : text) : b <> [] -> lastPoint (a ++ b) = lastPoint b.
Proof.
  intros Hb. induction a as [|x a IH]; [reflexivity|].
  change ((x :: a) ++ b) with (x :: (a ++ b)). cbn [lastPoint].
  destruct (a ++ b) as [|y t] eqn:E; [|exact IH].
  apply app_eq_nil in E. destruct E as [_ E]. contradiction.
Qed.

Lemma lastPoint_plain (t : text) :
  forallb (fun d => negb (isQuote d)) t = true -> notQuote (lastPoint t).
Proof.
  induction t as [|d t IH]; [intros; exact I|]. cbn [forallb]. intros H.
  apply andb_true_iff in H. destruct H as [Hd Ht]. cbn [lastPoint].
  destruct t as [|e t']; [cbn; now apply negb_true_iff in Hd | exact (IH Ht)].
Qed.

Lemma lastPoint_upper (s : text) :
  notQuote (lastPoint s) -> notQuote (lastPoint (toUpperCase s)).
Proof.
  induction s as [|c r IH]; [intros; exact I|].
  change (toUpperCase (c :: r)) with (upperPoint c ++ toUpperCase r).
  destruct r as [|e r'].
  - cbn [lastPoint notQuote]. intros Hq.
    change (toUpperCase []) with (@nil N). rewrite app_nil_r.
    destruct (upperPoint_plain c Hq) as [d [t [E [Hd Ht]]]]. rewrite E.
    apply lastPoint_plain. cbn [forallb]. now rewrite Hd, Ht.
  - intros Hq. rewrite lastPoint_app.
    + apply IH. exact Hq.
    + intros E. apply toUpperCase_nil in E. discriminate E.
Qed.

Lemma noLeadingQuote_upper (s : text) :
  noLeadingQuote s = true -> noLeadingQuote (toUpperCase s) = true.
Proof.
  destruct s as [|c r]; [reflexivity|]. cbn [noLeadingQuote]. intros Hq.
  apply negb_true_iff in Hq.
  change (toUpperCase (c :: r)) with (upperPoint c ++ toUpperCase r).
  destruct (upperPoint_plain c Hq) as [d [t [E [Hd _]]]]. rewrite E. cbn. now rewrite Hd.
Qed.

Lemma noLeadingQuote_firstPoint (s : text) :
  noLeadingQuote s = true -> notQuote (firstPoint s).
Proof.
  destruct s as [|c r]; [intros; exact I|]. cbn. now destruct (isQuote c).
Qed.

Lemma stripTrailing_nil (s : text) : stripTrailing s = [] -> allQuotes s = true.
Proof.
  destruct s as [|c r]; [reflexivity|]. cbn [stripTrailing].
  destruct (allQuotes (c :: r)); [reflexivity | discriminate].
Qed.

Lemma stripTrailing_lastPoint (s : text) : notQuote (lastPoint (stripTrailing s)).
Proof.
  induction s as [|c r IH]; [exact I|].
  cbn [stripTrailing]. destruct (allQuotes (c :: r)) eqn:Ha; [exact I|].
  cbn [lastPoint]. destruct (stripTrailing r) as [|d t] eqn:Es.
  - cbn. apply stripTrailing_nil in Es. cbn [allQuotes] in Ha. rewrite Es in Ha.
    now rewrite andb_true_r in Ha.
  - exact IH.
Qed.

(** The code-unit model of [Api] and the text model agree on ASCII
    strings. *)
Lemma isQuote_ofAscii (c : ascii) : isQuote (N_of_ascii c) = JsString.isQuote c.
Proof. destruct c as [[] [] [] [] [] [] [] []]; reflexivity. Qed.

Lemma upperPoint_ofAscii (c : ascii) :
  (N_of_ascii c <? 128)%N = true ->
  upperPoint (N_of_ascii c) = [N_of_ascii (JsString.upperChar c)].
Proof.
  destruct c as [[] [] [] [] [] [] [] []]; intros H;
    try (vm_compute in H; discriminate H); vm_compute; reflexivity.
Qed.

Lemma toUpperCase_ofString (s : string) :
  isAscii s = true -> toUpperCase (ofString s) = ofString (JsString.toUpperCase s).
Proof.
  induction s as [|c r IH]; [reflexivity|]. cbn [isAscii]. intros H.
  apply andb_true_iff in H. destruct H as [Hc Hr].
  cbn [ofString JsString.toUpperCase].
  change (toUpperCase (N_of_ascii c :: ofString r))
    with (upperPoint (N_of_ascii c) ++ toUpperCase (ofString r)).
  now rewrite (upperPoint_ofAscii c Hc), (IH Hr).
Qed.

Lemma allQuotes_ofString (s : string) : allQuotes (ofString s) = Api.allQuotes s.
Proof.
  induction s as [|c r IH]; [reflexivity|]. cbn. now rewrite isQuote_ofAscii, IH.
Qed.

Lemma skipQuotes_ofString (s : string) :
  skipQuotes (ofString s) = ofString (Api.skipQuotes s).
Proof.
  induction s as [|c r IH]; [reflexivity|]. cbn. rewrite isQuote_ofAscii.
  destruct (JsString.isQuote c); [exact IH | reflexivity].
Qed.

Lemma stripTrailing_ofString (s : string) :
  stripTrailing (ofString s) = ofString (Api.stripTrailing s).
Proof.
  induction s as [|c r IH]; [reflexivity|].
  cbn [ofString stripTrailing Api.stripTrailing allQuotes Api.allQuotes].
  rewrite isQuote_ofAscii, allQuotes_ofString.
  destruct (JsString.isQuote c && Api.allQuotes r); [reflexivity|].
  cbn [ofString]. now rewrite IH.
Qed.

Lemma isAscii_skipQuotes (s : string) : isAscii s = true -> isAscii (Api.skipQuotes s) = true.
Proof.
  induction s as [|c r IH]; [reflexivity|]. intros H. cbn [Api.skipQuotes].
  destruct (JsString.isQuote c); [|exact H].
  cbn [isAscii] in H. apply andb_true_iff in H. now apply IH.
Qed.

Lemma isAscii_stripTrailing (s : string) :
  isAscii s = true -> isAscii (Api.stripTrailing s) = true.
Proof.
  induction s as [|c r IH]; [reflexivity|]. intros H. cbn [Api.stripTrailing].
  destruct (Api.allQuotes (String c r)); [reflexivity|].
  cbn [isAscii] in *. apply andb_true_iff in H. destruct H as [Hc Hr].
  now rewrite Hc, (IH Hr).
Qed.

Lemma cleanTicker_ofString (s : string) :
  isAscii s = true -> cleanTicker (ofString s) = ofString (Api.cleanTicker s).
Proof.
  intros H. unfold cleanTicker, Api.cleanTicker.
  rewrite replaceQuotes_closed_text, replaceQuotes_closed.
  rewrite skipQuotes_ofString, stripTrailing_ofString.
  apply toUpperCase_ofString, isAscii_stripTrailing, isAscii_skipQuotes, H.
Qed.

(** X25: Ticker clean-up, on any Unicode text, gives the same result for a
    ticker and for its upper-cased spelling; the result is upper case
    already, and it never begins or ends with a quote.  On ASCII strings the
    text model and the code-unit model of the API client are one function. *)
Theorem cleanTicker_ignores_case (x : text) :
  cleanTicker (toUpperCase x) = cleanTicker x /\
  toUpperCase (cleanTicker x) = cleanTicker x /\
  notQuote (firstPoint (cleanTicker x)) /\
  notQuote (lastPoint (cleanTicker x)) /\
  (forall s : string, isAscii s = true ->
     cleanTicker (ofString s) = ofString (Api.cleanTicker s)).
Proof.
  unfold cleanTicker at 1 2 3 4 5 6. split; [|split; [|split; [|split]]].
  - now rewrite replaceQuotes_upper_text, toUpperCase_is_idempotent.
  - apply toUpperCase_is_idempotent.
  - rewrite replaceQuotes_closed_text.
    apply noLeadingQuote_firstPoint, noLeadingQuote_upper,
      stripTrailing_noLeadingQuote_text, skipQuotes_noLeadingQuote_text.
  - rewrite replaceQuotes_closed_text. apply lastPoint_upper, stripTrailing_lastPoint.
  - exact cleanTicker_ofString.
Qed.

End TickerTextShape.

Section YahooSymbolFacts.
Import JsText YahooSymbol.
Local Open Scope list_scope.

Lemma includes_In_text (l : list text) (x : text) : includes l x = true -> In x l.
Proof.
  unfold includes. rewrite existsb_exists. intros [y [Hin Heq]].
  apply text_eqb_eq in Heq. now subst.
Qed.

Lemma nifty_symbols_are_fixed_text :
  forallb (fun s => eqb (mapTickerToYahooSymbol (s ++ ofString ".NS")) (s ++ ofString ".NS"))
          NIFTY_50_TICKERS = true.
Proof. vm_compute. reflexivity. Qed.

Lemma nifty_names_get_suffix :
  forallb (fun name => eqb (mapTickerToYahooSymbol name) (name ++ ofString ".NS"))
          NIFTY_50_TICKERS = true.
Proof. vm_compute. reflexivity. Qed.

(** X5: Mapping a ticker to its Yahoo symbol is idempotent on any Unicode
    text: a NIFTY 50 name gets [.NS] appended, and a symbol that already
    carries [.NS], or is not a NIFTY 50 name, maps to itself, so [.NS] is
    never appended twice. *)
Theorem mapTickerToYahooSymbol_idempotent (ticker : text) :
  mapTickerToYahooSymbol (mapTickerToYahooSymbol ticker) = mapTickerToYahooSymbol ticker /\
  (forall name, In name NIFTY_50_TICKERS ->
     mapTickerToYahooSymbol name = name ++ ofString ".NS" /\
     mapTickerToYahooSymbol (name ++ ofString ".NS") = name ++ ofString ".NS") /\
  (includes NIFTY_50_TICKERS (cleanTicker ticker) = false ->
     mapTickerToYahooSymbol ticker = cleanTicker ticker).
Proof.
  split; [|split].
  - unfold mapTickerToYahooSymbol at 2 3. cbv zeta.
    destruct (includes NIFTY_50_TICKERS (cleanTicker ticker)) eqn:Hin.
    + apply includes_In_text in Hin.
      pose proof (proj1 (forallb_forall _ _) nifty_symbols_are_fixed_text _ Hin) as H.
      cbv beta in H. now apply text_eqb_eq in H.
    + unfold mapTickerToYahooSymbol, cleanTicker in *.
      assert (E : ApiText.cleanTicker (ApiText.cleanTicker ticker)
                  = ApiText.cleanTicker ticker).
      { unfold ApiText.cleanTicker.
        now rewrite replaceQuotes_upper_text, replaceQuotes_idem_text,
          toUpperCase_is_idempotent. }
      rewrite E, Hin. reflexivity.
  - intros name Hin. split.
    + pose proof (proj1 (forallb_forall _ _) nifty_names_get_suffix _ Hin) as H.
      cbv beta in H. now apply text_eqb_eq in H.
    + pose proof (proj1 (forallb_forall _ _) nifty_symbols_are_fixed_text _ Hin) as H.
      cbv beta in H. now apply text_eqb_eq in H.
  - intros Hin. unfold mapTickerToYahooSymbol. cbv zeta. now rewrite Hin.
Qed.

(** A lower-case NIFTY 50 name in quotes, and a name in another script. *)
Example mapTickerToYahooSymbol_examples :
  mapTickerToYahooSymbol (ofString "'reliance'") = ofString "RELIANCE.NS" /\
  mapTickerToYahooSymbol (ofString "RELIANCE.NS") = ofString "RELIANCE.NS" /\
  mapTickerToYahooSymbol (ofString "aapl") = ofString "AAPL" /\
  mapTickerToYahooSymbol [39; 115; 116; 114; 97; 223; 101; 34]%N
  = [83; 84; 82; 65; 83; 83; 69]%N.
Proof. vm_compute. repeat split. Qed.

End YahooSymbolFacts.

(* ------------------------------------------------------------------ *)
(** ** Magnitude formatting *)

Section ToFixedFacts.
Import JsNumber.

(** [toFixed] rounds to the nearest multiple of [10^-f]: for a value
    [m * 2^e] with a fraction part the integer chosen is within one half of
    [m * 2^e * 10^f], the upper one on a tie. *)
Lemma nearestScaled_fraction (f : nat) (m : positive) (e : Z) :
  (e < 0)%Z ->
  let d := (2 ^ (- e))%Z in
  let num := (Z.pos m * 10 ^ Z.of_nat f)%Z in
  let n := nearestScaled f m e in
  (2 * n * d <= 2 * num + d < 2 * n * d + 2 * d)%Z.
Proof.
  intros He d num n. unfold n, nearestScaled. fold num.
  destruct (0 <=? e)%Z eqn:Hle; [apply Z.leb_le in Hle; lia|].
  fold d.
  assert (Hd : (0 < d)%Z) by (apply Z.pow_pos_nonneg; lia).
  pose proof (Z.div_mod (2 * num + d) (2 * d) ltac:(lia)) as Hdm.
  pose proof (Z.mod_pos_bound (2 * num + d) (2 * d) ltac:(lia)) as Hb.
  nia.
Qed.

(** A value without fraction part is scaled exactly. *)
Lemma nearestScaled_integer (f : nat) (m : positive) (e : Z) :
  (0 <= e)%Z -> nearestScaled f m e = (Z.pos m * 10 ^ Z.of_nat f * 2 ^ e)%Z.
Proof.
  intros He. unfold nearestScaled.
  destruct (0 <=? e)%Z eqn:Hle; [reflexivity|].
  apply Z.leb_gt in Hle. lia.
Qed.

End ToFixedFacts.

Section FormatNumberFacts.
Import JsNumber.
Variable shortest : float -> string.

Lemma utility_formatNumber_examples :
  Formatters.formatNumber shortest 1500000 = "1.5M" /\
  Formatters.formatNumber shortest 999 = "999" /\
  Formatters.formatNumber shortest 2300000000 = "2300.0M".
Proof. repeat split; vm_compute; reflexivity. Qed.

(** C5, as the code has it: [formatNumber] of the FastInfo card puts a
    dollar sign before the scaled value.  From 1e12 on the result is the
    dollar sign, the value over 1e12 to two decimals and [T]; from 1e9 on
    likewise with [B], from 1e6 on with [M], from 1e3 on with [K]; any other
    number is the dollar sign and the value to two decimals: the result is
    always the dollar sign followed by the ladder of section 4.4.  So
    1500000 gives [$1.50M], 999 gives [$999.00] and 2300000000 gives
    [$2.30B]. *)
Theorem formatNumber_dollar_ladder (v : float) :
  ((1e12 <=? v)%float = true ->
     FastInfoCard.formatNumber shortest (Some v)
     = "$" ++ toFixed shortest 2 (v / 1e12) ++ "T") /\
  ((1e12 <=? v)%float = false -> (1e9 <=? v)%float = true ->
     FastInfoCard.formatNumber shortest (Some v)
     = "$" ++ toFixed shortest 2 (v / 1e9) ++ "B") /\
  ((1e12 <=? v)%float = false -> (1e9 <=? v)%float = false ->
   (1e6 <=? v)%float = true ->
     FastInfoCard.formatNumber shortest (Some v)
     = "$" ++ toFixed shortest 2 (v / 1e6) ++ "M") /\
  ((1e12 <=? v)%float = false -> (1e9 <=? v)%float = false ->
   (1e6 <=? v)%float = false -> (1e3 <=? v)%float = true ->
     FastInfoCard.formatNumber shortest (Some v)
     = "$" ++ toFixed shortest 2 (v / 1e3) ++ "K") /\
  ((1e12 <=? v)%float = false -> (1e9 <=? v)%float = false ->
   (1e6 <=? v)%float = false -> (1e3 <=? v)%float = false ->
     FastInfoCard.formatNumber shortest (Some v)
     = "$" ++ toFixed shortest 2 v) /\
  FastInfoCard.formatNumber shortest (Some v)
  = "$" ++ FastInfoCard.suffixLadder shortest v /\
  FastInfoCard.formatNumber shortest (Some 1500000%float) = "$1.50M" /\
  FastInfoCard.formatNumber shortest (Some 999%float) = "$999.00" /\
  FastInfoCard.formatNumber shortest (Some 2300000000%float) = "$2.30B".
Proof.
  assert (L : FastInfoCard.formatNumber shortest (Some v)
              = "$" ++ FastInfoCard.suffixLadder shortest v).
  { unfold FastInfoCard.formatNumber, FastInfoCard.suffixLadder.
    destruct (1e12 <=? v)%float; [reflexivity|].
    destruct (1e9 <=? v)%float; [reflexivity|].
    destruct (1e6 <=? v)%float; [reflexivity|].
    destruct (1e3 <=? v)%float; reflexivity. }
  rewrite L. unfold FastInfoCard.suffixLadder.
  split; [intros H1; now rewrite H1|].
  split; [intros H1 H2; now rewrite H1, H2|].
  split; [intros H1 H2 H3; now rewrite H1, H2, H3|].
  split; [intros H1 H2 H3 H4; now rewrite H1, H2, H3, H4|].
  split; [intros H1 H2 H3 H4; now rewrite H1, H2, H3, H4|].
  split; [reflexivity|].
  repeat split; vm_compute; reflexivity.
Qed.

End FormatNumberFacts.

(** C5 as stated fails at 1500000: the ladder of the claim gives [1.50M]
    there, and neither formatter does; the card's gives [$1.50M] and the
    utility's gives [1.5M], whatever the built-in rendering of other numbers
    is. *)
Lemma formatNumber_1500000_is_not_plain :
  (forall shortest, FastInfoCard.suffixLadder shortest 1500000%float = "1.50M") /\
  (forall shortest, FastInfoCard.formatNumber shortest (Some 1500000%float) = "$1.50M") /\
  (forall shortest, Formatters.formatNumber shortest 1500000%float = "1.5M") /\
  "$1.50M" <> "1.50M" /\ "1.5M" <> "1.50M".
Proof.
  repeat split; try discriminate; intros; vm_compute; reflexivity.
Qed.

(* ------------------------------------------------------------------ *)
(** ** The screener's condition list *)

Section QueryBuilderFacts.
Import QueryBuilder.

Lemma filteri_keep_below {A : Type} (index base : nat) (l : list A) :
  (base + List.length l <= index)%nat ->
  filteri (fun _ i => negb (Nat.eqb i index)) base l = l.
Proof.
  revert base; induction l as [|x r IH]; intros base Hle; [reflexivity|].
  cbn [filteri]. cbn [List.length] in Hle.
  destruct (Nat.eqb_spec base index); [lia|].
  cbn [negb]. f_equal. apply IH. lia.
Qed.

Lemma filteri_drop_last {A : Type} (base : nat) (l : list A) (x : A) :
  filteri (fun _ i => negb (Nat.eqb i (base + List.length l))) base (l ++ [x]) = l.
Proof.
  revert base; induction l as [|y r IH]; intros base.
  - cbn. rewrite Nat.add_0_r, Nat.eqb_refl. reflexivity.
  - cbn [app filteri List.length].
    destruct (Nat.eqb_spec base (base + S (List.length r))); [lia|].
    cbn [negb]. f_equal.
    replace (base + S (List.length r))%nat with (S base + List.length r)%nat by lia.
    apply IH.
Qed.

(** C6: for every condition list, adding a condition (it lands at index
    [length L]) and then removing the condition at that index gives back
    the list, in length and contents; the rest of the query is untouched. *)
Theorem add_then_remove_condition (q : Query) :
  removeCondition (List.length (operands q)) (addCondition q) = q /\
  operands (removeCondition (List.length (operands q)) (addCondition q)) = operands q /\
  List.length (operands (removeCondition (List.length (operands q)) (addCondition q)))
  = List.length (operands q) /\
  nth_error (operands (addCondition q)) (List.length (operands q)) = Some newCondition.
Proof.
  assert (E : operands (removeCondition (List.length (operands q)) (addCondition q))
              = operands q).
  { cbn. apply (filteri_drop_last 0). }
  repeat split.
  - destruct q as [op ops]. unfold removeCondition, addCondition in *. cbn in *.
    now rewrite E.
  - exact E.
  - now rewrite E.
  - cbn. rewrite nth_error_app2 by lia. now rewrite Nat.sub_diag.
Qed.

End QueryBuilderFacts.

(* ------------------------------------------------------------------ *)
(** ** Enum-to-style mappers *)

Section StyleFacts.
Import JsString.

(** The styles [getSentimentColor] can return, one per arm. *)
Lemma getSentimentColor_cases (sentiment : string) :
  (toUpperCase sentiment = "POSITIVE" /\ icon (NewsCard.getSentimentColor sentiment) = ChartUp) \/
  (toUpperCase sentiment = "NEGATIVE" /\ icon (NewsCard.getSentimentColor sentiment) = ChartDown) \/
  (toUpperCase sentiment = "NEUTRAL" /\ icon (NewsCard.getSentimentColor sentiment) = BarChart) \/
  NewsCard.getSentimentColor sentiment = NewsCard.defaultStyle.
Proof.
  unfold NewsCard.getSentimentColor.
  destruct (String.eqb_spec (toUpperCase sentiment) "POSITIVE") as [E1|_];
    [left; now split|].
  destruct (String.eqb_spec (toUpperCase sentiment) "NEGATIVE") as [E2|_];
    [right; left; now split|].
  destruct (String.eqb_spec (toUpperCase sentiment) "NEUTRAL") as [E3|_];
    [right; right; left; now split|].
  now right; right; right.
Qed.

(** C8: the two enum-to-style mappers are total functions of the input
    string.  [getSentimentColor] returns the default style for every input
    whose upper-case form is none of POSITIVE, NEGATIVE, NEUTRAL, and
    [getSignalColor] returns the default (gray) style for every input that is
    none of buy, sell, hold; no input makes either one fail. *)
Theorem enum_mappers_fall_back_to_default (value : string) :
  (exists style, NewsCard.getSentimentColor value = style /\
     (toUpperCase value <> "POSITIVE" -> toUpperCase value <> "NEGATIVE" ->
      toUpperCase value <> "NEUTRAL" -> style = NewsCard.defaultStyle)) /\
  (exists style, SignalsPanel.getSignalColor value = style /\
     (value <> "buy" -> value <> "sell" -> value <> "hold" ->
      style = SignalsPanel.defaultColor)).
Proof.
  split; eexists; (split; [reflexivity|]); intros H1 H2 H3.
  - unfold NewsCard.getSentimentColor.
    destruct (String.eqb_spec (toUpperCase value) "POSITIVE"); [contradiction|].
    destruct (String.eqb_spec (toUpperCase value) "NEGATIVE"); [contradiction|].
    destruct (String.eqb_spec (toUpperCase value) "NEUTRAL"); [contradiction|].
    reflexivity.
  - unfold SignalsPanel.getSignalColor.
    destruct (String.eqb_spec value "buy"); [contradiction|].
    destruct (String.eqb_spec value "sell"); [contradiction|].
    destruct (String.eqb_spec value "hold"); [contradiction|].
    reflexivity.
Qed.

Example getSignalColor_upper_case_is_default :
  SignalsPanel.getSignalColor "BUY" = SignalsPanel.defaultColor.
Proof. reflexivity. Qed.

Example getSentimentColor_mixed_case :
  NewsCard.getSentimentColor "Positive" = NewsCard.getSentimentColor "POSITIVE".
Proof. reflexivity. Qed.

End StyleFacts.

(* ------------------------------------------------------------------ *)
(** ** What the panels render *)

Section PanelFacts.

Lemma filter_map_all {A : Type} (f : A -> Element) (p : Element -> bool) (l : list A) :
  (forall x, p (f x) = true) -> filter p (map f l) = map f l.
Proof.
  intros Hp; induction l as [|x r IH]; [reflexivity|].
  cbn. now rewrite Hp, IH.
Qed.

Lemma stockGrid_count (stocks : list StockData.t) :
  countIn isStockCard (StockGrid.render stocks) = List.length stocks.
Proof.
  unfold countIn, StockGrid.render; cbn [children].
  rewrite filter_map_all by reflexivity. apply length_map.
Qed.

Lemma signalsPanel_count (signals : list Signal.t) :
  countIn isSignalEntry (SignalsPanel.render signals) = List.length signals.
Proof.
  unfold countIn, SignalsPanel.render; cbn [children].
  destruct signals as [|x r]; [reflexivity|].
  cbn [List.length Nat.eqb].
  rewrite filter_map_all by reflexivity. apply length_map.
Qed.

Lemma newsPanel_count (news : list NewsItem.t) :
  countIn isNewsCard (NewsPanel.render news) = Nat.min (List.length news) 5.
Proof.
  unfold countIn, NewsPanel.render; cbn [children].
  destruct news as [|x r]; [reflexivity|].
  cbn [List.length Nat.eqb].
  rewrite filter_map_all by reflexivity.
  rewrite length_map, length_firstn. cbn [List.length]. lia.
Qed.

Lemma firstn_all_short {A : Type} (l : list A) (n : nat) :
  List.length l <= n -> firstn n l = l.
Proof. intros H. now apply firstn_all2. Qed.

(** C4: for a loaded bundle with 2 stocks, 3 news items and 1 signal the
    dashboard view is the main view with the header count 2, and its
    panels hold the bundle itself: the grid is one stock card per stock, the
    [i]-th card showing the [i]-th stock (2 cards); the signals panel is one
    entry per signal, carrying that signal's ticker, badge, upper-cased
    label, reasoning, tags and time (1 entry); and the news panel is one
    news card per item, the [i]-th card showing the [i]-th item (3 cards,
    that is [min (length news) 5]).  Whatever the news supplied, the news
    panel shows the cards of its first five items, in order, so
    [min (length news) 5] cards and never more than 5. *)
Theorem dashboard_renders_bundle (b : DashboardData.t) :
  List.length (DashboardData.stocks b) = 2 ->
  List.length (DashboardData.news b) = 3 ->
  List.length (DashboardData.signals b) = 1 ->
  exists grid signalsPanel newsPanel,
    Dashboard.render {| HookState.data := Some b; HookState.loading := false;
                        HookState.error := None |}
    = Dashboard.Main (DashboardData.timestamp b) 2 grid signalsPanel newsPanel /\
    children grid = map StockCardEl (DashboardData.stocks b) /\
    children signalsPanel
    = map (fun signal =>
             SignalEntry (Signal.ticker signal)
               ("px-2 py-1 rounded text-xs font-medium "
                ++ SignalsPanel.getSignalColor (Signal.signal signal))
               (JsString.toUpperCase (Signal.signal signal))
               (JsString.join ", " (Signal.reasoning signal))
               ("Signals: " ++ JsString.join ", " (Signal.signals signal))
               (Signal.generated_at signal))
          (DashboardData.signals b) /\
    children newsPanel = map NewsCardEl (DashboardData.news b) /\
    countIn isStockCard grid = 2 /\
    countIn isSignalEntry signalsPanel = 1 /\
    countIn isNewsCard newsPanel = Nat.min (List.length (DashboardData.news b)) 5 /\
    countIn isNewsCard newsPanel = 3 /\
    (forall supplied : list NewsItem.t,
       (supplied <> [] ->
        children (NewsPanel.render supplied) = map NewsCardEl (firstn 5 supplied)) /\
       countIn isNewsCard (NewsPanel.render supplied)
       = Nat.min (List.length supplied) 5 /\
       countIn isNewsCard (NewsPanel.render supplied) <= 5).
Proof.
  intros Hs Hn Hg.
  exists (StockGrid.render (DashboardData.stocks b)),
         (SignalsPanel.render (DashboardData.signals b)),
         (NewsPanel.render (DashboardData.news b)).
  cbn [Dashboard.render HookState.loading HookState.error HookState.data Dashboard.truthy].
  rewrite stockGrid_count, signalsPanel_count, newsPanel_count, Hs, Hn, Hg.
  split; [reflexivity|]. split; [reflexivity|]. split; [|split].
  - unfold SignalsPanel.render. cbn [children].
    destruct (DashboardData.signals b); [discriminate Hg | reflexivity].
  - unfold NewsPanel.render. cbn [children].
    destruct (DashboardData.news b) as [|n r] eqn:E; [discriminate Hn|].
    cbn [List.length Nat.eqb]. f_equal. apply firstn_all_short. rewrite Hn. lia.
  - repeat split; try reflexivity.
    + intros Hne. unfold NewsPanel.render. cbn [children].
      destruct supplied; [contradiction | reflexivity].
    + apply newsPanel_count.
    + rewrite newsPanel_count. lia.
Qed.

Lemma dashboard_renders_bundle_witness :
  List.length (DashboardData.stocks Samples.bundle) = 2 /\
  List.length (DashboardData.news Samples.bundle) = 3 /\
  List.length (DashboardData.signals Samples.bundle) = 1 /\
  exists grid signalsPanel newsPanel,
    Dashboard.render {| HookState.data := Some Samples.bundle;
                        HookState.loading := false; HookState.error := None |}
    = Dashboard.Main (DashboardData.timestamp Samples.bundle) 2
        grid signalsPanel newsPanel /\
    children grid = map StockCardEl (DashboardData.stocks Samples.bundle) /\
    children signalsPanel
    = map (fun signal =>
             SignalEntry (Signal.ticker signal)
               ("px-2 py-1 rounded text-xs font-medium "
                ++ SignalsPanel.getSignalColor (Signal.signal signal))
               (JsString.toUpperCase (Signal.signal signal))
               (JsString.join ", " (Signal.reasoning signal))
               ("Signals: " ++ JsString.join ", " (Signal.signals signal))
               (Signal.generated_at signal))
          (DashboardData.signals Samples.bundle) /\
    children newsPanel = map NewsCardEl (DashboardData.news Samples.bundle) /\
    countIn isStockCard grid = 2 /\
    countIn isSignalEntry signalsPanel = 1 /\
    countIn isNewsCard newsPanel
    = Nat.min (List.length (DashboardData.news Samples.bundle)) 5 /\
    countIn isNewsCard newsPanel = 3 /\
    (forall supplied : list NewsItem.t,
       (supplied <> [] ->
        children (NewsPanel.render supplied) = map NewsCardEl (firstn 5 supplied)) /\
       countIn isNewsCard (NewsPanel.render supplied)
       = Nat.min (List.length supplied) 5 /\
       countIn isNewsCard (NewsPanel.render supplied) <= 5).
Proof.
  split; [reflexivity|]. split; [reflexivity|]. split; [reflexivity|].
  exact (dashboard_renders_bundle Samples.bundle eq_refl eq_refl eq_refl).
Defined.

(** The sample bundle on the page: the two stock cards, the entry of the
    hold signal and the three news cards, in the bundle's order. *)
Example sample_bundle_on_the_page :
  Dashboard.render {| HookState.data := Some Samples.bundle;
                      HookState.loading := false; HookState.error := None |}
  = Dashboard.Main "2024-01-01T00:00:00.000Z" 2
      {| className := "grid grid-cols-1 md:grid-cols-2 gap-4";
         children := [ StockCardEl (Samples.stock "RELIANCE.NS" 2500 1.5);
                       StockCardEl (Samples.stock "TCS.NS" 3500 (-0.5)) ] |}
      {| className := "space-y-3";
         children := [ SignalEntry "TCS.NS"
                         "px-2 py-1 rounded text-xs font-medium text-yellow-600 bg-yellow-50"
                         "HOLD" "No clear trend" "Signals: RSI neutral"
                         "2024-01-01T00:00:00.000Z" ] |}
      {| className := "space-y-3 max-h-96 overflow-y-auto";
         children := [ NewsCardEl (Samples.item "One" "positive");
                       NewsCardEl (Samples.item "Two" "negative");
                       NewsCardEl (Samples.item "Three" "neutral") ] |}.
Proof. reflexivity. Qed.

(** Seven items supplied: five cards. *)
Example newsPanel_caps_at_five (n : NewsItem.t) :
  countIn isNewsCard (NewsPanel.render [n; n; n; n; n; n; n]) = 5.
Proof. reflexivity. Qed.

End PanelFacts.

(* ------------------------------------------------------------------ *)
(** ** The Yahoo-quote client *)

Section YahooFacts.
Import YahooClient.
Variable axios_get : nat -> string -> Settled (option Quote).
Variable toISOString : float -> Settled string.
Variable now : string.

(** A call of [getStockData] issues exactly one request, for the Yahoo
    symbol of its ticker, and what it returns is decided by the service's
    answer to that request. *)
Lemma getStockData_unfold (t : string) (log : Requests) :
  snd (getStockData axios_get toISOString t log) = (log ++ [mapTickerToYahooSymbol t])%list /\
  match fst (getStockData axios_get toISOString t log) with
  | Fulfilled stockData =>
      kept axios_get toISOString (List.length log) (mapTickerToYahooSymbol t)
           (YahooClient.cleanTicker t) = [stockData]
  | Rejected _ =>
      kept axios_get toISOString (List.length log) (mapTickerToYahooSymbol t)
           (YahooClient.cleanTicker t) = []
  end.
Proof.
  unfold getStockData, get, kept, answered. cbn [fst snd]. split; [reflexivity|].
  destruct (axios_get (List.length log) (mapTickerToYahooSymbol t)) as [[q|]|e];
    try reflexivity.
  destruct (toISOString _); reflexivity.
Qed.

Lemma round_unfold (st : Loop) (t : string) :
  round axios_get toISOString st t
  = {| stocks := stocks st
                 ++ kept axios_get toISOString (List.length (requested st))
                      (mapTickerToYahooSymbol t) (YahooClient.cleanTicker t);
       requested := requested st ++ [mapTickerToYahooSymbol t] |}.
Proof.
  unfold round.
  destruct (getStockData_unfold t (requested st)) as [Hlog Hres].
  destruct (getStockData axios_get toISOString t (requested st)) as [result log].
  cbn [fst snd] in Hlog, Hres. subst log.
  destruct result; rewrite Hres; [reflexivity | now rewrite app_nil_r].
Qed.

Lemma rounds_closed (l : list string) (st : Loop) :
  fold_left (round axios_get toISOString) l st
  = {| stocks := stocks st
                 ++ flat_map (fun kt => kept axios_get toISOString (fst kt)
                                          (mapTickerToYahooSymbol (snd kt))
                                          (YahooClient.cleanTicker (snd kt)))
                      (combine (seq (List.length (requested st)) (List.length l)) l);
       requested := requested st ++ map mapTickerToYahooSymbol l |}.
Proof.
  revert st; induction l as [|t r IH]; intros st.
  - cbn. rewrite !app_nil_r. now destruct st.
  - cbn [fold_left]. rewrite IH, round_unfold.
    cbn [stocks requested List.length seq combine flat_map map fst snd].
    rewrite length_app. cbn [List.length]. rewrite Nat.add_1_r, <- !app_assoc.
    reflexivity.
Qed.

Lemma kept_at_most_one (f : nat * string -> string * string) (l : list (nat * string)) :
  List.length (flat_map (fun kt => kept axios_get toISOString (fst kt)
                                     (fst (f kt)) (snd (f kt))) l)
  <= List.length l.
Proof.
  induction l as [|kt r IH]; [cbn; lia|].
  cbn [flat_map]. rewrite length_app. cbn [List.length].
  unfold kept at 1.
  destruct (axios_get (fst kt) (fst (f kt))) as [[q|]|e]; cbn [List.length]; try lia.
  destruct (toISOString _); cbn [List.length]; lia.
Qed.

Lemma flat_map_ext_In {A B : Type} (f g : A -> list B) (l : list A) :
  (forall x, In x l -> f x = g x) -> flat_map f l = flat_map g l.
Proof.
  induction l as [|x r IH]; intros H; [reflexivity|].
  cbn [flat_map]. rewrite (H x (or_introl eq_refl)), IH; [reflexivity|].
  intros y Hy. apply H. now right.
Qed.

(** A NIFTY 50 name is clean already, and its Yahoo symbol is the name
    with [.NS]. *)
Lemma nifty_names :
  forallb (fun t => String.eqb (mapTickerToYahooSymbol t) (t ++ ".NS")
                    && String.eqb (YahooClient.cleanTicker t) t)
          NIFTY_50_TICKERS = true.
Proof. vm_compute. reflexivity. Qed.

Lemma nifty_symbols :
  map mapTickerToYahooSymbol NIFTY_50_TICKERS
  = map (fun t => t ++ ".NS") NIFTY_50_TICKERS.
Proof. vm_compute. reflexivity. Qed.

(** C10: called with an empty ticker list, the client's [getDashboardData]
    does not skip fetching.  It walks the 50 symbols of [NIFTY_50_TICKERS] in
    order and issues one quote request for each, for the symbol with [.NS]
    appended: the log of the requests issued through [getStockData] is that
    list.  The stocks of the bundle are decided by the service's answers: the
    [k]-th symbol gives one stock, under its own name and with the price,
    change, volume and time of the quote, when the answer to the [k]-th
    request carries a quote whose time is valid, and leaves no trace when the
    request is rejected, carries no quote or has an invalid time.  The
    bundle's news and signals lists are empty, as they are for every ticker
    list. *)
Theorem getDashboardData_empty_walks_nifty50 :
  let result := getDashboardData axios_get toISOString now [] in
  List.length NIFTY_50_TICKERS = 50 /\
  snd result = map (fun t => t ++ ".NS") NIFTY_50_TICKERS /\
  List.length (snd result) = 50 /\
  DashboardData.stocks (fst result)
  = flat_map
      (fun kt : nat * string =>
         match axios_get (fst kt) (snd kt ++ ".NS") with
         | Fulfilled (Some quote) =>
             match toISOString (orZero (regularMarketTime quote) * 1000)%float with
             | Fulfilled iso =>
                 [ {| StockData.ticker := snd kt;
                      StockData.price := orZero (regularMarketPrice quote);
                      StockData.price_change_1d := orZero (regularMarketChangePercent quote);
                      StockData.price_change_5d := 0;
                      StockData.rsi := 0;
                      StockData.rsi_status := "NEUTRAL";
                      StockData.macd := 0;
                      StockData.macd_signal := 0;
                      StockData.ema20 := 0;
                      StockData.bollinger_high := 0;
                      StockData.bollinger_low := 0;
                      StockData.atr := 0;
                      StockData.trend :=
                        if (0 <? orZero (regularMarketChangePercent quote))%float
                        then "BULLISH" else "BEARISH";
                      StockData.volume := orZero (regularMarketVolume quote);
                      StockData.last_updated := iso |} ]
             | Rejected _ => []
             end
         | Fulfilled None => []
         | Rejected _ => []
         end)
      (combine (seq 0 50) NIFTY_50_TICKERS) /\
  List.length (DashboardData.stocks (fst result)) <= 50 /\
  (forall tickers,
     DashboardData.news (fst (getDashboardData axios_get toISOString now tickers)) = [] /\
     DashboardData.signals (fst (getDashboardData axios_get toISOString now tickers)) = []).
Proof.
  assert (L : List.length NIFTY_50_TICKERS = 50) by reflexivity.
  assert (E : fold_left (round axios_get toISOString) NIFTY_50_TICKERS
                {| stocks := []; requested := [] |}
              = {| stocks := flat_map (fun kt => kept axios_get toISOString (fst kt)
                                                   (mapTickerToYahooSymbol (snd kt))
                                                   (YahooClient.cleanTicker (snd kt)))
                               (combine (seq 0 50) NIFTY_50_TICKERS);
                   requested := map mapTickerToYahooSymbol NIFTY_50_TICKERS |}).
  { rewrite rounds_closed. cbn [stocks requested app List.length]. now rewrite L. }
  cbv zeta. unfold getDashboardData at 1 2 3 4.
  cbn [List.length Nat.ltb Nat.leb fst snd].
  rewrite E. cbn [stocks requested DashboardData.stocks].
  split; [exact L|]. split; [apply nifty_symbols|].
  split; [now rewrite length_map|]. split; [|split].
  - apply flat_map_ext_In. intros [k t] Hin. cbn [fst snd].
    apply in_combine_r in Hin.
    pose proof (proj1 (forallb_forall _ _) nifty_names _ Hin) as H.
    cbv beta in H. apply andb_true_iff in H. destruct H as [H1 H2].
    apply String.eqb_eq in H1. apply String.eqb_eq in H2.
    rewrite H1, H2. reflexivity.
  - rewrite (kept_at_most_one
               (fun kt => (mapTickerToYahooSymbol (snd kt), YahooClient.cleanTicker (snd kt)))).
    rewrite length_combine, length_seq, L. reflexivity.
  - intros tickers; split; reflexivity.
Qed.

End YahooFacts.

(* ------------------------------------------------------------------ *)
(** ** The dashboard hook *)

Section ListFacts.

Lemma length_updateAt {A : Type} (c : nat) (f : A -> A) (l : list A) :
  List.length (updateAt c f l) = List.length l.
Proof.
  revert c; induction l as [|x r IH]; intros [|c]; cbn; auto.
Qed.

Lemma nth_error_updateAt {A : Type} (c i : nat) (f : A -> A) (l : list A) :
  nth_error (updateAt c f l) i
  = if Nat.eqb i c then option_map f (nth_error l i) else nth_error l i.
Proof.
  revert c i; induction l as [|x r IH]; intros [|c] [|i]; cbn; auto;
    now destruct (Nat.eqb i c).
Qed.

Lemma In_removeOne (c x : nat) (l : list nat) : In x (removeOne c l) -> In x l.
Proof.
  induction l as [|y r IH]; cbn; [auto|].
  destruct (Nat.eqb y c); cbn; intuition.
Qed.

Lemma existsb_eqb_In (c : nat) (l : list nat) :
  existsb (Nat.eqb c) l = true <-> In c l.
Proof.
  rewrite existsb_exists. split.
  - intros [x [Hin Heq]]. apply Nat.eqb_eq in Heq. now subst.
  - intros Hin. exists c. split; [assumption | apply Nat.eqb_refl].
Qed.

End ListFacts.

Section PlainHookFacts.
Import HookState.

(** C2, on the earlier copy of the hook: given the empty list its effect
    calls [getDashboardData] all the same (with the empty list), arms the
    60-second timer, and leaves the hook loading until the call settles. *)
Theorem plain_hook_fetches_on_empty_list :
  let h := PlainHook.runEffect [] PlainHook.initial in
  PlainHook.calls h = [[]] /\
  PlainHook.inflight h = [0] /\
  PlainHook.closures h = [ {| PlainHook.tickers := []; PlainHook.interval := true |} ] /\
  loading (PlainHook.state h) = true.
Proof. cbv zeta. repeat split. Qed.

Lemma plain_hook_always_fetches (ts : list string) (h : PlainHook.Hook) :
  PlainHook.calls (PlainHook.runEffect ts h) = (PlainHook.calls h ++ [ts])%list.
Proof. reflexivity. Qed.

(** The earlier copy keeps the data on a failure as well, and has no guard
    that could skip the other two updates. *)
Lemma plain_hook_failure_keeps_data (err : Thrown) (s : HookState.t) :
  data (PlainHook.fetchData_settle (Rejected err) s) = data s /\
  loading (PlainHook.fetchData_settle (Rejected err) s) = false /\
  error (PlainHook.fetchData_settle (Rejected err) s) = Some (fetchErrorMessage err).
Proof. repeat split. Qed.

End PlainHookFacts.

Section DashboardHookFacts.
Import HookState DashboardHook.

Lemma Inv_initial : Inv initial.
Proof.
  split; cbn.
  - intros c [].
  - intros [|c] cl; discriminate.
Qed.

Lemma Inv_render (ts : list string) (h : Hook) :
  Inv h -> Inv (runEffect ts (cleanup (List.length (closures h) - 1) h)).
Proof.
  intros [I1 I2].
  set (n := List.length (closures h)).
  set (f := fun cl => if (0 <? List.length (tickers cl))%nat then unmountClosure cl else cl).
  assert (Hold : forall c cl, nth_error (updateAt (n - 1) f (closures h)) c = Some cl ->
                   interval cl = false /\ (isMounted cl = true -> ~ In c (inflight h)) /\ c < n).
  { intros c cl Hc. rewrite nth_error_updateAt in Hc.
    assert (Hlt : c < n).
    { destruct (Nat.eqb c (n - 1)).
      - destruct (nth_error (closures h) c) eqn:E; [|discriminate].
        apply nth_error_Some. congruence.
      - apply nth_error_Some. congruence. }
    destruct (Nat.eqb_spec c (n - 1)) as [->|Hne].
    - destruct (nth_error (closures h) (n - 1)) as [cl0|] eqn:E; [|discriminate].
      cbn in Hc. injection Hc as <-. unfold f.
      destruct (0 <? List.length (tickers cl0))%nat eqn:Ht.
      + cbn. repeat split; [discriminate | assumption].
      + destruct (I2 _ _ E) as [Q1 Q2].
        { right. destruct (tickers cl0); [reflexivity | discriminate]. }
        repeat split; assumption.
    - destruct (I2 _ _ Hc) as [Q1 Q2]; [left; fold n; lia|].
      repeat split; assumption. }
  unfold runEffect, cleanup; cbn [closures state inflight calls].
  rewrite length_updateAt. fold n. fold f.
  destruct (0 <? List.length ts)%nat eqn:Hts; unfold fetchData_call;
    cbn [closures state inflight calls tickers]; split; unfold quiet;
    cbn [closures state inflight calls tickers].
  - intros c Hin. rewrite length_app, length_updateAt. fold n. cbn.
    apply in_app_or in Hin. destruct Hin as [Hin|[<-|[]]]; [apply I1 in Hin; fold n in Hin|]; lia.
  - intros c cl Hc Hside. rewrite length_app, length_updateAt in Hside. fold n in Hside.
    cbn [List.length] in Hside.
    destruct (Nat.lt_ge_cases c n) as [Hlt|Hge].
    + rewrite nth_error_app1 in Hc by (rewrite length_updateAt; exact Hlt).
      destruct (Hold _ _ Hc) as (Q1 & Q2 & _). split; [exact Q1|].
      intros Hm Hin. apply in_app_or in Hin. destruct Hin as [Hin|[<-|[]]]; [|lia].
      now apply Q2.
    + rewrite nth_error_app2 in Hc by (rewrite length_updateAt; exact Hge).
      rewrite length_updateAt in Hc. fold n in Hc.
      destruct (c - n) as [|k] eqn:Ek; [|destruct k; discriminate].
      cbn in Hc. injection Hc as <-. cbn [tickers] in Hside.
      destruct Hside as [Hs|Hs]; [lia|]. subst ts. discriminate.
  - intros c Hin. rewrite length_app, length_updateAt. fold n. cbn.
    apply I1 in Hin. fold n in Hin. lia.
  - intros c cl Hc Hside. rewrite length_app, length_updateAt in Hside. fold n in Hside.
    destruct (Nat.lt_ge_cases c n) as [Hlt|Hge].
    + rewrite nth_error_app1 in Hc by (rewrite length_updateAt; exact Hlt).
      destruct (Hold _ _ Hc) as (Q1 & Q2 & _). split; assumption.
    + rewrite nth_error_app2 in Hc by (rewrite length_updateAt; exact Hge).
      rewrite length_updateAt in Hc. fold n in Hc.
      destruct (c - n) as [|k] eqn:Ek; [|destruct k; discriminate].
      cbn in Hc. injection Hc as <-. split; [reflexivity|].
      intros _ Hin. apply I1 in Hin. fold n in Hin. lia.
Qed.

Lemma Inv_step (ev : Event) (h h' : Hook) :
  Inv h -> step ev h = Some h' -> Inv h'.
Proof.
  intros HI Hstep. destruct ev as [ts|c|c r]; cbn [step] in Hstep.
  - injection Hstep as <-. now apply Inv_render.
  - unfold closureAt in Hstep.
    destruct (nth_error (closures h) c) as [cl|] eqn:Hc; [|discriminate].
    destruct (interval cl) eqn:Hi; [|discriminate].
    injection Hstep as <-. destruct HI as [I1 I2].
    assert (Hlt : c < List.length (closures h)) by (apply nth_error_Some; congruence).
    split; unfold quiet, fetchData_call; cbn [closures inflight].
    + intros c' Hin. apply in_app_or in Hin.
      destruct Hin as [Hin|[<-|[]]]; [now apply I1 | exact Hlt].
    + intros c' cl' Hc' Hside. destruct (I2 _ _ Hc' Hside) as [Q1 Q2].
      split; [exact Q1|]. intros Hm Hin. apply in_app_or in Hin.
      destruct Hin as [Hin|[<-|[]]]; [now apply Q2|]. congruence.
  - unfold closureAt in Hstep.
    destruct (nth_error (closures h) c) as [cl|] eqn:Hc; [|discriminate].
    destruct (existsb (Nat.eqb c) (inflight h)); [|discriminate].
    injection Hstep as <-. destruct HI as [I1 I2].
    split; unfold quiet; cbn [closures inflight].
    + intros c' Hin. apply In_removeOne in Hin. now apply I1.
    + intros c' cl' Hc' Hside. destruct (I2 _ _ Hc' Hside) as [Q1 Q2].
      split; [exact Q1|]. intros Hm Hin. apply In_removeOne in Hin. now apply Q2.
Qed.

Lemma Inv_run (evs : list Event) (h h' : Hook) :
  Inv h -> run evs h = Some h' -> Inv h'.
Proof.
  revert h; induction evs as [|ev rest IH]; intros h HI Hrun; cbn [run] in Hrun.
  - now injection Hrun as <-.
  - destruct (step ev h) as [h1|] eqn:Hs; [|discriminate].
    eapply IH; [eapply Inv_step; eassumption | exact Hrun].
Qed.

Lemma reachable_Inv (h : Hook) : reachable h -> Inv h.
Proof. intros [evs Hrun]. eapply Inv_run; [apply Inv_initial | exact Hrun]. Qed.

(** A render with the empty list issues no call, sets the idle state and
    leaves every run quiet. *)
Lemma render_empty (h : Hook) :
  Inv h ->
  let h1 := runEffect [] (cleanup (List.length (closures h) - 1) h) in
  calls h1 = calls h /\ state h1 = idle /\ allQuiet h1.
Proof.
  intros HI h1. split; [reflexivity|]. split; [reflexivity|].
  pose proof (Inv_render [] h HI) as [I1 I2]. fold h1 in I1, I2.
  intros c cl Hc. apply (I2 _ _ Hc).
  assert (Hlt : c < List.length (closures h1)) by (apply nth_error_Some; congruence).
  destruct (Nat.eq_dec (S c) (List.length (closures h1))) as [E|NE]; [|left; lia].
  right. unfold h1, runEffect, cleanup in Hc, E; cbn [closures List.length Nat.ltb Nat.leb] in Hc, E.
  rewrite length_app, length_updateAt in E. cbn [List.length] in E.
  rewrite nth_error_app2 in Hc by (rewrite length_updateAt; lia).
  rewrite length_updateAt in Hc.
  replace (c - List.length (closures h)) with 0 in Hc by lia.
  cbn in Hc. now injection Hc as <-.
Qed.

(** Once every run is quiet, timers and settling calls change neither the
    state nor the calls issued. *)
Lemma allQuiet_stays (evs : list Event) (h h' : Hook) :
  allQuiet h -> forallb (fun ev => negb (isRender ev)) evs = true ->
  run evs h = Some h' ->
  calls h' = calls h /\ state h' = state h.
Proof.
  revert h; induction evs as [|ev rest IH]; intros h HQ Hno Hrun; cbn [run] in Hrun.
  - injection Hrun as <-. now split.
  - cbn [forallb] in Hno. apply andb_prop in Hno as [Hev Hrest].
    destruct (step ev h) as [h1|] eqn:Hs; [|discriminate].
    destruct ev as [ts|c|c r]; [discriminate| |]; cbn [step] in Hs; unfold closureAt in Hs;
      (destruct (nth_error (closures h) c) as [cl|] eqn:Hc; [|discriminate]);
      destruct (HQ _ _ Hc) as [Q1 Q2].
    + rewrite Q1 in Hs. discriminate.
    + destruct (existsb (Nat.eqb c) (inflight h)) eqn:Hin; [|discriminate].
      apply existsb_eqb_In in Hin.
      destruct (isMounted cl) eqn:Hm; [exfalso; now apply Q2|].
      injection Hs as <-.
      unfold fetchData_settle in Hrun.
      match type of Hrun with run rest ?h1 = _ =>
        assert (HQ1 : allQuiet h1) end.
      { intros c' cl' Hc'. cbn [closures] in Hc'. destruct (HQ _ _ Hc') as [Q1' Q2'].
        split; [exact Q1'|]. cbn [inflight]. intros Hm' Hin'.
        apply In_removeOne in Hin'. now apply Q2'. }
      destruct (IH _ HQ1 Hrest Hrun) as [C S'].
      cbn [calls state] in C, S'. split; [exact C|].
      rewrite S'. destruct r; reflexivity.
Qed.

(** The guarded hook does what section 4.3 asks for an empty list: from any
    state the hook can be in, a render with the empty list issues no call and
    sets the idle state, and no timer or late response changes that. *)
Lemma guarded_hook_idle_on_empty_list (h h' : Hook) (evs : list Event) :
  reachable h ->
  forallb (fun ev => negb (isRender ev)) evs = true ->
  run (Render [] :: evs) h = Some h' ->
  calls h' = calls h /\ state h' = idle.
Proof.
  intros Hr Hno Hrun. cbn [run step] in Hrun.
  destruct (render_empty h (reachable_Inv h Hr)) as (C & S' & Q).
  destruct (allQuiet_stays _ _ _ Q Hno Hrun) as [C' S''].
  split; congruence.
Qed.

(** C3, as the code has it: when a failed call settles and the run that
    issued it is still mounted, loading becomes false, the error cell holds
    the error's message (or [Failed to fetch data] for a thrown value that
    is no [Error]) and the data cell is left as it was; when that run has
    been cleaned up meanwhile, no cell changes at all.  The data cell is
    untouched in both cases. *)
Theorem fetch_failure_keeps_data (h h' : Hook) (c : nat) (err : Thrown) :
  step (Settle c (Rejected err)) h = Some h' ->
  exists cl, closureAt h c = Some cl /\
    data (state h') = data (state h) /\
    (isMounted cl = true ->
       loading (state h') = false /\
       error (state h') = Some (fetchErrorMessage err)) /\
    (isMounted cl = false -> state h' = state h).
Proof.
  intros Hs. cbn [step] in Hs.
  destruct (closureAt h c) as [cl|]; [|discriminate].
  destruct (existsb (Nat.eqb c) (inflight h)); [|discriminate].
  injection Hs as <-. exists cl. cbn [state].
  destruct (isMounted cl); repeat split; try reflexivity; discriminate.
Qed.

Lemma fetch_failure_keeps_data_witness :
  step (Settle 0 (Rejected Samples.networkError)) Samples.refreshing
  = Some {| state := {| data := Some Samples.bundle; loading := false;
                        error := Some "Network Error" |};
            closures := closures Samples.refreshing;
            inflight := [];
            calls := calls Samples.refreshing |} /\
  exists cl, closureAt Samples.refreshing 0 = Some cl /\
    Some Samples.bundle = data (state Samples.refreshing) /\
    (isMounted cl = true ->
       false = false /\ Some "Network Error" = Some (fetchErrorMessage Samples.networkError)) /\
    (isMounted cl = false ->
       {| data := Some Samples.bundle; loading := false; error := Some "Network Error" |}
       = state Samples.refreshing).
Proof.
  split; [reflexivity|].
  exact (fetch_failure_keeps_data Samples.refreshing _ 0 Samples.networkError eq_refl).
Defined.

(** C3 as stated fails for a call whose run was cleaned up before it
    settled: after a render with new tickers the first run's failing call
    changes nothing, so loading is still true and no error is stored. *)
Lemma stale_fetch_failure_leaves_loading :
  exists h,
    run [Render ["AAPL"]; Render ["MSFT"]; Settle 0 (Rejected Samples.networkError)]
        initial = Some h /\
    loading (state h) = true /\ error (state h) = None.
Proof. eexists. repeat split. Qed.

(** A response that arrives after the list was emptied is dropped. *)
Example late_response_after_empty_list :
  exists h,
    run [ Render ["AAPL"]; Render []; Settle 0 (Fulfilled Samples.bundle) ] initial = Some h /\
    state h = idle /\ calls h = [["AAPL"]].
Proof. eexists. repeat split. Qed.

Example refreshing_is_reachable :
  run [ Render ["RELIANCE.NS"; "TCS.NS"]; Settle 0 (Fulfilled Samples.bundle); Tick 0 ]
      initial = Some Samples.refreshing.
Proof. reflexivity. Qed.

End DashboardHookFacts.

(* ------------------------------------------------------------------ *)
(** ** The AI chat widget *)

Section AIChatFacts.
Import AIChat.

Lemma quick_questions_templated :
  map (replaceFirst "{ticker}" "RELIANCE.NS") quickQuestions
  = [ "Should I buy RELIANCE.NS right now?";
      "What are the risks of RELIANCE.NS?";
      "Price target for RELIANCE.NS?";
      "Volume analysis for RELIANCE.NS?" ].
Proof. reflexivity. Qed.

(** A typed message is appended as a user message before the request. *)
Lemma sendMessage_appends_user_message (now : Clock) (st : Chat) :
  trim (inputMessage st) <> "" -> isLoading st = false ->
  messages (sendMessage now st)
  = (messages st ++ [ {| id := nowId now; sender := user;
                         content := trim (inputMessage st);
                         timestamp := nowLabel now |} ])%list /\
  asked (sendMessage now st)
  = (asked st ++ [(trim (inputMessage st), currentTicker st)])%list.
Proof.
  intros Hne Hl. unfold sendMessage.
  destruct (String.eqb_spec (trim (inputMessage st)) ""); [contradiction|].
  rewrite Hl. split; reflexivity.
Qed.

(** A quick question never touches the message list. *)
Lemma handleQuickQuestion_messages (question : string) (st : Chat) :
  messages (handleQuickQuestion question st) = messages st.
Proof. reflexivity. Qed.

(** C9, at the first quick question of a fresh widget: the template is
    filled with the selected ticker and the request is issued, but no user
    message is appended, the history still being the greeting alone; the
    same text typed and sent is appended as a user message first. *)
Theorem quick_question_appends_no_user_message (now : Clock) :
  let st := initial now in
  let clicked := handleQuickQuestion "Should I buy {ticker} right now?" st in
  let typed := sendMessage now (setInputMessage "Should I buy RELIANCE.NS right now?" st) in
  asked clicked = [("Should I buy RELIANCE.NS right now?", "RELIANCE.NS")] /\
  isLoading clicked = true /\
  messages clicked = messages st /\
  List.length (messages clicked) = 1 /\
  asked typed = asked clicked /\
  messages typed
  = (messages st ++ [ {| id := nowId now; sender := user;
                         content := "Should I buy RELIANCE.NS right now?";
                         timestamp := nowLabel now |} ])%list.
Proof. cbv zeta. repeat split. Qed.

End AIChatFacts.

(* ------------------------------------------------------------------ *)
(** ** More on the screener's condition list *)

Section QueryBuilderEdits.
Import QueryBuilder QueryEdits.

Lemma length_mapi {A B : Type} (f : A -> nat -> B) (base : nat) (l : list A) :
  List.length (mapi f base l) = List.length l.
Proof.
  revert base; induction l as [|x r IH]; intros base; cbn; [reflexivity|].
  now rewrite IH.
Qed.

Lemma nth_error_mapi {A B : Type} (f : A -> nat -> B) (base j : nat) (l : list A) :
  nth_error (mapi f base l) j = option_map (fun x => f x (base + j)) (nth_error l j).
Proof.
  revert base j; induction l as [|x r IH]; intros base [|j]; cbn; try reflexivity.
  - now rewrite Nat.add_0_r.
  - rewrite IH. now rewrite Nat.add_succ_r.
Qed.

Lemma filteri_keep_above {A : Type} (index base : nat) (l : list A) :
  index < base -> filteri (fun _ i => negb (Nat.eqb i index)) base l = l.
Proof.
  revert base; induction l as [|x r IH]; intros base Hlt; [reflexivity|].
  cbn [filteri]. destruct (Nat.eqb_spec base index); [lia|].
  cbn [negb]. f_equal. apply IH. lia.
Qed.

Lemma filteri_closed {A : Type} (index base : nat) (l : list A) :
  base <= index ->
  filteri (fun _ i => negb (Nat.eqb i index)) base l
  = (firstn (index - base) l ++ skipn (S (index - base)) l)%list.
Proof.
  revert base; induction l as [|x r IH]; intros base Hle.
  - cbn. now rewrite firstn_nil.
  - cbn [filteri]. destruct (Nat.eqb_spec base index) as [->|Hne].
    + cbn [negb]. rewrite Nat.sub_diag. cbn [firstn skipn app].
      rewrite filteri_keep_above by lia. reflexivity.
    + cbn [negb]. rewrite IH by lia.
      replace (index - base) with (S (index - S base)) by lia.
      reflexivity.
Qed.

(** X1: [updateCondition] is local: it keeps the number of conditions and every
    condition's comparison operator, leaves the conditions at all other
    indices as they are, gives the condition at [index] the operands
    [field, value], and changes nothing when [index] is past the end. *)
Theorem updateCondition_local (index : nat) (field value : JsValue) (q : Query) :
  let q' := updateCondition index field value q in
  operator q' = operator q /\
  List.length (operands q') = List.length (operands q) /\
  map cond_operator (operands q') = map cond_operator (operands q) /\
  (forall j, j <> index -> nth_error (operands q') j = nth_error (operands q) j) /\
  nth_error (operands q') index
  = option_map (edited field value) (nth_error (operands q) index) /\
  (List.length (operands q) <= index -> q' = q).
Proof.
  cbv zeta. unfold updateCondition; cbn [operator operands].
  assert (Hn : forall j, nth_error
            (mapi (fun operand i => if Nat.eqb i index then edited field value operand
                                    else operand) 0 (operands q)) j
          = if Nat.eqb j index then option_map (edited field value) (nth_error (operands q) j)
            else nth_error (operands q) j).
  { intros j. rewrite nth_error_mapi. cbn [Nat.add].
    destruct (Nat.eqb j index); [reflexivity|].
    now destruct (nth_error (operands q) j). }
  fold (edited field value).
  change (fun operand i => if Nat.eqb i index
                           then {| cond_operator := cond_operator operand;
                                   cond_operands := [field; value] |}
                           else operand)
    with (fun operand i => if Nat.eqb i index then edited field value operand else operand).
  split; [reflexivity|]. split; [apply length_mapi|].
  split.
  { apply nth_error_ext. intros j. rewrite !nth_error_map, Hn.
    destruct (Nat.eqb j index); [|reflexivity].
    now destruct (nth_error (operands q) j). }
  split.
  { intros j Hj. rewrite Hn. destruct (Nat.eqb_spec j index); [contradiction | reflexivity]. }
  split.
  { rewrite Hn. now rewrite Nat.eqb_refl. }
  intros Hle. destruct q as [op ops]; cbn [operator operands] in *. f_equal.
  apply nth_error_ext. intros j. rewrite Hn.
  destruct (Nat.eqb_spec j index) as [->|_]; [|reflexivity].
  assert (E : nth_error ops index = None) by (apply nth_error_None; exact Hle).
  now rewrite E.
Qed.

(** X2: [removeCondition] takes out exactly the condition at [index]: the
    conditions before and after it stay, in order; an index past the end
    removes nothing. *)
Theorem removeCondition_exact (index : nat) (q : Query) :
  operator (removeCondition index q) = operator q /\
  operands (removeCondition index q)
  = (firstn index (operands q) ++ skipn (S index) (operands q))%list /\
  (index < List.length (operands q) ->
     S (List.length (operands (removeCondition index q))) = List.length (operands q)) /\
  (List.length (operands q) <= index -> removeCondition index q = q).
Proof.
  assert (E : operands (removeCondition index q)
              = (firstn index (operands q) ++ skipn (S index) (operands q))%list).
  { cbn. rewrite filteri_closed by lia. now rewrite Nat.sub_0_r. }
  split; [reflexivity|]. split; [exact E|]. split.
  - intros Hlt. rewrite E, length_app, length_firstn, length_skipn. lia.
  - intros Hle. destruct q as [op ops]. unfold removeCondition; cbn [operator operands] in *.
    f_equal. apply filteri_keep_below. lia.
Qed.

Lemma filteri_after_edit (index base : nat) (g : Condition -> Condition) (l : list Condition) :
  filteri (fun _ i => negb (Nat.eqb i index)) base
    (mapi (fun operand i => if Nat.eqb i index then g operand else operand) base l)
  = filteri (fun _ i => negb (Nat.eqb i index)) base l.
Proof.
  revert base; induction l as [|x r IH]; intros base; [reflexivity|].
  cbn [mapi filteri]. destruct (Nat.eqb base index); cbn [negb]; now rewrite IH.
Qed.

(** X3: Editing a condition and then removing it is the same as removing it:
    nothing of the edit is left behind in the other conditions. *)
Theorem remove_after_update (index : nat) (field value : JsValue) (q : Query) :
  removeCondition index (updateCondition index field value q) = removeCondition index q.
Proof.
  unfold removeCondition, updateCondition; cbn [operator operands]. f_equal.
  apply (filteri_after_edit index 0 (edited field value)).
Qed.

End QueryBuilderEdits.

Section QueryBuilderInvariant.
Import QueryBuilder QueryEdits.

Lemma Forall_filteri {A : Type} (P : A -> Prop) (p : A -> nat -> bool) (base : nat)
    (l : list A) : Forall P l -> Forall P (filteri p base l).
Proof.
  intros H; revert base; induction H as [|x r Hx Hr IH]; intros base; cbn; [constructor|].
  destruct (p x base); [constructor; auto | auto].
Qed.

Lemma Forall_mapi {A : Type} (P : A -> Prop) (f : A -> nat -> A) (base : nat) (l : list A) :
  (forall x i, P x -> P (f x i)) -> Forall P l -> Forall P (mapi f base l).
Proof.
  intros Hf H; revert base; induction H as [|x r Hx Hr IH]; intros base; cbn;
    constructor; auto.
Qed.

Lemma apply_keeps_operators (e : Edit) (q : Query) :
  operator q = "AND" /\ Forall (fun c => cond_operator c = "GT") (operands q) ->
  operator (apply e q) = "AND" /\
  Forall (fun c => cond_operator c = "GT") (operands (apply e q)).
Proof.
  intros [Ho Hc]. destruct e as [|index field value|index]; cbn [apply].
  - split; [exact Ho|]. cbn. apply Forall_app. split; [exact Hc|].
    constructor; [reflexivity | constructor].
  - split; [exact Ho|]. cbn. apply Forall_mapi; [|exact Hc].
    intros x i Hx. now destruct (Nat.eqb i index).
  - split; [exact Ho|]. cbn. now apply Forall_filteri.
Qed.

(** X4: Whatever sequence of additions, updates and removals the screener's
    controls perform on the initial query, the query stays a top-level AND
    and every condition's comparison operator stays GT: no control changes an
    operator. *)
Theorem screener_operators_never_change (edits : list Edit) :
  operator (applyAll edits initialQuery) = "AND" /\
  Forall (fun c => cond_operator c = "GT") (operands (applyAll edits initialQuery)).
Proof.
  unfold applyAll.
  assert (H : operator initialQuery = "AND" /\
              Forall (fun c => cond_operator c = "GT") (operands initialQuery))
    by (split; [reflexivity | constructor]).
  revert H. generalize initialQuery.
  induction edits as [|e rest IH]; intros q H; cbn [fold_left]; [exact H|].
  apply IH. now apply apply_keeps_operators.
Qed.

End QueryBuilderInvariant.

(* ------------------------------------------------------------------ *)
(** ** More on the Yahoo-quote client *)

Section YahooLoop.
Import YahooClient.
Variable axios_get : nat -> string -> Settled (option Quote).
Variable toISOString : float -> Settled string.
Variable now : string.

Lemma kept_all_answered (l : list string) (base : nat) :
  (forall k t, nth_error l k = Some t ->
     exists quote iso,
       axios_get (base + k) (mapTickerToYahooSymbol t) = Fulfilled (Some quote) /\
       toISOString (orZero (regularMarketTime quote) * 1000)%float = Fulfilled iso) ->
  map StockData.ticker
    (flat_map (fun kt => kept axios_get toISOString (fst kt)
                           (mapTickerToYahooSymbol (snd kt))
                           (YahooClient.cleanTicker (snd kt)))
              (combine (seq base (List.length l)) l))
  = map YahooClient.cleanTicker l.
Proof.
  revert base; induction l as [|t r IH]; intros base Hall; [reflexivity|].
  cbn [List.length seq combine flat_map fst snd]. rewrite map_app. cbn [map].
  destruct (Hall 0 t eq_refl) as [q [iso [Hq Hiso]]]. rewrite Nat.add_0_r in Hq.
  unfold kept at 1. rewrite Hq, Hiso. cbn [map app answered StockData.ticker].
  f_equal. apply IH. intros k t' Hk. specialize (Hall (S k) t' Hk).
  now rewrite Nat.add_succ_r in Hall.
Qed.

(** X6: For a non-empty ticker list [getDashboardData] asks for exactly the
    given tickers: the requests issued through [getStockData] are one per
    ticker, in order, each for the ticker's Yahoo symbol.  The stocks of the
    bundle are decided by the service's answers: the [k]-th ticker gives one
    stock, under its cleaned name and with the fields of the quote, when the
    answer to the [k]-th request carries a quote whose time is valid, and
    nothing otherwise.  So the bundle never holds more stocks than tickers,
    and when every request is answered with such a quote it holds one stock
    per ticker, in the order given. *)
Theorem getDashboardData_follows_tickers (tickers : list string) :
  tickers <> [] ->
  let result := getDashboardData axios_get toISOString now tickers in
  snd result = map mapTickerToYahooSymbol tickers /\
  DashboardData.stocks (fst result)
  = flat_map
      (fun kt : nat * string =>
         match axios_get (fst kt) (mapTickerToYahooSymbol (snd kt)) with
         | Fulfilled (Some quote) =>
             match toISOString (orZero (regularMarketTime quote) * 1000)%float with
             | Fulfilled iso =>
                 [ {| StockData.ticker := YahooClient.cleanTicker (snd kt);
                      StockData.price := orZero (regularMarketPrice quote);
                      StockData.price_change_1d := orZero (regularMarketChangePercent quote);
                      StockData.price_change_5d := 0;
                      StockData.rsi := 0;
                      StockData.rsi_status := "NEUTRAL";
                      StockData.macd := 0;
                      StockData.macd_signal := 0;
                      StockData.ema20 := 0;
                      StockData.bollinger_high := 0;
                      StockData.bollinger_low := 0;
                      StockData.atr := 0;
                      StockData.trend :=
                        if (0 <? orZero (regularMarketChangePercent quote))%float
                        then "BULLISH" else "BEARISH";
                      StockData.volume := orZero (regularMarketVolume quote);
                      StockData.last_updated := iso |} ]
             | Rejected _ => []
             end
         | Fulfilled None => []
         | Rejected _ => []
         end)
      (combine (seq 0 (List.length tickers)) tickers) /\
  List.length (DashboardData.stocks (fst result)) <= List.length tickers /\
  ((forall k t, nth_error tickers k = Some t ->
      exists quote iso,
        axios_get k (mapTickerToYahooSymbol t) = Fulfilled (Some quote) /\
        toISOString (orZero (regularMarketTime quote) * 1000)%float = Fulfilled iso) ->
   map StockData.ticker (DashboardData.stocks (fst result))
   = map YahooClient.cleanTicker tickers).
Proof.
  intros Hne. cbv zeta. unfold getDashboardData.
  destruct tickers as [|t r] eqn:Et; [contradiction|]. rewrite <- Et. clear Hne.
  assert (Hpos : (0 <? List.length tickers)%nat = true) by (now subst).
  rewrite Hpos. cbn [fst snd DashboardData.stocks].
  rewrite rounds_closed. cbn [stocks requested app List.length].
  split; [reflexivity|]. split; [reflexivity|]. split.
  - rewrite (kept_at_most_one axios_get toISOString
               (fun kt => (mapTickerToYahooSymbol (snd kt), YahooClient.cleanTicker (snd kt)))).
    rewrite length_combine, length_seq. lia.
  - intros Hall. apply (kept_all_answered tickers 0). exact Hall.
Qed.

End YahooLoop.

Lemma getDashboardData_follows_tickers_witness :
  ["reliance"; "AAPL"] <> [] /\
  snd (YahooClient.getDashboardData YahooSamples.axios_get YahooSamples.toISOString
         YahooSamples.now ["reliance"; "AAPL"])
  = ["RELIANCE.NS"; "AAPL"] /\
  List.length (DashboardData.stocks
     (fst (YahooClient.getDashboardData YahooSamples.axios_get YahooSamples.toISOString
             YahooSamples.now ["reliance"; "AAPL"]))) <= 2 /\
  map StockData.ticker (DashboardData.stocks
     (fst (YahooClient.getDashboardData YahooSamples.axios_get YahooSamples.toISOString
             YahooSamples.now ["reliance"; "AAPL"])))
  = ["RELIANCE"; "AAPL"].
Proof.
  split; [discriminate|].
  destruct (getDashboardData_follows_tickers YahooSamples.axios_get YahooSamples.toISOString
              YahooSamples.now ["reliance"; "AAPL"] ltac:(discriminate))
    as [Hlog [_ [Hlen Hall]]].
  split; [exact Hlog|]. split; [exact Hlen|].
  apply Hall. intros k t _.
  exists YahooSamples.quote, "2023-11-14T22:13:20.000Z". split; reflexivity.
Defined.

(* ------------------------------------------------------------------ *)
(** ** Sessions of the dashboard hook, and what the dashboard shows *)

Section HookSessions.
Import HookState DashboardHook HookSession.

(** An armed timer belongs to a run that is still mounted. *)
Lemma armed_is_mounted_step (ev : Event) (h h' : Hook) :
  (forall c cl, nth_error (closures h) c = Some cl -> interval cl = true -> isMounted cl = true) ->
  step ev h = Some h' ->
  forall c cl, nth_error (closures h') c = Some cl -> interval cl = true -> isMounted cl = true.
Proof.
  intros HI Hstep. destruct ev as [ts|c0|c0 r]; cbn [step] in Hstep.
  - injection Hstep as <-. intros c cl Hc Hi.
    unfold runEffect, cleanup in Hc; cbn [closures] in Hc.
    rewrite length_updateAt in Hc.
    set (n := List.length (closures h)) in *.
    assert (Hcl : nth_error (updateAt (n - 1)
                     (fun cl => if (0 <? List.length (tickers cl))%nat
                                then unmountClosure cl else cl) (closures h)
                   ++ [{| tickers := ts; isMounted := true;
                          interval := (0 <? List.length ts)%nat |}]) c = Some cl).
    { destruct (0 <? List.length ts)%nat; exact Hc. }
    clear Hc. destruct (Nat.lt_ge_cases c n) as [Hlt|Hge].
    + rewrite nth_error_app1 in Hcl by (rewrite length_updateAt; exact Hlt).
      rewrite nth_error_updateAt in Hcl.
      destruct (Nat.eqb c (n - 1)).
      * destruct (nth_error (closures h) c) as [cl0|] eqn:E; [|discriminate].
        cbv beta iota delta [option_map] in Hcl. injection Hcl as <-.
        revert Hi. destruct (0 <? List.length (tickers cl0))%nat;
          [unfold unmountClosure; cbn; intros Hi; discriminate Hi|].
        intros Hi. exact (HI _ _ E Hi).
      * exact (HI _ _ Hcl Hi).
    + rewrite nth_error_app2 in Hcl by (rewrite length_updateAt; exact Hge).
      rewrite length_updateAt in Hcl. fold n in Hcl.
      destruct (c - n) as [|k]; [|destruct k; discriminate].
      cbn in Hcl. now injection Hcl as <-.
  - unfold closureAt in Hstep.
    destruct (nth_error (closures h) c0) as [cl0|]; [|discriminate].
    destruct (interval cl0); [|discriminate]. injection Hstep as <-. exact HI.
  - unfold closureAt in Hstep.
    destruct (nth_error (closures h) c0) as [cl0|]; [|discriminate].
    destruct (existsb (Nat.eqb c0) (inflight h)); [|discriminate].
    injection Hstep as <-. exact HI.
Qed.

Lemma armed_is_mounted (h : Hook) :
  reachable h ->
  forall c cl, nth_error (closures h) c = Some cl -> interval cl = true -> isMounted cl = true.
Proof.
  intros [evs Hrun].
  assert (H0 : forall c cl, nth_error (closures initial) c = Some cl ->
                 interval cl = true -> isMounted cl = true)
    by (intros [|c] cl; discriminate).
  revert Hrun H0. generalize initial.
  induction evs as [|ev rest IH]; intros h0 Hrun H0; cbn [run] in Hrun.
  - now injection Hrun as <-.
  - destruct (step ev h0) as [h1|] eqn:Hs; [|discriminate].
    apply (IH h1 Hrun). eapply armed_is_mounted_step; eassumption.
Qed.

Lemma filter_all_false {A : Type} (p : A -> bool) (l : list A) :
  (forall c x, nth_error l c = Some x -> p x = false) -> filter p l = [].
Proof.
  induction l as [|x r IH]; intros H; [reflexivity|].
  cbn. rewrite (H 0 x eq_refl). apply IH. intros c y Hc. exact (H (S c) y Hc).
Qed.

(** X7: No timer is leaked: in every state the hook can reach at most one timer
    is armed, and an armed timer belongs to the latest run of the effect,
    which is still mounted and has a non-empty ticker list. *)
Theorem at_most_one_timer (h : Hook) :
  reachable h ->
  List.length (armed h) <= 1 /\
  (forall c cl, nth_error (closures h) c = Some cl -> interval cl = true ->
     S c = List.length (closures h) /\ isMounted cl = true /\ tickers cl <> []).
Proof.
  intros Hr. pose proof (reachable_Inv h Hr) as [_ I2].
  assert (Hlast : forall c cl, nth_error (closures h) c = Some cl -> interval cl = true ->
                    S c = List.length (closures h) /\ isMounted cl = true /\ tickers cl <> []).
  { intros c cl Hc Hi.
    assert (Hlt : c < List.length (closures h)) by (apply nth_error_Some; congruence).
    split; [|split].
    - destruct (Nat.eq_dec (S c) (List.length (closures h))) as [E|NE]; [exact E|].
      destruct (I2 c cl Hc) as [Q _]; [left; lia | congruence].
    - exact (armed_is_mounted h Hr c cl Hc Hi).
    - intros Et. destruct (I2 c cl Hc) as [Q _]; [now right | congruence]. }
  split; [|exact Hlast].
  unfold armed. destruct (closures h) as [|x r] eqn:Ecl using rev_ind; [cbn; lia|].
  clear IHr. rewrite filter_app.
  rewrite (filter_all_false interval r).
  - cbn. destruct (interval x); cbn; lia.
  - intros c y Hc. destruct (interval y) eqn:Hi; [|reflexivity].
    assert (Hc' : nth_error (r ++ [x]) c = Some y).
    { rewrite nth_error_app1; [exact Hc | apply nth_error_Some; congruence]. }
    destruct (Hlast c y Hc' Hi) as [E _].
    assert (c < List.length r) by (apply nth_error_Some; congruence).
    rewrite length_app in E. cbn in E. lia.
Qed.

Lemma at_most_one_timer_witness :
  reachable Samples.refreshing /\
  List.length (armed Samples.refreshing) <= 1 /\
  (forall c cl, nth_error (closures Samples.refreshing) c = Some cl -> interval cl = true ->
     S c = List.length (closures Samples.refreshing) /\ isMounted cl = true /\
     tickers cl <> []).
Proof.
  assert (Hr : reachable Samples.refreshing).
  { exists [ Render ["RELIANCE.NS"; "TCS.NS"]; Settle 0 (Fulfilled Samples.bundle); Tick 0 ].
    reflexivity. }
  split; [exact Hr|]. exact (at_most_one_timer Samples.refreshing Hr).
Defined.

Lemma length_removeOne (c : nat) (l : list nat) :
  existsb (Nat.eqb c) l = true -> S (List.length (removeOne c l)) = List.length l.
Proof.
  induction l as [|x r IH]; cbn; [discriminate|].
  rewrite (Nat.eqb_sym x c). destruct (Nat.eqb c x); cbn; [reflexivity|].
  intros H. now rewrite IH.
Qed.

(** X8: The hook calls [getDashboardData] at a render with a non-empty list and
    at a timer tick, and at no other time: over any sequence of events the
    calls issued grow by exactly the number of such events, and the calls
    still awaited are those issued and not yet settled. *)
Theorem calls_are_accounted_for (evs : list Event) (h h' : Hook) :
  run evs h = Some h' ->
  List.length (calls h') = List.length (calls h) + issuedBy evs /\
  List.length (inflight h') + settledBy evs = List.length (inflight h) + issuedBy evs.
Proof.
  revert h; induction evs as [|ev rest IH]; intros h Hrun; cbn [run] in Hrun.
  - injection Hrun as <-. cbn. lia.
  - destruct (step ev h) as [h1|] eqn:Hs; [|discriminate].
    destruct (IH _ Hrun) as [C I]. unfold settledBy in *.
    cbn [issuedBy fold_right filter]. fold (issuedBy rest).
    destruct ev as [ts|c|c r]; cbn [step issued] in *.
    + injection Hs as <-. unfold runEffect, cleanup in C, I.
      destruct (0 <? List.length ts)%nat; unfold fetchData_call in C, I;
        cbn [calls inflight closures state tickers] in C, I;
        rewrite ?length_app in C, I; cbn [List.length] in C, I; lia.
    + unfold closureAt in Hs.
      destruct (nth_error (closures h) c) as [cl|]; [|discriminate].
      destruct (interval cl); [|discriminate]. injection Hs as <-.
      unfold fetchData_call in C, I; cbn [calls inflight] in C, I.
      rewrite length_app in C, I; cbn [List.length] in C, I; lia.
    + unfold closureAt in Hs.
      destruct (nth_error (closures h) c) as [cl|]; [|discriminate].
      destruct (existsb (Nat.eqb c) (inflight h)) eqn:Hin; [|discriminate].
      injection Hs as <-. cbn [calls inflight] in C, I.
      pose proof (length_removeOne _ _ Hin). cbn [List.length]. lia.
Qed.

Lemma calls_are_accounted_for_witness :
  run [ Render ["RELIANCE.NS"; "TCS.NS"]; Settle 0 (Fulfilled Samples.bundle); Tick 0 ]
      initial = Some Samples.refreshing /\
  List.length (calls Samples.refreshing) = List.length (calls initial) + 2 /\
  List.length (inflight Samples.refreshing) + 1 = List.length (inflight initial) + 2.
Proof.
  split; [reflexivity|].
  exact (calls_are_accounted_for
           [ Render ["RELIANCE.NS"; "TCS.NS"]; Settle 0 (Fulfilled Samples.bundle); Tick 0 ]
           initial Samples.refreshing eq_refl).
Defined.

Lemma step_keeps_loading (ev : Event) (h h' : Hook) :
  endsLoading h ev = false -> step ev h = Some h' ->
  loading (state h) = true -> state h' = state h.
Proof.
  intros He Hs Hl. destruct ev as [ts|c|c r]; cbn [endsLoading step] in *.
  - injection Hs as <-. unfold runEffect.
    destruct ts as [|t ts']; [discriminate He|]. cbn [List.length Nat.ltb Nat.leb].
    unfold fetchData_call, cleanup. cbn [state]. destruct (state h) as [d l e].
    cbn in Hl. subst l. reflexivity.
  - unfold closureAt in Hs.
    destruct (nth_error (closures h) c) as [cl|]; [|discriminate].
    destruct (interval cl); [|discriminate]. injection Hs as <-.
    unfold fetchData_call. cbn [state]. destruct (state h) as [d l e].
    cbn in Hl. subst l. reflexivity.
  - unfold closureAt in *.
    destruct (nth_error (closures h) c) as [cl|]; [|discriminate].
    destruct (existsb (Nat.eqb c) (inflight h)); [|discriminate].
    injection Hs as <-. rewrite He. cbn [state]. now destruct r.
Qed.

Lemma runLoading_keeps_state (evs : list Event) (h h' : Hook) :
  runLoading evs h = Some h' -> loading (state h) = true -> state h' = state h.
Proof.
  revert h; induction evs as [|ev rest IH]; intros h Hrun Hl; cbn [runLoading] in Hrun.
  - now injection Hrun as <-.
  - destruct (endsLoading h ev) eqn:He; [discriminate|].
    destruct (step ev h) as [h1|] eqn:Hs; [|discriminate].
    pose proof (step_keeps_loading ev h h1 He Hs Hl) as E.
    rewrite <- E. apply IH; [exact Hrun | now rewrite E].
Qed.

(** X9: Every call the hook issues, at a render or at a refresh tick, makes
    the dashboard show the spinner in place of its content, although the
    data loaded before is still in the hook's state.  The spinner stays
    through further ticks, renders with tickers and calls settling for runs
    that are no longer mounted; it ends with the next call that settles for
    a mounted run and with the next render that empties the ticker list,
    whichever comes first. *)
Theorem every_fetch_shows_spinner (ev : Event) (evs : list Event) (h h1 h' : Hook) :
  issued ev = 1 -> step ev h = Some h1 -> runLoading evs h1 = Some h' ->
  Dashboard.render (state h1) = Dashboard.Spinner /\
  Dashboard.render (state h') = Dashboard.Spinner /\
  data (state h') = data (state h) /\
  error (state h') = error (state h) /\
  (forall last h'', endsLoading h' last = true -> step last h' = Some h'' ->
     loading (state h'') = false /\ Dashboard.render (state h'') <> Dashboard.Spinner).
Proof.
  intros Hi Hs Hrun.
  assert (E1 : state h1 = setLoading true (state h)).
  { destruct ev as [ts|c|c r]; cbn [issued step] in *.
    - injection Hs as <-. unfold runEffect.
      destruct (0 <? List.length ts)%nat; [reflexivity | discriminate].
    - unfold closureAt in Hs.
      destruct (nth_error (closures h) c) as [cl|]; [|discriminate].
      destruct (interval cl); [|discriminate]. now injection Hs as <-.
    - discriminate. }
  assert (E' : state h' = state h1).
  { apply (runLoading_keeps_state evs); [exact Hrun | now rewrite E1]. }
  rewrite E', E1. repeat split.
  - destruct last as [ts|c|c r]; cbn [endsLoading step] in *.
    + injection H0 as <-. unfold runEffect.
      destruct ts; [reflexivity | discriminate H].
    + discriminate H.
    + unfold closureAt in *.
      destruct (nth_error (closures h') c) as [cl|]; [|discriminate].
      destruct (existsb (Nat.eqb c) (inflight h')); [|discriminate].
      injection H0 as <-. rewrite H. cbn [state]. now destruct r.
  - assert (L : loading (state h'') = false).
    { destruct last as [ts|c|c r]; cbn [endsLoading step] in *.
      + injection H0 as <-. unfold runEffect.
        destruct ts; [reflexivity | discriminate H].
      + discriminate H.
      + unfold closureAt in *.
        destruct (nth_error (closures h') c) as [cl|]; [|discriminate].
        destruct (existsb (Nat.eqb c) (inflight h')); [|discriminate].
        injection H0 as <-. rewrite H. cbn [state]. now destruct r. }
    unfold Dashboard.render. rewrite L.
    destruct (Dashboard.truthy (error (state h''))); [discriminate|].
    destruct (data (state h'')); discriminate.
Qed.

Lemma every_fetch_shows_spinner_witness :
  issued (Tick 0) = 1 /\
  step (Tick 0) Samples.refreshing
  = Some (fetchData_call 0 {| tickers := ["RELIANCE.NS"; "TCS.NS"]; isMounted := true;
                              interval := true |} Samples.refreshing) /\
  (exists h',
     runLoading [Tick 0; Render ["AAPL"]; Settle 0 (Rejected Samples.networkError); Tick 1]
       (fetchData_call 0 {| tickers := ["RELIANCE.NS"; "TCS.NS"]; isMounted := true;
                            interval := true |} Samples.refreshing) = Some h' /\
     Dashboard.render (state h') = Dashboard.Spinner /\
     data (state h') = Some Samples.bundle /\
     error (state h') = None /\
     (forall last h'', endsLoading h' last = true -> step last h' = Some h'' ->
        loading (state h'') = false /\ Dashboard.render (state h'') <> Dashboard.Spinner)).
Proof.
  split; [reflexivity|]. split; [reflexivity|].
  eexists. split; [reflexivity|].
  exact (proj2 (every_fetch_shows_spinner (Tick 0)
           [Tick 0; Render ["AAPL"]; Settle 0 (Rejected Samples.networkError); Tick 1]
           Samples.refreshing _ _ eq_refl eq_refl eq_refl)).
Defined.

(** X10: What the dashboard shows once a call of a mounted run has settled.  A
    success shows the main view of the new bundle, whatever error was stored
    before.  A failure with a non-empty message shows the error view alone:
    the data of the last success stays in the state but is not displayed.  A
    failure whose message is the empty string is not treated as an error by
    the view, which shows the stale data, or the no-data notice if there is
    none. *)
Theorem dashboard_after_settle (h h' : Hook) (c : nat) (cl : Closure)
    (r : Settled DashboardData.t) :
  step (Settle c r) h = Some h' -> closureAt h c = Some cl -> isMounted cl = true ->
  match r with
  | Fulfilled d => Dashboard.render (state h') = mainView d
  | Rejected err =>
      data (state h') = data (state h) /\
      (fetchErrorMessage err <> "" ->
         Dashboard.render (state h') = Dashboard.ErrorView (fetchErrorMessage err)) /\
      (fetchErrorMessage err = "" ->
         Dashboard.render (state h') = dataView (data (state h)))
  end.
Proof.
  intros Hs Hc Hm. cbn [step] in Hs. rewrite Hc in Hs.
  destruct (existsb (Nat.eqb c) (inflight h)); [|discriminate].
  injection Hs as <-. rewrite Hm. cbn [state]. destruct r as [d|err].
  - reflexivity.
  - split; [reflexivity|]. unfold fetchData_settle, Dashboard.render.
    cbn [loading error data setLoading setError Dashboard.truthy].
    split; intros Hmsg.
    + destruct (String.eqb_spec (fetchErrorMessage err) ""); [contradiction | reflexivity].
    + rewrite Hmsg. cbn [String.eqb negb]. reflexivity.
Qed.

Lemma dashboard_after_settle_witness :
  step (Settle 0 (Rejected Samples.networkError)) Samples.refreshing
  = Some {| state := {| data := Some Samples.bundle; loading := false;
                        error := Some "Network Error" |};
            closures := closures Samples.refreshing;
            inflight := [];
            calls := calls Samples.refreshing |} /\
  closureAt Samples.refreshing 0
  = Some {| tickers := ["RELIANCE.NS"; "TCS.NS"]; isMounted := true; interval := true |} /\
  Some Samples.bundle = data (state Samples.refreshing) /\
  (fetchErrorMessage Samples.networkError <> "" ->
     Dashboard.render {| data := Some Samples.bundle; loading := false;
                         error := Some "Network Error" |}
     = Dashboard.ErrorView "Network Error") /\
  (fetchErrorMessage Samples.networkError = "" ->
     Dashboard.render {| data := Some Samples.bundle; loading := false;
                         error := Some "Network Error" |}
     = dataView (data (state Samples.refreshing))).
Proof.
  split; [reflexivity|]. split; [reflexivity|].
  exact (dashboard_after_settle Samples.refreshing _ 0 _ (Rejected Samples.networkError)
           eq_refl eq_refl eq_refl).
Defined.

End HookSessions.

(* ------------------------------------------------------------------ *)
(** ** Sessions of the chat widget *)

Section ChatSessions.
Import AIChat ChatSession.

Lemma trimStart_allSpaces (s : string) : allSpaces s = true -> trimStart s = "".
Proof.
  induction s as [|c r IH]; [reflexivity|].
  cbn. destruct (isSpace c); [exact IH | discriminate].
Qed.

Lemma trim_allSpaces (s : string) : allSpaces s = true -> trim s = "".
Proof. intros H. unfold trim. now rewrite trimStart_allSpaces. Qed.

Lemma act_appends (a : Action) (st : Chat) :
  exists added, messages (act a st) = (messages st ++ added)%list.
Proof.
  destruct a as [value|now|question|now newTicker|now r]; cbn [act].
  - exists []. cbn. now rewrite app_nil_r.
  - unfold sendMessage.
    destruct (String.eqb (trim (inputMessage st)) "" || isLoading st).
    + exists []. now rewrite app_nil_r.
    + eexists. cbn. reflexivity.
  - exists []. cbn. now rewrite app_nil_r.
  - eexists. cbn. reflexivity.
  - unfold askQuestion_settle. destruct r as [data|err].
    + destruct (hasError data).
      * eexists. cbn. reflexivity.
      * destruct (contextCard data); eexists; cbn; [rewrite <- app_assoc|]; reflexivity.
    + eexists. cbn. reflexivity.
Qed.

(** X12: The history is append-only: whatever the user types, sends, clicks or
    selects and whatever answers arrive, in any order, the messages already
    shown stay where they are, unchanged, and new ones only follow them. *)
Theorem chat_history_is_append_only (actions : list Action) (st : Chat) :
  exists added, messages (session actions st) = (messages st ++ added)%list.
Proof.
  unfold session. revert st; induction actions as [|a rest IH]; intros st; cbn [fold_left].
  - exists []. now rewrite app_nil_r.
  - destruct (IH (act a st)) as [more Hmore]. destruct (act_appends a st) as [added Ha].
    exists (added ++ more)%list. now rewrite Hmore, Ha, app_assoc.
Qed.

(** X13: Sending does nothing at all when the input holds only white space or
    while an answer is awaited: no message is added, no request is issued and
    the input is left as typed. *)
Theorem sendMessage_ignores_blank_or_busy (now : Clock) (st : Chat) :
  allSpaces (inputMessage st) = true \/ isLoading st = true ->
  sendMessage now st = st.
Proof.
  intros [Hb|Hl]; unfold sendMessage.
  - now rewrite (trim_allSpaces _ Hb).
  - rewrite Hl. now rewrite orb_true_r.
Qed.

Lemma sendMessage_ignores_blank_or_busy_witness :
  (allSpaces "   " = true \/ false = true) /\
  sendMessage {| nowId := "1700000000000"; nowLabel := "10:15 AM" |}
    (setInputMessage "   " (initial {| nowId := "1"; nowLabel := "10:14 AM" |}))
  = setInputMessage "   " (initial {| nowId := "1"; nowLabel := "10:14 AM" |}).
Proof.
  split; [left; reflexivity|].
  exact (sendMessage_ignores_blank_or_busy _
           (setInputMessage "   " (initial {| nowId := "1"; nowLabel := "10:14 AM" |}))
           (or_introl eq_refl)).
Defined.

(** X14: An answer, whether it arrives, carries an error or fails to arrive,
    always ends the loading state and adds one or two messages, all of them
    from the assistant; it issues no request and leaves the ticker and the
    input alone. *)
Theorem every_answer_ends_loading (now : Clock) (r : Settled Reply) (st : Chat) :
  let st' := askQuestion_settle now r st in
  isLoading st' = false /\
  asked st' = asked st /\
  currentTicker st' = currentTicker st /\
  inputMessage st' = inputMessage st /\
  exists added,
    messages st' = (messages st ++ added)%list /\
    1 <= List.length added <= 2 /\
    forallb isAi added = true.
Proof.
  cbv zeta. unfold askQuestion_settle. destruct r as [data|err].
  - destruct (hasError data).
    + repeat split. eexists. cbn. split; [reflexivity|]. split; [cbn; lia | reflexivity].
    + destruct (contextCard data); repeat split; eexists; cbn;
        (split; [try rewrite <- app_assoc; reflexivity|]); split; try reflexivity; cbn; lia.
  - repeat split. eexists. cbn. split; [reflexivity|]. split; [cbn; lia | reflexivity].
Qed.

(** X15: A complete exchange from an idle widget: typing a text that is not
    blank, sending it and receiving a plain answer leaves the widget idle
    again with an empty input, one request issued for the trimmed text and the
    current ticker, and exactly two messages added: the trimmed text from the
    user, then the answer from the assistant. *)
Theorem typed_exchange (now later : Clock) (value reply : string) (st : Chat) :
  trim value <> "" -> isLoading st = false ->
  let st' := session [ TypeText value; Send now;
                       Answer later (Fulfilled {| hasError := false; answer := Some reply;
                                                  contextCard := None |}) ] st in
  isLoading st' = false /\
  inputMessage st' = "" /\
  asked st' = (asked st ++ [(trim value, currentTicker st)])%list /\
  messages st'
  = (messages st ++ [ {| id := nowId now; sender := user; content := trim value;
                         timestamp := nowLabel now |};
                      {| id := nowId later; sender := ai; content := reply;
                         timestamp := nowLabel later |} ])%list.
Proof.
  intros Hv Hl. cbv zeta. unfold session; cbn [fold_left act].
  unfold sendMessage. cbn [inputMessage setInputMessage isLoading].
  destruct (String.eqb_spec (trim value) ""); [contradiction|].
  rewrite Hl. cbn. rewrite <- app_assoc. repeat split.
Qed.

Lemma typed_exchange_witness :
  trim "  Is TCS a buy? " <> "" /\
  isLoading (initial {| nowId := "1"; nowLabel := "10:14 AM" |}) = false /\
  asked (session
           [ TypeText "  Is TCS a buy? ";
             Send {| nowId := "2"; nowLabel := "10:15 AM" |};
             Answer {| nowId := "3"; nowLabel := "10:16 AM" |}
               (Fulfilled {| hasError := false; answer := Some "Hold for now.";
                             contextCard := None |}) ]
           (initial {| nowId := "1"; nowLabel := "10:14 AM" |}))
  = [("Is TCS a buy?", "RELIANCE.NS")].
Proof.
  split; [discriminate|]. split; [reflexivity|].
  exact (proj1 (proj2 (proj2
    (typed_exchange {| nowId := "2"; nowLabel := "10:15 AM" |}
       {| nowId := "3"; nowLabel := "10:16 AM" |} "  Is TCS a buy? " "Hold for now."
       (initial {| nowId := "1"; nowLabel := "10:14 AM" |})
       ltac:(discriminate) eq_refl)))).
Defined.

(** Switching the ticker keeps the history, adds one system notice, and
    scopes what is asked next to the new ticker: a quick question is filled
    with it and sent for it. *)
Theorem ticker_switch_scopes_next_question (now : Clock) (newTicker question : string)
    (st : Chat) :
  let st1 := handleTickerChange now newTicker st in
  messages st1
  = (messages st ++ [ {| id := nowId now; sender := system;
                         content := "Switched to analyzing " ++ labelOf newTicker;
                         timestamp := nowLabel now |} ])%list /\
  asked st1 = asked st /\
  asked (handleQuickQuestion question st1)
  = (asked st ++ [(replaceFirst "{ticker}" newTicker question, newTicker)])%list.
Proof. cbv zeta. repeat split. Qed.

End ChatSessions.

(* ------------------------------------------------------------------ *)
(** ** The ticker selector *)

Section TickerSelectorFacts.
Import JsString TickerSelector.

Lemma includes_app (l r : list string) (x : string) :
  includes (l ++ r) x = includes l x || includes r x.
Proof. unfold includes. apply existsb_app. Qed.

Lemma includes_filter_out (l : list string) (t u : string) :
  includes (filter (fun x => negb (String.eqb x t)) l) u
  = includes l u && negb (String.eqb u t).
Proof.
  unfold includes. induction l as [|x r IH]; [reflexivity|].
  cbn [filter existsb]. destruct (String.eqb_spec x t) as [->|Hx]; cbn [negb existsb].
  - rewrite IH. destruct (String.eqb_spec u t); cbn.
    + now rewrite !andb_false_r.
    + now rewrite !andb_true_r.
  - rewrite IH. destruct (String.eqb_spec u x) as [->|Hu]; cbn; [|reflexivity].
    destruct (String.eqb_spec x t); [contradiction|]. reflexivity.
Qed.

Lemma filter_out_absent (l : list string) (t : string) :
  includes l t = false -> filter (fun x => negb (String.eqb x t)) l = l.
Proof.
  unfold includes. induction l as [|x r IH]; [reflexivity|].
  cbn [existsb filter]. rewrite (String.eqb_sym t x).
  destruct (String.eqb x t); cbn; [discriminate|].
  intros H. now rewrite IH.
Qed.

(** X16: Clicking a ticker's checkbox flips whether the ticker is selected and
    changes the selection of no other ticker. *)
Theorem toggle_flips_only_that_ticker (selected : list string) (ticker other : string) :
  includes (handleTickerChange selected ticker) ticker = negb (includes selected ticker) /\
  (other <> ticker ->
   includes (handleTickerChange selected ticker) other = includes selected other).
Proof.
  unfold handleTickerChange. destruct (includes selected ticker) eqn:Hin.
  - rewrite !includes_filter_out. split.
    + rewrite String.eqb_refl. now rewrite andb_false_r.
    + intros Hne. destruct (String.eqb_spec other ticker); [contradiction|].
      now rewrite andb_true_r.
  - rewrite !includes_app. split.
    + rewrite Hin. cbn. now rewrite String.eqb_refl.
    + intros Hne. cbn. destruct (String.eqb_spec other ticker); [contradiction|].
      now rewrite !orb_false_r.
Qed.

(** X17: Checking and then unchecking a ticker that was not selected gives back
    the list as it was; unchecking and then checking a selected one keeps the
    other tickers in order and puts that ticker, once, at the end. *)
Theorem toggle_twice (selected : list string) (ticker : string) :
  (includes selected ticker = false ->
   handleTickerChange (handleTickerChange selected ticker) ticker = selected) /\
  (includes selected ticker = true ->
   handleTickerChange (handleTickerChange selected ticker) ticker
   = (filter (fun t => negb (String.eqb t ticker)) selected ++ [ticker])%list).
Proof.
  split; intros Hin.
  - unfold handleTickerChange at 2. rewrite Hin.
    unfold handleTickerChange. rewrite includes_app. cbn [includes existsb].
    rewrite String.eqb_refl, orb_true_r. cbn [orb].
    rewrite filter_app. cbn [filter]. rewrite String.eqb_refl. cbn [negb].
    rewrite app_nil_r. now apply filter_out_absent.
  - unfold handleTickerChange at 2. rewrite Hin.
    unfold handleTickerChange. rewrite includes_filter_out, String.eqb_refl.
    cbn [negb]. now rewrite andb_false_r.
Qed.

Lemma includes_false_not_In (l : list string) (x : string) :
  includes l x = false -> ~ In x l.
Proof.
  unfold includes. intros H Hin.
  assert (E : existsb (String.eqb x) l = true).
  { apply existsb_exists. exists x. split; [exact Hin | apply String.eqb_refl]. }
  congruence.
Qed.

(** X18: Adding a custom ticker never creates a duplicate: when the handler
    changes the list, the key was Enter, the new entry is the trimmed,
    upper-cased text, it is not empty, it was not in the list, and a list
    without duplicates stays without duplicates.  Text that is blank, or whose
    upper-cased form is already selected, changes nothing. *)
Theorem custom_ticker_adds_no_duplicate (selected : list string) (key value : string)
    (changed : list string) :
  handleCustomTicker selected key value = Some changed ->
  key = "Enter" /\
  changed = (selected ++ [toUpperCase (AIChat.trim value)])%list /\
  toUpperCase (AIChat.trim value) <> "" /\
  ~ In (toUpperCase (AIChat.trim value)) selected /\
  (NoDup selected -> NoDup changed).
Proof.
  unfold handleCustomTicker.
  destruct (String.eqb_spec key "Enter") as [Hk|]; [|discriminate].
  destruct (String.eqb_spec (toUpperCase (AIChat.trim value)) "") as [|Hne]; [discriminate|].
  destruct (includes selected (toUpperCase (AIChat.trim value))) eqn:Hin; [discriminate|].
  cbn [negb andb]. intros H. injection H as <-.
  pose proof (includes_false_not_In _ _ Hin) as Hnot.
  repeat split; try assumption.
  intros Hnd. apply NoDup_app; [exact Hnd | repeat constructor; intros [] | ].
  intros x Hx [<-|[]]. contradiction.
Qed.

Lemma custom_ticker_adds_no_duplicate_witness :
  handleCustomTicker ["AAPL"; "MSFT"] "Enter" " nvda " = Some ["AAPL"; "MSFT"; "NVDA"] /\
  "Enter" = "Enter" /\
  ["AAPL"; "MSFT"; "NVDA"] = (["AAPL"; "MSFT"] ++ [toUpperCase (AIChat.trim " nvda ")])%list /\
  toUpperCase (AIChat.trim " nvda ") <> "" /\
  ~ In (toUpperCase (AIChat.trim " nvda ")) ["AAPL"; "MSFT"] /\
  (NoDup ["AAPL"; "MSFT"] -> NoDup ["AAPL"; "MSFT"; "NVDA"]).
Proof.
  split; [reflexivity|].
  exact (custom_ticker_adds_no_duplicate ["AAPL"; "MSFT"] "Enter" " nvda " _ eq_refl).
Defined.

Lemma custom_ticker_ignored (selected : list string) (key value : string) :
  key <> "Enter" \/ AIChat.allSpaces value = true
  \/ includes selected (toUpperCase (AIChat.trim value)) = true ->
  handleCustomTicker selected key value = None.
Proof.
  unfold handleCustomTicker. intros [Hk|[Hb|Hin]].
  - destruct (String.eqb_spec key "Enter"); [contradiction | reflexivity].
  - rewrite (trim_allSpaces _ Hb). cbn. now destruct (String.eqb key "Enter").
  - rewrite Hin. rewrite andb_false_r. now destruct (String.eqb key "Enter").
Qed.

End TickerSelectorFacts.

(* ------------------------------------------------------------------ *)
(** ** The bulk downloader's ticker list *)

Section TrimFacts.
Import AIChat EnhancedDownloader.

Lemma allSpaces_trimEnd (s : string) : allSpaces (trimEnd s) = allSpaces s.
Proof.
  induction s as [|c r IH]; [reflexivity|].
  cbn [trimEnd]. destruct (allSpaces (String c r)) eqn:Ha; [reflexivity|].
  cbn [allSpaces] in *. now rewrite IH.
Qed.

Lemma trimEnd_idem (s : string) : trimEnd (trimEnd s) = trimEnd s.
Proof.
  induction s as [|c r IH]; [reflexivity|].
  cbn [trimEnd]. destruct (allSpaces (String c r)) eqn:Ha; [reflexivity|].
  cbn [trimEnd allSpaces]. rewrite allSpaces_trimEnd.
  cbn [allSpaces] in Ha. rewrite Ha. now rewrite IH.
Qed.

Lemma trimStart_noLeadingSpace (s : string) : noLeadingSpace (trimStart s) = true.
Proof.
  induction s as [|c r IH]; [reflexivity|].
  cbn [trimStart]. destruct (isSpace c) eqn:Hc; [exact IH|]. cbn. now rewrite Hc.
Qed.

Lemma trimStart_fixed (s : string) : noLeadingSpace s = true -> trimStart s = s.
Proof.
  destruct s as [|c r]; [reflexivity|]. cbn.
  destruct (isSpace c); [discriminate | reflexivity].
Qed.

Lemma trimEnd_noLeadingSpace (s : string) :
  noLeadingSpace s = true -> noLeadingSpace (trimEnd s) = true.
Proof.
  destruct s as [|c r]; [reflexivity|]. intros H.
  cbn [trimEnd]. destruct (allSpaces (String c r)); [reflexivity | exact H].
Qed.

Lemma trim_idem (s : string) : trim (trim s) = trim s.
Proof.
  unfold trim. rewrite (trimStart_fixed (trimEnd (trimStart s))).
  - apply trimEnd_idem.
  - apply trimEnd_noLeadingSpace, trimStart_noLeadingSpace.
Qed.

Lemma trimStart_not_allSpaces (s : string) :
  allSpaces s = false -> allSpaces (trimStart s) = false.
Proof.
  induction s as [|c r IH]; [discriminate|].
  cbn [allSpaces trimStart]. destruct (isSpace c) eqn:Hc; cbn [andb].
  - exact IH.
  - intros _. cbn. now rewrite Hc.
Qed.

Lemma trim_not_empty (s : string) : allSpaces s = false -> trim s <> "".
Proof.
  intros H. unfold trim. apply trimStart_not_allSpaces in H.
  destruct (trimStart s) as [|c r]; [discriminate|].
  cbn [trimEnd]. rewrite H. discriminate.
Qed.

End TrimFacts.

Section DownloaderFacts.
Import JsString AIChat EnhancedDownloader.

Lemma split_not_nil (s : string) : split s <> [].
Proof.
  induction s as [|c r IH]; cbn; [discriminate|].
  destruct (Ascii.eqb c comma); [discriminate|].
  destruct (split r); [contradiction | discriminate].
Qed.

Lemma split_commaFree (s : string) : Forall (fun p => commaFree p = true) (split s).
Proof.
  induction s as [|c r IH]; cbn [split].
  - repeat constructor.
  - destruct (Ascii.eqb c comma) eqn:Hc.
    + constructor; [reflexivity | exact IH].
    + destruct (split r) as [|p ps]; [repeat constructor; cbn; now rewrite Hc|].
      inversion IH as [|? ? Hp Hps]; subst.
      constructor; [cbn; now rewrite Hc, Hp | exact Hps].
Qed.

Lemma commaFree_trimStart (s : string) : commaFree s = true -> commaFree (trimStart s) = true.
Proof.
  induction s as [|c r IH]; [reflexivity|].
  cbn [commaFree trimStart]. intros H. apply andb_prop in H as [Hc Hr].
  destruct (isSpace c); [now apply IH | cbn; now rewrite Hc, Hr].
Qed.

Lemma commaFree_trimEnd (s : string) : commaFree s = true -> commaFree (trimEnd s) = true.
Proof.
  induction s as [|c r IH]; [reflexivity|].
  cbn [commaFree trimEnd]. intros H. apply andb_prop in H as [Hc Hr].
  destruct (allSpaces (String c r)); [reflexivity|]. cbn. now rewrite Hc, IH.
Qed.

(** X19: Every entry of the ticker list the downloader sends is well formed:
    it is not empty, carries no white space around it, and holds no comma, so
    joining the list with commas is unambiguous. *)
Theorem tickerList_entries (tickers : string) :
  Forall entry (tickerList tickers).
Proof.
  unfold tickerList. apply Forall_forall. intros t Hin.
  apply filter_In in Hin as [Hin Hne]. apply in_map_iff in Hin as [p [<- Hp]].
  split; [|split].
  - destruct (String.eqb_spec (trim p) ""); [discriminate | assumption].
  - apply trim_idem.
  - pose proof (proj1 (Forall_forall _ _) (split_commaFree tickers) _ Hp) as Hc.
    unfold trim. now apply commaFree_trimEnd, commaFree_trimStart.
Qed.

Lemma split_single (a : string) : commaFree a = true -> split a = [a].
Proof.
  induction a as [|c r IH]; [reflexivity|].
  cbn [commaFree split]. intros H. apply andb_prop in H as [Hc Hr].
  destruct (Ascii.eqb c comma); [discriminate|]. now rewrite (IH Hr).
Qed.

Lemma split_cons (a rest : string) :
  commaFree a = true -> split (a ++ "," ++ rest) = a :: split rest.
Proof.
  induction a as [|c r IH]; [reflexivity|].
  cbn [commaFree]. intros H. apply andb_prop in H as [Hc Hr].
  change (String c r ++ "," ++ rest) with (String c (r ++ "," ++ rest)).
  cbn [split]. destruct (Ascii.eqb c comma); [discriminate|]. now rewrite (IH Hr).
Qed.

Lemma split_join (l : list string) :
  l <> [] -> Forall (fun t => commaFree t = true) l -> split (join "," l) = l.
Proof.
  induction l as [|a r IH]; [contradiction|]. intros _ H.
  inversion H as [|? ? Ha Hr]; subst.
  destruct r as [|b r'].
  - cbn [join]. now apply split_single.
  - change (join "," (a :: b :: r')) with (a ++ "," ++ join "," (b :: r')).
    rewrite split_cons by exact Ha. f_equal. apply IH; [discriminate | exact Hr].
Qed.

(** X20: The ticker list round-trips: joining well-formed entries with commas, as
    the request does, and reading the text back gives the same entries, in
    order. *)
Theorem tickerList_of_join (l : list string) :
  Forall entry l -> tickerList (join "," l) = l.
Proof.
  intros H. unfold tickerList. destruct l as [|a r]; [reflexivity|].
  rewrite split_join; [|discriminate|].
  - induction H as [|t ts [Hne [Ht _]] Hts IH]; [reflexivity|].
    cbn [map filter]. rewrite Ht.
    destruct (String.eqb_spec t ""); [contradiction|]. cbn [negb]. now rewrite IH.
  - eapply Forall_impl; [|exact H]. intros t [_ [_ Hc]]. exact Hc.
Qed.

Lemma tickerList_of_join_witness :
  Forall entry ["RELIANCE.NS"; "TCS.NS"] /\
  tickerList "RELIANCE.NS,TCS.NS" = ["RELIANCE.NS"; "TCS.NS"].
Proof.
  assert (H : Forall entry ["RELIANCE.NS"; "TCS.NS"]).
  { repeat constructor; discriminate. }
  split; [exact H|]. exact (tickerList_of_join ["RELIANCE.NS"; "TCS.NS"] H).
Defined.

Lemma split_blank (s : string) :
  blank s = true -> Forall (fun p => allSpaces p = true) (split s).
Proof.
  induction s as [|c r IH]; cbn [blank split]; [repeat constructor|].
  intros H. apply andb_prop in H as [Hc Hr]. specialize (IH Hr).
  destruct (Ascii.eqb c comma); [constructor; [reflexivity | exact IH]|].
  cbn [orb] in Hc. destruct (split r) as [|p ps]; [repeat constructor; cbn; now rewrite Hc|].
  inversion IH as [|? ? Hp Hps]; subst.
  constructor; [cbn; now rewrite Hc, Hp | exact Hps].
Qed.

Lemma split_not_blank (s : string) :
  blank s = false -> Exists (fun p => allSpaces p = false) (split s).
Proof.
  induction s as [|c r IH]; cbn [blank split]; [discriminate|].
  intros H. destruct (Ascii.eqb c comma) eqn:Hc; cbn [orb andb] in H.
  - right. now apply IH.
  - destruct (isSpace c) eqn:Hs; cbn [andb] in H.
    + specialize (IH H). destruct (split r) as [|p ps]; [inversion IH|].
      inversion IH as [? ? Hp|? ? Hps]; subst.
      * left. cbn. now rewrite Hs, Hp.
      * now right.
    + destruct (split r) as [|p ps]; left; cbn; now rewrite Hs.
Qed.

Lemma tickerList_blank (s : string) : blank s = true -> tickerList s = [].
Proof.
  intros H. unfold tickerList. pose proof (split_blank s H) as Hall.
  induction Hall as [|p ps Hp Hps IH]; [reflexivity|].
  cbn [map filter]. rewrite (trim_allSpaces _ Hp). cbn. exact IH.
Qed.

Lemma tickerList_not_blank (s : string) : blank s = false -> tickerList s <> [].
Proof.
  intros H. unfold tickerList. pose proof (split_not_blank s H) as Hex.
  induction Hex as [p ps Hp|p ps Hps IH]; cbn [map filter].
  - destruct (String.eqb_spec (trim p) "") as [E|_]; [|discriminate].
    exfalso. exact (trim_not_empty p Hp E).
  - destruct (negb (String.eqb (trim p) "")); [discriminate | exact IH].
Qed.

(** X21: The download needs a ticker.  When the ticker text holds nothing but
    commas and white space the handler stops with the message asking for a
    ticker: no request is sent, loading is off, and an earlier result is kept.
    For any other text exactly one request is sent, carrying the non-empty
    ticker list, the error is cleared and loading is on. *)
Theorem download_needs_a_ticker (f : Form) :
  (blank (tickers f) = true ->
     handleDownload_call f
     = withStatus false (Some noTickerMessage) (result f) (requests f) f) /\
  (blank (tickers f) = false ->
     tickerList (tickers f) <> [] /\
     handleDownload_call f
     = withStatus true None (result f)
         (requests f ++ [params f (tickerList (tickers f))])%list f).
Proof.
  unfold handleDownload_call. split; intros H.
  - now rewrite (tickerList_blank _ H).
  - pose proof (tickerList_not_blank _ H) as Hne. split; [exact Hne|].
    destruct (tickerList (tickers f)); [contradiction | reflexivity].
Qed.

End DownloaderFacts.

(* ------------------------------------------------------------------ *)
(** ** Price-change colour and arrow *)

Section PriceChangeFacts.
Import FastInfoPrice.

(** X22: The colour and the arrow of the FastInfo card always tell the same
    story: green goes with the rising arrow, red with the falling one, gray
    with the flat one; and both are neutral whenever either price is missing,
    zero or NaN, whatever the other price is. *)
Theorem price_colour_matches_arrow (current previous : option float) :
  (getPriceChangeColor current previous = "text-green-600"
   <-> getPriceChangeIcon current previous = ArrowUp) /\
  (getPriceChangeColor current previous = "text-red-600"
   <-> getPriceChangeIcon current previous = ArrowDown) /\
  (getPriceChangeColor current previous = "text-gray-600"
   <-> getPriceChangeIcon current previous = ArrowFlat) /\
  (falsy current = true \/ falsy previous = true ->
   getPriceChangeColor current previous = "text-gray-600" /\
   getPriceChangeIcon current previous = ArrowFlat).
Proof.
  unfold getPriceChangeColor, getPriceChangeIcon.
  destruct (falsy current) eqn:Hc; destruct (falsy previous) eqn:Hp; cbn [orb];
    try (destruct (gt current previous); [|destruct (gt previous current)]);
    repeat split; intros; try reflexivity; try discriminate;
    repeat match goal with E : _ \/ _ |- _ => destruct E end;
    try discriminate; repeat split.
Qed.

End PriceChangeFacts.

(* ------------------------------------------------------------------ *)
(** ** The news card's preview *)

Section PreviewFacts.
Import NewsPreview.

Lemma length_substring (n m : nat) (s : string) :
  n + m <= String.length s -> String.length (substring n m s) = m.
Proof.
  revert n m; induction s as [|c r IH]; intros n m H; cbn in H.
  - assert (n = 0) by lia. assert (m = 0) by lia. subst. reflexivity.
  - destruct n as [|n]; cbn.
    + destruct m as [|m]; [reflexivity|]. cbn. f_equal. apply (IH 0). cbn. lia.
    + apply IH. lia.
Qed.

Lemma length_append (a b : string) :
  String.length (a ++ b) = String.length a + String.length b.
Proof. induction a as [|c r IH]; cbn; [reflexivity | now rewrite IH]. Qed.

Lemma substring_prefix (m : nat) (s : string) : prefix (substring 0 m s) s = true.
Proof.
  revert m; induction s as [|c r IH]; intros [|m]; cbn; try reflexivity.
  destruct (ascii_dec c c); [apply IH | contradiction].
Qed.

(** X23: The preview of a news body never exceeds 153 characters.  A body of at
    most 150 characters is shown whole; a longer one is cut to its first 150
    characters, followed by three dots; an empty body shows no paragraph. *)
Theorem preview_is_bounded (content : string) :
  (content = "" -> preview content = None) /\
  (content <> "" ->
   exists shown, preview content = Some shown /\
     String.length shown <= 153 /\
     (String.length content <= 150 -> shown = content) /\
     (150 < String.length content ->
        exists head, shown = head ++ "..." /\ String.length head = 150 /\
                     prefix head content = true)).
Proof.
  unfold preview. split.
  - intros ->. reflexivity.
  - intros Hne. destruct (String.eqb_spec content ""); [contradiction|].
    eexists. split; [reflexivity|].
    destruct (Nat.ltb_spec 150 (String.length content)) as [Hlong|Hshort].
    + split; [|split].
      * rewrite length_append, length_substring by (cbn; lia). cbn. lia.
      * intros H. lia.
      * intros _. exists (substring 0 150 content).
        split; [reflexivity|]. split; [apply length_substring; cbn; lia|].
        apply substring_prefix.
    + split; [lia|]. split; [reflexivity|]. intros H. lia.
Qed.

End PreviewFacts.

(* ------------------------------------------------------------------ *)
(** ** The sector and industry search *)

Section DomainSearchFacts.
Import JsString AIChat DomainPanel.

Lemma lowerChar_idem (c : ascii) : lowerChar (lowerChar c) = lowerChar c.
Proof. destruct c as [[] [] [] [] [] [] [] []]; reflexivity. Qed.

Lemma isSpace_lowerChar (c : ascii) : isSpace (lowerChar c) = isSpace c.
Proof. destruct c as [[] [] [] [] [] [] [] []]; reflexivity. Qed.

Lemma toLowerCase_idem (s : string) : toLowerCase (toLowerCase s) = toLowerCase s.
Proof.
  induction s as [|c r IH]; cbn; [reflexivity|]. now rewrite lowerChar_idem, IH.
Qed.

Section Recased.
(** A change of letter case that keeps white space. *)
Variable recase : ascii -> ascii.
Hypothesis recase_space : forall c, isSpace (recase c) = isSpace c.

Lemma allSpaces_recased (s : string) : allSpaces (Recase.recased recase s) = allSpaces s.
Proof.
  induction s as [|c r IH]; cbn; [reflexivity|]. now rewrite recase_space, IH.
Qed.

Lemma trimStart_recased (s : string) :
  trimStart (Recase.recased recase s) = Recase.recased recase (trimStart s).
Proof.
  induction s as [|c r IH]; cbn; [reflexivity|].
  rewrite recase_space. destruct (isSpace c); [exact IH | reflexivity].
Qed.

Lemma trimEnd_recased (s : string) :
  trimEnd (Recase.recased recase s) = Recase.recased recase (trimEnd s).
Proof.
  induction s as [|c r IH]; [reflexivity|].
  change (Recase.recased recase (String c r))
    with (String (recase c) (Recase.recased recase r)).
  cbn [trimEnd allSpaces]. rewrite recase_space, allSpaces_recased.
  destruct (isSpace c && allSpaces r); [reflexivity|]. cbn [Recase.recased]. now rewrite IH.
Qed.

Lemma trim_recased_empty (s : string) :
  String.eqb (trim (Recase.recased recase s)) "" = String.eqb (trim s) "".
Proof.
  unfold trim. rewrite trimStart_recased, trimEnd_recased.
  now destruct (trimEnd (trimStart s)).
Qed.
End Recased.

Lemma toLowerCase_recased (s : string) : toLowerCase s = Recase.recased lowerChar s.
Proof. induction s as [|c r IH]; cbn; [reflexivity | now rewrite IH]. Qed.

Lemma prefix_refl (s : string) : prefix s s = true.
Proof.
  induction s as [|c r IH]; cbn; [reflexivity|].
  destruct (ascii_dec c c); [exact IH | contradiction].
Qed.

Lemma includes_refl (s : string) : includes s s = true.
Proof.
  destruct s as [|c r]; [reflexivity|]. cbn [includes]. now rewrite prefix_refl.
Qed.

(** X24: The search of the sector and industry panels.  A query of white
    space only shows every domain.  Any other query shows exactly the
    domains whose lower-cased name, key or symbol contains the lower-cased
    query, in their order: a domain that matches in none of the three is
    hidden, and a domain whose name is the query up to lower-casing is
    always found.  Lower-casing the query beforehand changes nothing. *)
Theorem domain_search (searchQuery : string) (domains : list DomainData) :
  (allSpaces searchQuery = true -> filteredDomains searchQuery domains = domains) /\
  (trim searchQuery <> "" ->
     filteredDomains searchQuery domains
     = filter (fun d =>
                 includes (toLowerCase (name d)) (toLowerCase searchQuery)
                 || includes (toLowerCase (key d)) (toLowerCase searchQuery)
                 || includes (toLowerCase (symbol d)) (toLowerCase searchQuery))
              domains) /\
  (trim searchQuery <> "" ->
     forall d, In d (filteredDomains searchQuery domains) <->
               In d domains /\
               (includes (toLowerCase (name d)) (toLowerCase searchQuery) = true \/
                includes (toLowerCase (key d)) (toLowerCase searchQuery) = true \/
                includes (toLowerCase (symbol d)) (toLowerCase searchQuery) = true)) /\
  List.length (filteredDomains searchQuery domains) <= List.length domains /\
  (forall d, In d (filteredDomains searchQuery domains) -> In d domains) /\
  (forall d, In d domains -> toLowerCase (name d) = toLowerCase searchQuery ->
             In d (filteredDomains searchQuery domains)) /\
  filteredDomains (toLowerCase searchQuery) domains = filteredDomains searchQuery domains.
Proof.
  unfold filteredDomains. split; [|split; [|split; [|split; [|split; [|split]]]]].
  - intros Hb. now rewrite (trim_allSpaces _ Hb).
  - intros Hne. destruct (String.eqb_spec (trim searchQuery) ""); [contradiction|].
    reflexivity.
  - intros Hne d. destruct (String.eqb_spec (trim searchQuery) ""); [contradiction|].
    rewrite filter_In. unfold matches. rewrite !orb_true_iff. tauto.
  - destruct (String.eqb (trim searchQuery) ""); [lia | apply filter_length_le].
  - intros d. destruct (String.eqb (trim searchQuery) ""); [auto|].
    intros Hin. now apply filter_In in Hin.
  - intros d Hin Hname. destruct (String.eqb (trim searchQuery) ""); [exact Hin|].
    apply filter_In. split; [exact Hin|]. unfold matches.
    now rewrite Hname, includes_refl.
  - rewrite toLowerCase_recased, (trim_recased_empty lowerChar isSpace_lowerChar).
    rewrite <- toLowerCase_recased.
    destruct (String.eqb (trim searchQuery) ""); [reflexivity|].
    apply filter_ext. intros d. unfold matches. now rewrite toLowerCase_idem.
Qed.

End DomainSearchFacts.

(* ------------------------------------------------------------------ *)
(** ** Sentiment styles and letter case *)

Section SentimentCaseFacts.
Import JsString DomainPanel.

(** Lower-casing first never changes whether the upper case of a code unit
    is a given ASCII code unit. *)
Lemma upperChar_lowerChar_ascii (c d : ascii) :
  (nat_of_ascii d <? 128)%nat = true ->
  Ascii.eqb (upperChar (lowerChar c)) d = Ascii.eqb (upperChar c) d.
Proof.
  destruct d as [d0 d1 d2 d3 d4 d5 d6 d7]. intros Hd.
  assert (E : d7 = false).
  { destruct d7; [|reflexivity]. exfalso.
    destruct d0, d1, d2, d3, d4, d5, d6; vm_compute in Hd; discriminate Hd. }
  subst d7. clear Hd.
  destruct c as [[] [] [] [] [] [] [] []];
    match goal with
    | |- Ascii.eqb ?a _ = Ascii.eqb ?b _ =>
        let a' := eval vm_compute in a in
        let b' := eval vm_compute in b in
        change a with a'; change b with b'
    end;
    try reflexivity;
    unfold Ascii.eqb; cbn [Bool.eqb];
    match goal with
    | |- (if ?x then _ else _) = (if ?y then _ else _) =>
        destruct x; destruct y; reflexivity
    end.
Qed.

Lemma toUpperCase_toLowerCase_ascii (s k : string) :
  JsText.isAscii k = true ->
  String.eqb (toUpperCase (toLowerCase s)) k = String.eqb (toUpperCase s) k.
Proof.
  revert k; induction s as [|c r IH]; intros [|d k] Hk; try reflexivity.
  cbn [JsText.isAscii] in Hk. apply andb_true_iff in Hk. destruct Hk as [Hd Hk].
  cbn [toLowerCase toUpperCase String.eqb].
  rewrite upperChar_lowerChar_ascii, (IH k Hk); [reflexivity|].
  apply N.ltb_lt in Hd. apply Nat.ltb_lt.
  unfold nat_of_ascii. lia.
Qed.

(** X26: The sentiment style of a news card does not depend on the letter case
    of the label, and the confidence bar below it always has the colour of the
    card: green with the positive style, red with the negative one, gray with
    the neutral and the default ones. *)
Theorem sentiment_style_ignores_case (sentiment : string) :
  NewsCard.getSentimentColor (toUpperCase sentiment) = NewsCard.getSentimentColor sentiment /\
  NewsCard.getSentimentColor (toLowerCase sentiment) = NewsCard.getSentimentColor sentiment /\
  NewsCardBar.barClass (toLowerCase sentiment) = NewsCardBar.barClass sentiment /\
  (bg (NewsCard.getSentimentColor sentiment) = "bg-green-50"
   <-> NewsCardBar.barClass sentiment = "bg-gradient-to-r from-green-400 to-green-500") /\
  (bg (NewsCard.getSentimentColor sentiment) = "bg-red-50"
   <-> NewsCardBar.barClass sentiment = "bg-gradient-to-r from-red-400 to-red-500") /\
  (bg (NewsCard.getSentimentColor sentiment) = "bg-gray-50"
   <-> NewsCardBar.barClass sentiment = "bg-gradient-to-r from-gray-400 to-gray-500").
Proof.
  unfold NewsCard.getSentimentColor, NewsCardBar.barClass. cbv zeta.
  rewrite toUpperCase_idem.
  rewrite !(toUpperCase_toLowerCase_ascii sentiment) by reflexivity.
  split; [reflexivity|]. split; [reflexivity|]. split; [reflexivity|].
  destruct (String.eqb (toUpperCase sentiment) "POSITIVE");
    [|destruct (String.eqb (toUpperCase sentiment) "NEGATIVE");
      [|destruct (String.eqb (toUpperCase sentiment) "NEUTRAL")]];
    cbn [bg NewsCard.defaultStyle]; repeat split; intros H; try reflexivity; discriminate H.
Qed.

End SentimentCaseFacts.

(* ------------------------------------------------------------------ *)
(** ** The sign of a stock card's change label *)

Section StockCardFacts.
Import JsNumber StockCard.
Variable shortest : float -> string.

Lemma abs_abs (x : float) : abs (abs x) = abs x.
Proof.
  apply Prim2SF_inj. rewrite !abs_spec. now destruct (Prim2SF x).
Qed.

(** [toFixed] prints the sign of a number and then its magnitude. *)
Lemma toFixed_sign (f : nat) (x : float) :
  toFixed shortest f x
  = match Prim2SF x with
    | S754_nan => "NaN"
    | S754_zero _ => toFixed shortest f (abs x)
    | S754_infinity s | S754_finite s _ _ => signOf s ++ toFixed shortest f (abs x)
    end.
Proof.
  unfold toFixed, numberToString. rewrite abs_abs, !abs_spec.
  destruct (Prim2SF x) as [s|s| |s m e]; cbn [SFabs signOf append]; reflexivity.
Qed.

(** X27: The change label of a stock card carries exactly one sign, and the sign
    goes with the colour: for a change that is at least zero (negative zero
    included) the label is a plus sign and the magnitude, in green; otherwise
    it is a minus sign and the magnitude, in red, or the text NaN% in red when
    the change is not a number. *)
Theorem change_label_has_one_sign (stock : StockData.t) :
  let x := StockData.price_change_1d stock in
  (isPositive stock = true ->
     changeClass stock = "text-green-600" /\
     changeLabel shortest stock = "+" ++ toFixed shortest 2 (abs x) ++ "%") /\
  (isPositive stock = false ->
     changeClass stock = "text-red-600" /\
     (changeLabel shortest stock = "-" ++ toFixed shortest 2 (abs x) ++ "%"
      \/ (Prim2SF x = S754_nan /\ changeLabel shortest stock = "NaN%"))).
Proof.
  cbv zeta. unfold changeLabel, changeClass, isPositive.
  rewrite leb_spec. change (Prim2SF 0) with (S754_zero false).
  rewrite (toFixed_sign 2 (StockData.price_change_1d stock)).
  destruct (Prim2SF (StockData.price_change_1d stock)) as [s|s| |s m e];
    try destruct s; cbn [SFleb SFcompare signOf];
    split; intros H; try discriminate H; split; try reflexivity;
    solve [left; reflexivity | right; split; reflexivity].
Qed.

End StockCardFacts.

(* ------------------------------------------------------------------ *)
(** ** The hook after the ticker list is emptied *)

Section EmptiedList.
Import HookState DashboardHook HookSession.

Lemma closures_stay (evs : list Event) (h h' : Hook) :
  forallb (fun ev => negb (isRender ev)) evs = true ->
  run evs h = Some h' -> closures h' = closures h.
Proof.
  revert h; induction evs as [|ev rest IH]; intros h Hno Hrun; cbn [run] in Hrun.
  - now injection Hrun as <-.
  - cbn [forallb] in Hno. apply andb_prop in Hno as [Hev Hrest].
    destruct (step ev h) as [h1|] eqn:Hs; [|discriminate].
    rewrite (IH _ Hrest Hrun).
    destruct ev as [ts|c|c r]; [discriminate| |]; cbn [step] in Hs; unfold closureAt in Hs;
      (destruct (nth_error (closures h) c) as [cl|]; [|discriminate]).
    + destruct (interval cl); [|discriminate]. now injection Hs as <-.
    + destruct (existsb (Nat.eqb c) (inflight h)); [|discriminate]. now injection Hs as <-.
Qed.

(** X11: Emptying the ticker list stops the hook for good: from any state the
    hook can reach, a render with the empty list issues no call, leaves no
    timer armed and sets the idle state (no data, not loading, no error), and
    whatever timers fire or responses arrive afterwards, until the next
    render, none of this changes. *)
Theorem emptied_list_stops_the_hook (h h' : Hook) (evs : list Event) :
  reachable h ->
  forallb (fun ev => negb (isRender ev)) evs = true ->
  run (Render [] :: evs) h = Some h' ->
  calls h' = calls h /\ state h' = idle /\ armed h' = [].
Proof.
  intros Hr Hno Hrun. cbn [run step] in Hrun.
  destruct (render_empty h (reachable_Inv h Hr)) as (C & S' & Q).
  destruct (allQuiet_stays _ _ _ Q Hno Hrun) as [C' S''].
  split; [congruence|]. split; [congruence|].
  unfold armed. rewrite (closures_stay _ _ _ Hno Hrun).
  apply filter_all_false. intros c cl Hc. now destruct (Q c cl Hc).
Qed.

Lemma emptied_list_stops_the_hook_witness :
  reachable Samples.refreshing /\
  forallb (fun ev => negb (isRender ev)) [Settle 0 (Fulfilled Samples.bundle)] = true /\
  run [Render []; Settle 0 (Fulfilled Samples.bundle)] Samples.refreshing
  = Some {| state := idle;
            closures := [ {| tickers := ["RELIANCE.NS"; "TCS.NS"]; isMounted := false;
                             interval := false |};
                          {| tickers := []; isMounted := true; interval := false |} ];
            inflight := [];
            calls := calls Samples.refreshing |} /\
  calls Samples.refreshing = calls Samples.refreshing /\
  idle = idle /\
  armed {| state := idle;
           closures := [ {| tickers := ["RELIANCE.NS"; "TCS.NS"]; isMounted := false;
                            interval := false |};
                         {| tickers := []; isMounted := true; interval := false |} ];
           inflight := [];
           calls := calls Samples.refreshing |} = [].
Proof.
  assert (Hr : reachable Samples.refreshing).
  { exists [ Render ["RELIANCE.NS"; "TCS.NS"]; Settle 0 (Fulfilled Samples.bundle); Tick 0 ].
    reflexivity. }
  split; [exact Hr|]. split; [reflexivity|]. split; [reflexivity|].
  exact (emptied_list_stops_the_hook Samples.refreshing _
           [Settle 0 (Fulfilled Samples.bundle)] Hr eq_refl eq_refl).
Defined.

End EmptiedList.
